(** * Whisperwynd-Forge: the image-generation route of [app/app.py]

    A shallow embedding of the Flask application [src/app/app.py]:
    [upload_blob], [handle_api_error], [check_api_configuration],
    [generate_image], [convert_html_to_pdf] and [health_check], followed
    by the properties of the job submission / polling / decoding protocol
    and of the other routes.

    Conventions of the embedding.
    - Python values obtained from JSON are the inductive [json].
    - The outside world (the generation API, the image host, Azure blob
      storage) is an oracle [env]: it fixes the reply of every request and
      how long the request takes.  Theorems quantify over every [env].
    - Effects are threaded through a state-and-exception monad [M] over a
      [world]: a clock (the value [time.time()] would return, in whole time
      units) and the chronological list of effects performed so far.
      Only requests and pauses take time; a pause lasts exactly as long
      as asked.
    - Python exceptions are the inductive [exn]; only subclasses of
      [Exception] are modelled.  Logging is not modelled. *)

From Stdlib Require Import ZArith List String Ascii Bool Lia Arith.
From Stdlib Require Strings.Byte.
Import ListNotations.

Local Open Scope string_scope.
Local Open Scope list_scope.
Local Open Scope Z_scope.

Set Implicit Arguments.
Set Warnings "-register-all".

(* ===================================================================== *)
(** ** Python values *)
(* ===================================================================== *)

(** A value decoded from JSON by [response.json()].  A [dict] is the list
    of its items (a Python dict has each key once; [assoc] takes the first
    binding).  Numbers are integers: the program only tests whether a
    number is zero. *)
Inductive json : Type :=
| JNull
| JBool (b : bool)
| JNum (n : Z)
| JStr (s : string)
| JList (items : list json)
| JObj (fields : list (string * json)).

(** Python truthiness ([bool(v)]). *)
Definition truthy (v : json) : bool :=
  match v with
  | JNull => false
  | JBool b => b
  | JNum n => negb (n =? 0)
  | JStr s => negb (s =? "")%string
  | JList l => match l with [] => false | _ => true end
  | JObj d => match d with [] => false | _ => true end
  end.

(** [a or b]. *)
Definition py_or (a b : json) : json := if truthy a then a else b.

Fixpoint assoc (k : string) (d : list (string * json)) : option json :=
  match d with
  | [] => None
  | (k', v) :: d' => if (k' =? k)%string then Some v else assoc k d'
  end.

(** [d.get(k, default)] on a dict. *)
Definition dict_get (d : list (string * json)) (k : string) (default : json) : json :=
  match assoc k d with Some v => v | None => default end.

(** [v == s] for a string literal [s]. *)
Definition str_eq (v : json) (s : string) : bool :=
  match v with JStr s' => (s' =? s)%string | _ => false end.

(** [s.startswith(p)]. *)
Definition startswith (s p : string) : bool := String.prefix p s.

(** [s.split(",", 1)[-1]]: what follows the first comma, or all of [s] when
    it has none. *)
Fixpoint after_first_comma_opt (s : string) : option string :=
  match s with
  | EmptyString => None
  | String c s' => if (c =? ",")%char then Some s' else after_first_comma_opt s'
  end.

Definition split_comma_last (s : string) : string :=
  match after_first_comma_opt s with Some r => r | None => s end.

(** An f-string whose interpolated values are kept as values: the text
    that [str()] gives a nested value is not modelled. *)
Inductive fpart : Type :=
| Lit (s : string)
| Val (v : json).

Definition fstring := list fpart.

(* ===================================================================== *)
(** ** Exceptions *)
(* ===================================================================== *)

Inductive exn : Type :=
| RequestException (response : option Z)
    (** [requests.exceptions.RequestException] and its subclasses.
        [response] is the status code of the attached response:
        [Some code] for the [HTTPError] of [raise_for_status], [None] for
        a failure of the transport (connection, DNS, TLS, time-out,
        broken stream), which has no response. *)
| ValueError (msg : string)
| RuntimeError (msg : fstring)
| TimeoutError (msg : string)
| AttributeError (msg : string)
| TypeError (msg : string)
| BinasciiError (msg : string)
| FileNotFoundError (path : string)
| AzureError (msg : string).

(** [isinstance(e, requests.exceptions.RequestException)]. *)
Definition is_request_exception (e : exn) : bool :=
  match e with RequestException _ => true | _ => false end.

(** [error.response] when [hasattr(error, "response") and error.response
    is not None]; only request exceptions have the attribute. *)
Definition response_status (e : exn) : option Z :=
  match e with RequestException r => r | _ => None end.

(* ===================================================================== *)
(** ** [base64.b64decode] (standard library, non-validating mode) *)
(* ===================================================================== *)

Definition byte := Byte.byte.

Definition byte_of_N (n : N) : byte := byte_of_ascii (ascii_of_N n).

(** The base64 alphabet: the 6-bit value of a character, if any. *)
Definition b64_value (c : ascii) : option N :=
  let n := N_of_ascii c in
  (if (65 <=? n) && (n <=? 90) then Some (n - 65)
   else if (97 <=? n) && (n <=? 122) then Some (n - 71)
   else if (48 <=? n) && (n <=? 57) then Some (n + 4)
   else if n =? 43 then Some 62
   else if n =? 47 then Some 63
   else None)%N.

(** The decoder state of [binascii.a2b_base64]: position in the current
    quad, bits left over, pads seen in a row, bytes produced (reversed). *)
Record b64_state : Type := mk_b64 {
  quad_pos : N;
  leftchar : N;
  pads : N;
  out_rev : list byte
}.

(** The decoder loop: [inl st] when the input is exhausted, [inr bytes]
    when a complete pad sequence ended the decoding early. *)
Fixpoint a2b_loop (s : string) (st : b64_state) : b64_state + list byte :=
  match s with
  | EmptyString => inl st
  | String c s' =>
      if (c =? "=")%char then
        if (2 <=? quad_pos st)%N then
          if (4 <=? quad_pos st + (pads st + 1))%N then inr (rev (out_rev st))
          else a2b_loop s' (mk_b64 (quad_pos st) (leftchar st) (pads st + 1) (out_rev st))
        else a2b_loop s' st
      else
        match b64_value c with
        | None => a2b_loop s' st
        | Some v =>
            let st' :=
              match quad_pos st with
              | 0%N => mk_b64 1 v 0 (out_rev st)
              | 1%N => mk_b64 2 (N.land v 15) 0
                         (byte_of_N (N.lor (N.shiftl (leftchar st) 2) (N.shiftr v 4))
                          :: out_rev st)
              | 2%N => mk_b64 3 (N.land v 3) 0
                         (byte_of_N (N.lor (N.shiftl (leftchar st) 4) (N.shiftr v 2))
                          :: out_rev st)
              | _ => mk_b64 0 0 0
                         (byte_of_N (N.lor (N.shiftl (leftchar st) 6) v) :: out_rev st)
              end in
            a2b_loop s' st'
        end
  end.

Fixpoint all_ascii (s : string) : bool :=
  match s with
  | EmptyString => true
  | String c s' => (N_of_ascii c <? 128)%N && all_ascii s'
  end.

(** [base64.b64decode(s)] for a [str] argument. *)
Definition b64decode (s : string) : exn + list byte :=
  if negb (all_ascii s) then
    inl (ValueError "string argument should contain only ASCII characters")
  else
    match a2b_loop s (mk_b64 0 0 0 []) with
    | inr bytes => inr bytes
    | inl st =>
        if (quad_pos st =? 0)%N then inr (rev (out_rev st))
        else if (quad_pos st =? 1)%N then
          inl (BinasciiError "Invalid base64-encoded string: number of data characters cannot be 1 more than a multiple of 4")
        else inl (BinasciiError "Incorrect padding")
    end.

(* ===================================================================== *)
(** ** The world: clock, effects, and the oracle for the outside *)
(* ===================================================================== *)

(** Effects, in the order the program performs them.  A request is
    recorded when it is issued, whatever its reply. *)
Inductive event : Type :=
| EvPost (prompt width height : json)
    (** [requests.post(f"{API_URL}/run", ...)] *)
| EvPoll (job_id : json) (issued returned : Z)
    (** [requests.get(status_url, ...)], with the clock at the call and
        at its return *)
| EvSleep (duration : Z)
    (** [time.sleep(duration)] *)
| EvFetch (url : string)
    (** [requests.get(image_url, stream=True, ...)] *)
| EvOpen (path : string)
    (** [open(path, "wb")]: the file is created or truncated *)
| EvWrite (path : string) (data : list byte)
    (** [f.write(data)] *)
| EvCreateContainer (container : string)
| EvUploadBlob (container blob : string) (data : list byte) (overwrite : bool).

Record world : Type := mk_world {
  now : Z;
  trace : list event
}.

(** The reply to a request of the generation API, and the time the
    request took.  [NoResponse] is a failure below HTTP.  A reply carries
    its body as decoded by [response.json()]: bodies that are not JSON are
    not modelled. *)
Inductive http_outcome : Type :=
| NoResponse (latency : nat)
| Replied (latency : nat) (status_code : Z) (body : json).

(** A streamed body either ends or breaks after the chunks received. *)
Inductive stream_end : Type := StreamDone | StreamBroken.

Inductive fetch_outcome : Type :=
| FetchNoResponse
| Fetched (status_code : Z) (chunks : list (list byte)) (ending : stream_end).

(** The outside world.  The Azure fields say which exception, if any, the
    corresponding SDK call raises. *)
Record env : Type := mk_env {
  post_reply : http_outcome;
  poll_reply : nat -> http_outcome;
  fetch_reply : string -> fetch_outcome;
  az_from_connection_string : option string -> option exn;
  az_get_container_client : option exn;
  az_create_container : option exn;
  az_get_blob_client : option exn;
  az_upload_blob : option exn
}.

(** The module-level configuration read from the environment. *)
Record config : Type := mk_config {
  API_TOKEN : option string;
  BEARER_TOKEN : option string;
  AZURE_CONN_STR : option string;
  CONTAINER_NAME : string
}.

Definition API_URL : string := "".

(* ===================================================================== *)
(** ** The state-and-exception monad *)
(* ===================================================================== *)

(** [Diverge] is the polling loop running out of fuel; [poll_loop_total]
    shows that it never happens. *)
Inductive outcome (A : Type) : Type :=
| Ok (a : A)
| Raise (e : exn)
| Diverge.

Arguments Ok {A} a.
Arguments Raise {A} e.
Arguments Diverge {A}.

Definition M (A : Type) : Type := world -> outcome A * world.

Definition ret {A} (a : A) : M A := fun w => (Ok a, w).

Definition bind {A B} (c : M A) (k : A -> M B) : M B :=
  fun w =>
    match c w with
    | (Ok a, w') => k a w'
    | (Raise e, w') => (Raise e, w')
    | (Diverge, w') => (Diverge, w')
    end.

Definition raise {A} (e : exn) : M A := fun w => (Raise e, w).

(** [try: c  except Exception as ex: h ex]. *)
Definition try_except {A} (c : M A) (h : exn -> M A) : M A :=
  fun w =>
    match c w with
    | (Raise e, w') => h e w'
    | r => r
    end.

Definition emit (ev : event) : M unit :=
  fun w => (Ok tt, mk_world (now w) (trace w ++ [ev])).

Definition advance (d : Z) : M unit :=
  fun w => (Ok tt, mk_world (now w + d) (trace w)).

(** [time.time()]. *)
Definition time_time : M Z := fun w => (Ok (now w), w).

(** [time.sleep(d)]. *)
Definition time_sleep (d : Z) : M unit :=
  bind (emit (EvSleep d)) (fun _ => advance d).

Definition lift {A} (r : exn + A) : M A :=
  match r with inl e => raise e | inr a => ret a end.

Definition raise_if (o : option exn) : M unit :=
  match o with Some e => raise e | None => ret tt end.

Declare Scope monad_scope.
Delimit Scope monad_scope with monad.
Notation "x <- c1 ;; c2" := (bind c1 (fun x => c2))
  (at level 61, c1 at next level, right associativity) : monad_scope.
Notation "c1 ;; c2" := (bind c1 (fun _ => c2))
  (at level 61, right associativity) : monad_scope.
Local Open Scope monad_scope.

(* ===================================================================== *)
(** ** The file system as seen through the effects *)
(* ===================================================================== *)

(** The content of [path] after the effects [tr], starting from [cur]. *)
Fixpoint file_content_from (path : string) (tr : list event)
    (cur : option (list byte)) : option (list byte) :=
  match tr with
  | [] => cur
  | EvOpen p :: tr' =>
      file_content_from path tr' (if (p =? path)%string then Some [] else cur)
  | EvWrite p d :: tr' =>
      file_content_from path tr'
        (if (p =? path)%string
         then Some (match cur with Some c => c ++ d | None => d end)
         else cur)
  | _ :: tr' => file_content_from path tr' cur
  end.

Definition file_content (path : string) (tr : list event) : option (list byte) :=
  file_content_from path tr None.

(** [with open(path, "rb") as data]. *)
Definition open_rb (path : string) : M (list byte) :=
  fun w =>
    match file_content path (trace w) with
    | Some d => (Ok d, w)
    | None => (Raise (FileNotFoundError path), w)
    end.

Definition is_file_event (ev : event) : bool :=
  match ev with EvOpen _ | EvWrite _ _ => true | _ => false end.

Definition is_fetch (ev : event) : bool :=
  match ev with EvFetch _ => true | _ => false end.

Definition is_poll (ev : event) : bool :=
  match ev with EvPoll _ _ _ => true | _ => false end.

(** The files the program opened for writing and what it wrote. *)
Definition file_events (tr : list event) : list event := filter is_file_event tr.
Definition fetches (tr : list event) : list event := filter is_fetch tr.
Definition polls (tr : list event) : list event := filter is_poll tr.

(* ===================================================================== *)
(** ** [requests] *)
(* ===================================================================== *)

(** [response.raise_for_status()]: an [HTTPError] carrying the response
    for the client and server error codes. *)
Definition raise_for_status (status_code : Z) : M unit :=
  if (400 <=? status_code) && (status_code <? 600)
  then raise (RequestException (Some status_code))
  else ret tt.

(** A request to the generation API: the clock advances by the latency,
    and a failure below HTTP raises an exception without response. *)
Definition api_call (r : http_outcome) : M (Z * json) :=
  match r with
  | NoResponse lat => advance (Z.of_nat lat) ;; raise (RequestException None)
  | Replied lat code body => advance (Z.of_nat lat) ;; ret (code, body)
  end.

Definition requests_post (e : env) (prompt width height : json)
  : M (Z * json) :=
  emit (EvPost prompt width height) ;;
  api_call (post_reply e).

Definition latency (r : http_outcome) : nat :=
  match r with NoResponse l => l | Replied l _ _ => l end.

(** The [n]-th [requests.get(status_url, ...)] of a run. *)
Definition requests_get_status (e : env) (job_id : json) (n : nat)
  : M (Z * json) :=
  t <- time_time ;;
  emit (EvPoll job_id t (t + Z.of_nat (latency (poll_reply e n)))) ;;
  api_call (poll_reply e n).

(** [v.get(k, default)]: only a dict has the method. *)
Definition py_get (v : json) (k : string) (default : json) : M json :=
  match v with
  | JObj d => ret (dict_get d k default)
  | _ => raise (AttributeError "object has no attribute 'get'")
  end.

(* ===================================================================== *)
(** ** [app.py]: utilities *)
(* ===================================================================== *)

(** [upload_blob(local_path, blob_name)].  The client is built before the
    [try]; inside it every exception is turned into [None], and the one of
    [create_container] is ignored. *)
Definition upload_blob (cfg : config) (e : env) (local_path blob_name : string)
  : M (option string) :=
  raise_if (az_from_connection_string e (AZURE_CONN_STR cfg)) ;;
  try_except
    (raise_if (az_get_container_client e) ;;
     try_except
       (emit (EvCreateContainer (CONTAINER_NAME cfg)) ;;
        raise_if (az_create_container e))
       (fun _ => ret tt) ;;
     raise_if (az_get_blob_client e) ;;
     data <- open_rb local_path ;;
     emit (EvUploadBlob (CONTAINER_NAME cfg) blob_name data true) ;;
     raise_if (az_upload_blob e) ;;
     ret (Some ("https://whiperimages.blob.core.windows.net/"
                  ++ CONTAINER_NAME cfg ++ "/" ++ blob_name)%string))
    (fun _ => ret None).

(** The dict that [handle_api_error] returns. *)
Record error_result : Type := mk_error {
  status : string;
  message : string;
  user_message : string;
  error_code : string;
  request_id : string
}.

(** [handle_api_error(error, request_id)]. *)
Definition handle_api_error (error : exn) (rid : string) : error_result :=
  let unknown :=
    mk_error "error" "An unexpected error occurred"
      "Something went wrong. Please try again or contact support."
      "UNKNOWN_ERROR" rid in
  match response_status error with
  | Some status_code =>
      if status_code =? 401 then
        mk_error "error"
          "API authentication failed. Please check your API configuration."
          "The image generator is not properly configured. Please contact the administrator."
          "AUTH_FAILED" rid
      else if status_code =? 403 then
        mk_error "error" "API access forbidden - insufficient permissions"
          "You don't have permission to use this service."
          "ACCESS_FORBIDDEN" rid
      else if status_code =? 429 then
        mk_error "error" "API rate limit exceeded"
          "Too many requests. Please try again in a few minutes."
          "RATE_LIMITED" rid
      else if status_code >=? 500 then
        mk_error "error" "External API service error"
          "The image generation service is temporarily unavailable. Please try again later."
          "SERVICE_ERROR" rid
      else unknown
  | None => unknown
  end.

(** [not v or v == placeholder] for a value of [os.environ.get]. *)
Definition missing_or_placeholder (v : option string) (placeholder : string) : bool :=
  match v with
  | None => true
  | Some s => (s =? "")%string || (s =? placeholder)%string
  end.

(** [check_api_configuration()]. *)
Definition check_api_configuration (cfg : config) : list string :=
  (if missing_or_placeholder (API_TOKEN cfg) "your_runpod_api_token_here"
   then ["API_TOKEN"] else [])
  ++ (if missing_or_placeholder (BEARER_TOKEN cfg) "your_bearer_token_here"
      then ["BEARER_TOKEN"] else [])
  ++ (if missing_or_placeholder (AZURE_CONN_STR cfg) "your_azure_connection_string_here"
      then ["AZURE_CONN_STR"] else []).

(** [GUID_REGEX]: hexadecimal groups of 8, 4, 4, 4 and 12 characters
    separated by dashes, letters in either case.  [true] stands for a
    hexadecimal digit and [false] for the dash. *)
Definition is_hex (c : ascii) : bool :=
  let n := N_of_ascii c in
  ((48 <=? n) && (n <=? 57) || (97 <=? n) && (n <=? 102) || (65 <=? n) && (n <=? 70))%N.

Definition guid_shape : list bool :=
  repeat true 8 ++ [false] ++ repeat true 4 ++ [false] ++ repeat true 4
  ++ [false] ++ repeat true 4 ++ [false] ++ repeat true 12.

Fixpoint match_shape (shape : list bool) (s : string) : option string :=
  match shape, s with
  | [], _ => Some s
  | _ :: _, EmptyString => None
  | h :: shape', String c s' =>
      if (if h then is_hex c else (c =? "-")%char)
      then match_shape shape' s' else None
  end.

(** [GUID_REGEX.match(s)]: the final [$] also matches before a newline
    that ends the string. *)
Definition guid_match (s : string) : bool :=
  match match_shape guid_shape s with
  | Some rest => (rest =? "")%string || (rest =? String "010" "")%string
  | None => false
  end.

(* ===================================================================== *)
(** ** [app.py]: the [/generate] route *)
(* ===================================================================== *)

(** The bound on the elapsed time and the pause between two polls. *)
Definition max_wait : Z := 120.
Definition poll_interval : Z := 2.

(** The [while True] loop of [generate_image]; [n] counts the polls already
    made.  The loop is run with [fuel] iterations at most. *)
Fixpoint poll_loop (fuel : nat) (e : env) (job_id : json) (t_start : Z) (n : nat)
  : M json :=
  match fuel with
  | O => fun w => (Diverge, w)
  | S fuel' =>
      poll <- requests_get_status e job_id n ;;
      raise_for_status (fst poll) ;;
      let status_data := snd poll in
      st <- py_get status_data "status" JNull ;;
      if str_eq st "COMPLETED" then ret status_data
      else if str_eq st "FAILED" || str_eq st "CANCELLED" then
        err <- py_get status_data "error" (JStr "") ;;
        raise (RuntimeError [Lit "Generation "; Val st; Lit ": "; Val err])
      else
        t <- time_time ;;
        if t - t_start >? max_wait
        then raise (TimeoutError "Timed out waiting for completed job.")
        else time_sleep poll_interval ;; poll_loop fuel' e job_id t_start (S n)
  end.

(** Iterations that always suffice: every iteration but the last lets
    [poll_interval] pass, and the loop stops once more than [max_wait] has
    passed. *)
Definition poll_fuel : nat := 62.

(** "Poll for status". *)
Definition await (e : env) (job_id : json) : M json :=
  t_start <- time_time ;;
  poll_loop poll_fuel e job_id t_start 0.

(** "Parse output": the value left in [image_url]. *)
Definition parse_output (output : json) : json :=
  match output with
  | JObj d => py_or (dict_get d "image_url" JNull) (dict_get d "image" JNull)
  | JStr _ => output
  | JList (JStr s :: _) => JStr s
  | _ => JNull
  end.

Fixpoint write_chunks (path : string) (chunks : list (list byte)) : M unit :=
  match chunks with
  | [] => ret tt
  | chunk :: rest => emit (EvWrite path chunk) ;; write_chunks path rest
  end.

(** [requests.get(image_url, stream=True, timeout=20)]. *)
Definition requests_get_stream (e : env) (url : string)
  : M (Z * list (list byte) * stream_end) :=
  emit (EvFetch url) ;;
  match fetch_reply e url with
  | FetchNoResponse => raise (RequestException None)
  | Fetched code chunks ending => ret (code, chunks, ending)
  end.

(** The decoding of [image_url] into the file [save_path]. *)
Definition save_image (e : env) (image_url : json) (save_path : string) : M unit :=
  match image_url with
  | JStr url =>
      if startswith url "data:image" then
        let base64_data := split_comma_last url in
        image_data <- lift (b64decode base64_data) ;;
        emit (EvOpen save_path) ;;
        emit (EvWrite save_path image_data)
      else if startswith url "http" then
        img_r <- requests_get_stream e url ;;
        let '(code, chunks, ending) := img_r in
        raise_for_status code ;;
        emit (EvOpen save_path) ;;
        write_chunks save_path chunks ;;
        match ending with
        | StreamDone => ret tt
        | StreamBroken => raise (RequestException None)
        end
      else raise (ValueError "Unrecognized image_url format!")
  | _ => raise (AttributeError "object has no attribute 'startswith'")
  end.

(** What the route answers: the JSON body and the HTTP status. *)
Inductive response_body : Type :=
| BodyError (msg : string)
| BodyConfigMissing (rid : json) (missing_config : list string)
| BodyApiError (r : error_result)
| BodySuccess (image_url : string) (blob_url : option string).

Definition response : Type := response_body * Z.

Definition save_path_of (rid : string) : string :=
  ("static/generated_images/" ++ rid ++ ".png")%string.

(** The submission: [POST /run] and the job identifier of its reply. *)
Definition submit (e : env) (prompt width height : json) : M json :=
  resp <- requests_post e prompt width height ;;
  raise_for_status (fst resp) ;;
  let job_info := snd resp in
  job_id <- py_get job_info "id" JNull ;;
  if negb (truthy job_id)
  then raise (ValueError "Job ID not found in /run response.")
  else ret job_id.

(** "Parse output", with its check. *)
Definition extract_image_url (result : json) : M json :=
  output <- py_get result "output" JNull ;;
  let image_url := parse_output output in
  if negb (truthy image_url)
  then raise (ValueError "image_url not found in output.")
  else ret image_url.

(** The body of the [try] of [generate_image]. *)
Definition run_job (cfg : config) (e : env) (rid : string) (prompt width height : json)
  : M response :=
  job_id <- submit e prompt width height ;;
  result <- await e job_id ;;
  image_url <- extract_image_url result ;;
  let save_path := save_path_of rid in
  save_image e image_url save_path ;;
  blob_url <- upload_blob cfg e save_path (rid ++ ".png")%string ;;
  ret (BodySuccess ("/generated_images/" ++ rid ++ ".png")%string blob_url, 200).

(** The two [except] clauses of [generate_image]. *)
Definition on_exception (rid : string) (ex : exn) : M response :=
  if is_request_exception ex
  then ret (BodyApiError (handle_api_error ex rid), 400)
  else ret (BodyApiError (handle_api_error ex rid), 500).

(** The [try] statement of [generate_image]. *)
Definition guarded_job (cfg : config) (e : env) (rid : string)
    (prompt width height : json) : M response :=
  try_except (run_job cfg e rid prompt width height) (on_exception rid).

(** [generate_image()], on the decoded request body [data].  An exception
    raised before the [try] leaves the function. *)
Definition generate_image (cfg : config) (e : env) (data : json) : M response :=
  rid <- py_get data "request_id" JNull ;;
  prompt <- py_get data "prompt" JNull ;;
  width <- py_get data "width" (JNum 512) ;;
  height <- py_get data "height" (JNum 512) ;;
  if negb (truthy rid && truthy prompt)
  then ret (BodyError "Missing request_id or prompt", 400)
  else
    match rid with
    | JStr rid_s =>
        if negb (guid_match rid_s)
        then ret (BodyError "request_id must be a valid GUID", 400)
        else
          let missing_config := check_api_configuration cfg in
          match missing_config with
          | _ :: _ => ret (BodyConfigMissing rid missing_config, 503)
          | [] => guarded_job cfg e rid_s prompt width height
          end
    | _ => raise (TypeError "expected string or bytes-like object")
    end.

(* ===================================================================== *)
(** ** [app.py]: the [/health] route *)
(* ===================================================================== *)

Module Health.
Record t : Type := mk {
  service : string;
  status : string;
  timestamp : Z;
  api_configured : bool;
  missing_config : list string;
  endpoints : list (string * string)
}.
End Health.

(** [health_check()]. *)
Definition health_check (cfg : config) : M (Health.t * Z) :=
  let missing_config := check_api_configuration cfg in
  t <- time_time ;;
  let health_status :=
    Health.mk "Image Generator"
      (match missing_config with [] => "healthy" | _ => "degraded" end)
      t
      (Nat.eqb (List.length missing_config) 0)
      missing_config
      [("generate", "/generate"); ("pdf_convert", "/convert_html_to_pdf");
       ("health", "/health")] in
  let status_code := match missing_config with [] => 200 | _ => 503 end in
  ret (health_status, status_code).

(* ===================================================================== *)
(** ** [app.py]: the [/convert_html_to_pdf] route *)
(* ===================================================================== *)

(** What the route answers.  [PdfException ex] is the body whose message
    is [str(ex)]: the exception is kept instead of its text. *)
Inductive pdf_body : Type :=
| PdfError (msg : string)
| PdfException (ex : exn)
| PdfSuccess (pdf_blob_url : option string).

(** [os.path.join("static/generated_images", f"{rid}.pdf")]. *)
Definition pdf_path_of (rid : string) : string :=
  ("static/generated_images" ++ "/" ++ rid ++ ".pdf")%string.

(** [HTML(string=html, base_url=base_url).write_pdf(pdf_path)].  The
    rendering library is the function [render]: it raises, or gives the
    bytes of the document, which are then written to [pdf_path]. *)
Definition write_pdf (render : json -> string -> exn + list byte)
    (html : json) (base_url pdf_path : string) : M unit :=
  document <- lift (render html base_url) ;;
  emit (EvOpen pdf_path) ;;
  emit (EvWrite pdf_path document).

(** [convert_html_to_pdf()], on the decoded request body [data];
    [host_url] is [request.host_url]. *)
Definition convert_html_to_pdf (cfg : config) (e : env)
    (render : json -> string -> exn + list byte) (host_url : string)
    (data : json) : M (pdf_body * Z) :=
  rid <- py_get data "request_id" JNull ;;
  html_content <- py_get data "html" JNull ;;
  if negb (truthy rid) || negb (truthy html_content)
  then ret (PdfError "Missing request_id or html", 400)
  else
    match rid with
    | JStr rid_s =>
        if negb (guid_match rid_s)
        then ret (PdfError "request_id must be a valid GUID", 400)
        else
          try_except
            (let pdf_filename := (rid_s ++ ".pdf")%string in
             let pdf_path := pdf_path_of rid_s in
             write_pdf render html_content host_url pdf_path ;;
             blob_url <- upload_blob cfg e pdf_path pdf_filename ;;
             ret (PdfSuccess blob_url, 200))
            (fun ex => ret (PdfException ex, 500))
    | _ => raise (TypeError "expected string or bytes-like object")
    end.

(* ===================================================================== *)
(** ** Vocabulary of the properties: the polling loop *)
(* ===================================================================== *)

(** What the loop decides on the reply to a poll: an outcome that ends the
    loop, or to go on (if there is time left). *)
Inductive verdict : Type :=
| Finished (r : outcome json)
| Pending.

Definition judge (r : http_outcome) : verdict :=
  match r with
  | NoResponse _ => Finished (Raise (RequestException None))
  | Replied _ code body =>
      if (400 <=? code) && (code <? 600)
      then Finished (Raise (RequestException (Some code)))
      else
        match body with
        | JObj d =>
            let st := dict_get d "status" JNull in
            if str_eq st "COMPLETED" then Finished (Ok body)
            else if str_eq st "FAILED" || str_eq st "CANCELLED" then
              Finished (Raise (RuntimeError
                [Lit "Generation "; Val st; Lit ": ";
                 Val (dict_get d "error" (JStr ""))]))
            else Pending
        | _ => Finished (Raise (AttributeError "object has no attribute 'get'"))
        end
  end.

(** The world once the [n]-th poll, issued in [w], has returned. *)
Definition polled (e : env) (job_id : json) (n : nat) (w : world) : world :=
  let lat := Z.of_nat (latency (poll_reply e n)) in
  mk_world (now w + lat) (trace w ++ [EvPoll job_id (now w) (now w + lat)]).

(** The world after the pause that follows. *)
Definition slept (w : world) : world :=
  mk_world (now w + poll_interval) (trace w ++ [EvSleep poll_interval]).

Definition timed_out : outcome json :=
  Raise (TimeoutError "Timed out waiting for completed job.").

(** Fuel that suffices for the loop entered at [t_start] and about to
    poll in the world [w]. *)
Definition enough (t_start : Z) (fuel : nat) (w : world) : Prop :=
  (1 <= fuel)%nat
  /\ now w - t_start + poll_interval * (Z.of_nat fuel - 1) > max_wait.

(** A reply that leaves the job in flight: an HTTP success whose body is
    an object with a status other than the three terminal ones. *)
Definition non_terminal (r : http_outcome) : bool :=
  match r with
  | Replied _ code (JObj d) =>
      negb ((400 <=? code) && (code <? 600))
      && negb (str_eq (dict_get d "status" JNull) "COMPLETED")
      && negb (str_eq (dict_get d "status" JNull) "FAILED")
      && negb (str_eq (dict_get d "status" JNull) "CANCELLED")
  | _ => false
  end.

(** The effects of a polling run that starts at [t] and ends at [t_end],
    for a loop entered at [t_start]: polls alternate with pauses of
    [poll_interval], each poll is issued when the pause after the previous
    one ends, and every poll but the last returned within [max_wait]. *)
Inductive poll_schedule (t_start : Z) : Z -> list event -> Z -> Prop :=
| sched_last (job : json) (t r : Z) :
    t <= r ->
    poll_schedule t_start t [EvPoll job t r] r
| sched_next (job : json) (t r : Z) (rest : list event) (t_end : Z) :
    t <= r ->
    r - t_start <= max_wait ->
    poll_schedule t_start (r + poll_interval) rest t_end ->
    poll_schedule t_start t (EvPoll job t r :: EvSleep poll_interval :: rest) t_end.

(** A poll is issued no later than [bound]. *)
Definition issued_by (bound : Z) (ev : event) : Prop :=
  match ev with
  | EvPoll _ issued _ => issued <= bound
  | _ => True
  end.

(** The polls that [await] issues when entered in [w]. *)
Definition polls_made (e : env) (job_id : json) (w : world) : nat :=
  (List.length (polls (trace (snd (await e job_id w))))
   - List.length (polls (trace w)))%nat.

(* ===================================================================== *)
(** ** Vocabulary of the properties: the other phases *)
(* ===================================================================== *)

(** The world [w] after the further effects [evs]. *)
Definition extend (w : world) (evs : list event) : world :=
  mk_world (now w) (trace w ++ evs).

Definition http_error (code : Z) : bool := (400 <=? code) && (code <? 600).

(** The world once [POST /run] has returned. *)
Definition posted (e : env) (prompt width height : json) (w : world) : world :=
  mk_world (now w + Z.of_nat (latency (post_reply e)))
           (trace w ++ [EvPost prompt width height]).

(** What [submit] makes of the reply to [POST /run]. *)
Definition submit_outcome (r : http_outcome) : outcome json :=
  match r with
  | NoResponse _ => Raise (RequestException None)
  | Replied _ code body =>
      if http_error code then Raise (RequestException (Some code))
      else
        match body with
        | JObj d =>
            if truthy (dict_get d "id" JNull)
            then Ok (dict_get d "id" JNull)
            else Raise (ValueError "Job ID not found in /run response.")
        | _ => Raise (AttributeError "object has no attribute 'get'")
        end
  end.

(** What [extract_image_url] makes of the final status document. *)
Definition extract_outcome (result : json) : outcome json :=
  match result with
  | JObj d =>
      if truthy (parse_output (dict_get d "output" JNull))
      then Ok (parse_output (dict_get d "output" JNull))
      else Raise (ValueError "image_url not found in output.")
  | _ => Raise (AttributeError "object has no attribute 'get'")
  end.

(** The outcome and the effects of [save_image]. *)
Definition save_outcome (e : env) (image_url : json) : outcome unit :=
  match image_url with
  | JStr url =>
      if startswith url "data:image" then
        match b64decode (split_comma_last url) with
        | inr _ => Ok tt
        | inl ex => Raise ex
        end
      else if startswith url "http" then
        match fetch_reply e url with
        | FetchNoResponse => Raise (RequestException None)
        | Fetched code chunks ending =>
            if http_error code then Raise (RequestException (Some code))
            else match ending with
                 | StreamDone => Ok tt
                 | StreamBroken => Raise (RequestException None)
                 end
        end
      else Raise (ValueError "Unrecognized image_url format!")
  | _ => Raise (AttributeError "object has no attribute 'startswith'")
  end.

Definition save_effects (e : env) (image_url : json) (path : string) : list event :=
  match image_url with
  | JStr url =>
      if startswith url "data:image" then
        match b64decode (split_comma_last url) with
        | inr image_data => [EvOpen path; EvWrite path image_data]
        | inl _ => []
        end
      else if startswith url "http" then
        EvFetch url ::
        match fetch_reply e url with
        | FetchNoResponse => []
        | Fetched code chunks _ =>
            if http_error code then []
            else EvOpen path :: map (EvWrite path) chunks
        end
      else []
  | _ => []
  end.

(** The blob URL that [upload_blob] returns on success. *)
Definition blob_url_of (cfg : config) (blob_name : string) : string :=
  ("https://whiperimages.blob.core.windows.net/"
     ++ CONTAINER_NAME cfg ++ "/" ++ blob_name)%string.

(** What [upload_blob] returns and does once the client is built. *)
Definition upload_result (cfg : config) (e : env) (local_path blob_name : string)
    (w : world) : option string :=
  match az_get_container_client e, az_get_blob_client e,
        file_content local_path (trace w), az_upload_blob e with
  | None, None, Some _, None => Some (blob_url_of cfg blob_name)
  | _, _, _, _ => None
  end.

Definition upload_effects (cfg : config) (e : env) (local_path blob_name : string)
    (w : world) : list event :=
  match az_get_container_client e with
  | Some _ => []
  | None =>
      EvCreateContainer (CONTAINER_NAME cfg) ::
      match az_get_blob_client e with
      | Some _ => []
      | None =>
          match file_content local_path (trace w) with
          | None => []
          | Some data => [EvUploadBlob (CONTAINER_NAME cfg) blob_name data true]
          end
      end
  end.

(** The extraction rules of the specification, in its order: the object
    field [image_url], the object field [image], a bare string, the first
    element of a list when it is a string. *)
Definition rule_image_url (output : json) : option json :=
  match output with JObj d => assoc "image_url" d | _ => None end.

Definition rule_image (output : json) : option json :=
  match output with JObj d => assoc "image" d | _ => None end.

Definition rule_bare_string (output : json) : option json :=
  match output with JStr s => Some (JStr s) | _ => None end.

Definition rule_first_of_list (output : json) : option json :=
  match output with JList (JStr s :: _) => Some (JStr s) | _ => None end.

Definition extraction_rules : list (json -> option json) :=
  [rule_image_url; rule_image; rule_bare_string; rule_first_of_list].

(** The value of the first rule that yields a usable (truthy) value. *)
Fixpoint first_match (rules : list (json -> option json)) (output : json)
  : option json :=
  match rules with
  | [] => None
  | rule :: rest =>
      match rule output with
      | Some v => if truthy v then Some v else first_match rest output
      | None => first_match rest output
      end
  end.

(** The message of the exception raised for a failed or cancelled job:
    [f"Generation {status}: {error}"]. *)
Definition generation_error (st : string) (reason : json) : exn :=
  RuntimeError [Lit "Generation "; Val (JStr st); Lit ": "; Val reason].

(** One of the three requests of a run was answered with the status
    [code]: the submission, a status poll that the run issued, or the
    download of the image. *)
Inductive replied_with (e : env) (prompt width height : json) (w : world)
    (code : Z) : Prop :=
| at_submit (lat : nat) (body : json) :
    post_reply e = Replied lat code body ->
    replied_with e prompt width height w code
| at_poll (job_id : json) (i : nat) (lat : nat) (body : json) :
    submit_outcome (post_reply e) = Ok job_id ->
    (i < polls_made e job_id (posted e prompt width height w))%nat ->
    poll_reply e i = Replied lat code body ->
    replied_with e prompt width height w code
| at_fetch (job_id result : json) (url : string) (chunks : list (list byte))
    (ending : stream_end) :
    submit_outcome (post_reply e) = Ok job_id ->
    fst (await e job_id (posted e prompt width height w)) = Ok result ->
    extract_outcome result = Ok (JStr url) ->
    startswith url "data:image" = false ->
    startswith url "http" = true ->
    fetch_reply e url = Fetched code chunks ending ->
    replied_with e prompt width height w code.

(** A request of a run failed below HTTP: the submission, or a status
    poll that the run issued. *)
Inductive transport_failure (e : env) (prompt width height : json) (w : world)
  : Prop :=
| tf_submit (lat : nat) :
    post_reply e = NoResponse lat ->
    transport_failure e prompt width height w
| tf_poll (job_id : json) (i : nat) (lat : nat) :
    submit_outcome (post_reply e) = Ok job_id ->
    (i < polls_made e job_id (posted e prompt width height w))%nat ->
    poll_reply e i = NoResponse lat ->
    transport_failure e prompt width height w.

(** The record that [handle_api_error] falls back to. *)
Definition unknown_error (rid : string) : error_result :=
  mk_error "error" "An unexpected error occurred"
    "Something went wrong. Please try again or contact support."
    "UNKNOWN_ERROR" rid.

(** A configuration value is usable when it has a non-empty value (an
    empty value is as good as none for Python's [not]) that is not the
    placeholder. *)
Definition configured (v : option string) (placeholder : string) : Prop :=
  exists s, v = Some s /\ s <> "" /\ s <> placeholder.

Definition all_configured (cfg : config) : Prop :=
  configured (API_TOKEN cfg) "your_runpod_api_token_here"
  /\ configured (BEARER_TOKEN cfg) "your_bearer_token_here"
  /\ configured (AZURE_CONN_STR cfg) "your_azure_connection_string_here".

(** The character that [GUID_REGEX] wants at position [i]: a dash at 8,
    13, 18 and 23, a hexadecimal digit elsewhere. *)
Definition guid_char_ok (i : nat) (c : ascii) : bool :=
  if Nat.eqb i 8 || Nat.eqb i 13 || Nat.eqb i 18 || Nat.eqb i 23
  then (c =? "-")%char else is_hex c.

(** A string of 36 characters, each the one wanted at its position. *)
Definition guid_core (core : string) : Prop :=
  String.length core = 36%nat
  /\ forall i c, String.get i core = Some c -> guid_char_ok i c = true.

(** What a position of a shape wants. *)
Definition shape_ok (h : bool) (c : ascii) : bool :=
  if h then is_hex c else (c =? "-")%char.

(** Kinds of effects. *)
Definition is_post (ev : event) : bool :=
  match ev with EvPost _ _ _ => true | _ => false end.

Definition poll_or_sleep (ev : event) : bool :=
  match ev with EvPoll _ _ _ | EvSleep _ => true | _ => false end.

Definition posts (tr : list event) : list event := filter is_post tr.

(** The effects of the decoding on the destination [path]: nothing; a
    fetch alone; the destination opened and written at once; or a fetch,
    then the destination opened and written chunk by chunk. *)
Inductive saving (path : string) : list event -> Prop :=
| saving_nothing : saving path []
| saving_fetch (url : string) : saving path [EvFetch url]
| saving_decoded (image_data : list byte) :
    saving path [EvOpen path; EvWrite path image_data]
| saving_download (url : string) (chunks : list (list byte)) :
    saving path (EvFetch url :: EvOpen path :: map (EvWrite path) chunks).

(** The effects of an upload of [blob] to [container]: nothing; the
    creation of the container alone; or that creation followed by the
    upload, with overwriting. *)
Inductive uploading (container blob : string) : list event -> Prop :=
| uploading_nothing : uploading container blob []
| uploading_container : uploading container blob [EvCreateContainer container]
| uploading_blob (data : list byte) :
    uploading container blob
      [EvCreateContainer container; EvUploadBlob container blob data true].

(** The outcomes of [generate_image] for a request that it turns down
    before the [try]: one of its two 400 answers, the 503 answer that
    lists the missing configuration, or an exception that leaves the
    function ([data] is no object, or the request id is no string). *)
Definition rejection (cfg : config) (out : outcome response) : Prop :=
  match out with
  | Ok (BodyError _, code) => code = 400
  | Ok (BodyConfigMissing _ missing, code) =>
      code = 503 /\ missing = check_api_configuration cfg /\ missing <> []
  | Raise (AttributeError _) | Raise (TypeError _) => True
  | _ => False
  end.

(** [s] has a comma. *)
Fixpoint has_comma (s : string) : bool :=
  match s with
  | EmptyString => false
  | String c s' => (c =? ",")%char || has_comma s'
  end.

(** The request [data] passes every check that [generate_image] makes
    before its [try]: it is the object [d], its request id is the string
    [rid], which [GUID_REGEX] accepts, its prompt is truthy, and the
    configuration is complete. *)
Definition accepted_request (cfg : config) (data : json)
    (d : list (string * json)) (rid : string) : Prop :=
  data = JObj d
  /\ dict_get d "request_id" JNull = JStr rid
  /\ guid_match rid = true
  /\ truthy (dict_get d "prompt" JNull) = true
  /\ check_api_configuration cfg = [].

(** The run for [prompt], [width] and [height], started in [w], got
    [image_url] from the job: the submission was accepted, the polling
    ended with the document of a completed job, and [image_url] is what
    "Parse output" takes from it. *)
Definition job_image (e : env) (prompt width height : json) (w : world)
    (image_url : json) : Prop :=
  exists job_id result : json,
    submit_outcome (post_reply e) = Ok job_id
    /\ fst (await e job_id (posted e prompt width height w)) = Ok result
    /\ extract_outcome result = Ok image_url.

(** The same for the request body [d], with the dimensions that
    [generate_image] reads from it. *)
Definition run_image (e : env) (d : list (string * json)) (w : world)
    (image_url : json) : Prop :=
  job_image e (dict_get d "prompt" JNull) (dict_get d "width" (JNum 512))
    (dict_get d "height" (JNum 512)) w image_url.

(** The image that the string [url] stands for, as the pieces in which it
    is written: the bytes decoded from a data URI, in one piece, or the
    chunks of a download that ran to its end. *)
Inductive image_bytes (e : env) (url : string) : list (list byte) -> Prop :=
| image_decoded (image_data : list byte) :
    startswith url "data:image" = true ->
    b64decode (split_comma_last url) = inr image_data ->
    image_bytes e url [image_data]
| image_downloaded (code : Z) (chunks : list (list byte)) :
    startswith url "data:image" = false ->
    startswith url "http" = true ->
    fetch_reply e url = Fetched code chunks StreamDone ->
    http_error code = false ->
    image_bytes e url chunks.

(** The download of [url] was answered without an HTTP error and broke
    after the chunks [chunks]. *)
Inductive broken_download (e : env) (url : string) : list (list byte) -> Prop :=
| download_broke (code : Z) (chunks : list (list byte)) :
    startswith url "data:image" = false ->
    startswith url "http" = true ->
    fetch_reply e url = Fetched code chunks StreamBroken ->
    http_error code = false ->
    broken_download e url chunks.

(** The three calls that [upload_blob] makes inside its [try] and whose
    exception it turns into [None] were all accepted. *)
Definition azure_accepts (e : env) : Prop :=
  az_get_container_client e = None
  /\ az_get_blob_client e = None
  /\ az_upload_blob e = None.

(* ===================================================================== *)
(** ** Concrete scenarios *)
(* ===================================================================== *)

Definition cfg_ok : config :=
  mk_config (Some "rp-token") (Some "bearer-token")
    (Some "DefaultEndpointsProtocol=https;AccountName=a;AccountKey=k") "images".

Definition rid0 : string := "550e8400-e29b-41d4-a716-446655440000".

(** The request of the specification's examples. *)
Definition data0 : json :=
  JObj [("request_id", JStr rid0); ("prompt", JStr "x");
        ("width", JNum 256); ("height", JNum 256)].

Definition job0 : json := JStr "job-1".

Definition w0 : world := mk_world 0 [].

(** An outside world whose Azure storage accepts everything. *)
Definition scenario (post : http_outcome) (poll : nat -> http_outcome)
    (fetch : string -> fetch_outcome) : env :=
  mk_env post poll fetch (fun _ => None) None None None None.

Definition accepted : http_outcome := Replied 0 200 (JObj [("id", job0)]).

Definition in_progress : http_outcome :=
  Replied 0 200 (JObj [("status", JStr "IN_PROGRESS")]).

Definition completed (output : json) : http_outcome :=
  Replied 0 200 (JObj [("status", JStr "COMPLETED"); ("output", output)]).

Definition no_fetch : string -> fetch_outcome := fun _ => FetchNoResponse.

(** The job never leaves [IN_PROGRESS]; every request is instantaneous. *)
Definition env_never : env := scenario accepted (fun _ => in_progress) no_fetch.

(** The Azure SDK refusing a connection string that is absent or has no
    [key=value] setting: [from_connection_string] raises. *)
Fixpoint has_equals (s : string) : bool :=
  match s with
  | EmptyString => false
  | String c s' => (c =? "=")%char || has_equals s'
  end.

Definition strict_sdk (conn : option string) : option exn :=
  match conn with
  | None => Some (AttributeError "'NoneType' object has no attribute 'rstrip'")
  | Some s =>
      if has_equals s then None
      else Some (ValueError "Connection string is either blank or malformed.")
  end.

(** A configuration that passes [check_api_configuration] with a
    connection string the SDK refuses. *)
Definition cfg_bad_azure : config :=
  mk_config (Some "rp-token") (Some "bearer-token") (Some "not-a-connection-string")
    "images".

Definition env_strict_azure (post : http_outcome) (poll : nat -> http_outcome)
    (fetch : string -> fetch_outcome) : env :=
  mk_env post poll fetch strict_sdk None None None None.

(** A world in which the file [static/generated_images/a.png] holds one
    byte. *)
Definition w_file : world :=
  mk_world 0 [EvOpen "static/generated_images/a.png";
              EvWrite "static/generated_images/a.png" [Byte.x2a]].

(** The second status poll is answered 503. *)
Definition env_poll_503 : env :=
  scenario accepted
    (fun n => match n with O => in_progress | _ => Replied 0 503 JNull end)
    no_fetch.

(** The generation API cannot be reached. *)
Definition env_unreachable : env :=
  scenario (NoResponse 0) (fun _ => in_progress) no_fetch.

(** The submission is accepted with a reply that names no job. *)
Definition env_no_job : env :=
  scenario (Replied 0 200 (JObj [("status", JStr "IN_QUEUE")]))
    (fun _ => in_progress) no_fetch.

(** The job stays [IN_PROGRESS]; the first poll takes two time units and
    every later one takes one. *)
Definition env_slow : env :=
  scenario accepted
    (fun n => Replied (match n with O => 2 | _ => 1 end) 200
                (JObj [("status", JStr "IN_PROGRESS")]))
    no_fetch.

(** The first status poll reports the job [FAILED] with the error "oom". *)
Definition env_failed_oom : env :=
  scenario accepted
    (fun _ => Replied 0 200 (JObj [("status", JStr "FAILED"); ("error", JStr "oom")]))
    no_fetch.

(** The job completes on the first poll with an output of no known shape. *)
Definition env_odd_output : env :=
  scenario accepted (fun _ => completed (JNum 7)) no_fetch.

(** The example of the specification: [IN_PROGRESS] twice, then
    [COMPLETED] with a data URI as output. *)
Definition env_example : env :=
  scenario accepted
    (fun n => match n with
              | O | S O => in_progress
              | _ => completed (JStr "data:image/png;base64,AAAA")
              end)
    no_fetch.


(** The job completes at once with an image URL that is served in two
    chunks. *)
Definition env_download : env :=
  scenario accepted
    (fun _ => completed (JObj [("image_url", JStr "https://img.example/a.png")]))
    (fun _ => Fetched 200 [[Byte.x89; Byte.x50]; [Byte.x4e; Byte.x47]] StreamDone).

(** The job completes at once with a data URI; the SDK is the strict one. *)
Definition env_done_strict_azure : env :=
  env_strict_azure accepted
    (fun _ => completed (JStr "data:image/png;base64,AAAA")) no_fetch.

(** A renderer that gives a four-byte document for every input. *)
Definition render_ok : json -> string -> exn + list byte :=
  fun _ _ => inr [Byte.x25; Byte.x50; Byte.x44; Byte.x46].

(** A renderer that fails on every input. *)
Definition render_fails : json -> string -> exn + list byte :=
  fun _ _ => inl (ValueError "render").

(** The request body of a conversion. *)
Definition pdf_data0 : json :=
  JObj [("request_id", JStr rid0); ("html", JStr "<h1>Hello PDF</h1>")].

(** A configuration in which nothing is set. *)
Definition cfg_empty : config := mk_config None None None "images".

(** The job completes at once; the [image_url] field of its output is a
    number. *)
Definition env_numeric_url : env :=
  scenario accepted (fun _ => completed (JObj [("image_url", JNum 7)])) no_fetch.

(* ===================================================================== *)
(** * Properties *)
(* ===================================================================== *)

(** ** Sanity checks of the model on concrete inputs *)

Example b64decode_AAAA :
  b64decode "AAAA" = inr [Byte.x00; Byte.x00; Byte.x00].
Proof. reflexivity. Qed.

Example b64decode_hello :
  b64decode "aGk=" = inr [Byte.x68; Byte.x69].
Proof. reflexivity. Qed.

Example b64decode_bad_padding :
  b64decode "aGk" = inl (BinasciiError "Incorrect padding").
Proof. reflexivity. Qed.

Example split_comma_last_data :
  split_comma_last "data:image/png;base64,AAAA" = "AAAA".
Proof. reflexivity. Qed.

Example guid_match_ok : guid_match "550e8400-e29b-41d4-A716-446655440000" = true.
Proof. reflexivity. Qed.

Example guid_match_short : guid_match "550e8400-e29b-41d4-a716-44665544000" = false.
Proof. reflexivity. Qed.

Example guid_match_trailing_newline :
  guid_match ("550e8400-e29b-41d4-a716-446655440000" ++ String "010" "") = true.
Proof. reflexivity. Qed.

Example handle_api_error_404 :
  error_code (handle_api_error (RequestException (Some 404)) rid0) = "UNKNOWN_ERROR".
Proof. reflexivity. Qed.

Example generate_image_bad_guid :
  generate_image cfg_ok env_never
    (JObj [("request_id", JStr "not-a-guid"); ("prompt", JStr "x")]) w0
  = (Ok (BodyError "request_id must be a valid GUID", 400), w0).
Proof. reflexivity. Qed.

Example generate_image_missing_prompt :
  generate_image cfg_ok env_never (JObj [("request_id", JStr rid0)]) w0
  = (Ok (BodyError "Missing request_id or prompt", 400), w0).
Proof. reflexivity. Qed.

Example generate_image_config_missing :
  generate_image (mk_config None (Some "b") (Some "your_azure_connection_string_here") "images")
    env_never data0 w0
  = (Ok (BodyConfigMissing (JStr rid0) ["API_TOKEN"; "AZURE_CONN_STR"], 503), w0).
Proof. reflexivity. Qed.

Example generate_image_times_out :
  fst (generate_image cfg_ok env_never data0 w0)
  = Ok (BodyApiError (unknown_error rid0), 500).
Proof. vm_compute. reflexivity. Qed.

Example generate_image_download :
  let r := generate_image cfg_ok env_download data0 w0 in
  fst r = Ok (BodySuccess ("/generated_images/" ++ rid0 ++ ".png")%string
                (Some (blob_url_of cfg_ok (rid0 ++ ".png")%string)), 200)
  /\ fetches (trace (snd r)) = [EvFetch "https://img.example/a.png"]
  /\ file_content (save_path_of rid0) (trace (snd r))
     = Some [Byte.x89; Byte.x50; Byte.x4e; Byte.x47].
Proof. vm_compute. repeat split; reflexivity. Qed.

(** ** The polling loop, one iteration at a time *)

Section Polling.

Variable e : env.
Variable job_id : json.
Variable t_start : Z.

Lemma poll_loop_step (fuel n : nat) (w : world) :
  poll_loop (S fuel) e job_id t_start n w =
  match judge (poll_reply e n) with
  | Finished r => (r, polled e job_id n w)
  | Pending =>
      if now (polled e job_id n w) - t_start >? max_wait
      then (timed_out, polled e job_id n w)
      else poll_loop fuel e job_id t_start (S n) (slept (polled e job_id n w))
  end.
Proof.
  unfold polled, slept, timed_out.
  cbn [poll_loop].
  unfold requests_get_status, bind at 1 2 3, time_time, emit.
  destruct (poll_reply e n) as [lat | lat code body]; cbn [latency api_call judge].
  - reflexivity.
  - unfold bind at 1, advance. cbn [ret bind fst snd now trace].
    unfold raise_for_status.
    destruct ((400 <=? code) && (code <? 600)); cbn [bind raise ret].
    + reflexivity.
    + destruct body; cbn [py_get bind raise ret]; try reflexivity.
      destruct (str_eq (dict_get fields "status" JNull) "COMPLETED");
        [reflexivity|].
      destruct (str_eq (dict_get fields "status" JNull) "FAILED"
                || str_eq (dict_get fields "status" JNull) "CANCELLED");
        [reflexivity|].
      unfold bind, time_time. cbn [now].
      destruct (now w + Z.of_nat lat - t_start >? max_wait); [reflexivity|].
      unfold time_sleep, bind, emit, advance. cbn [now trace].
      reflexivity.
Qed.

Lemma judge_pending (r : http_outcome) :
  judge r = Pending <-> non_terminal r = true.
Proof.
  destruct r as [lat | lat code body]; cbn [judge non_terminal];
    [split; discriminate|].
  destruct body;
    destruct ((400 <=? code) && (code <? 600)); cbn [negb andb];
    try (split; discriminate).
  destruct (str_eq (dict_get fields "status" JNull) "COMPLETED");
    cbn [negb andb]; [split; discriminate|].
  destruct (str_eq (dict_get fields "status" JNull) "FAILED");
    cbn [negb andb orb]; [split; discriminate|].
  destruct (str_eq (dict_get fields "status" JNull) "CANCELLED");
    cbn [negb andb orb]; split; (reflexivity || discriminate).
Qed.

(** The run of the loop: it issues [k + 1] polls on the schedule; the
    first [k] replies leave the job in flight, and the reply to the last
    poll decides the outcome. *)
Lemma poll_loop_run :
  forall (fuel n : nat) (w : world),
    enough t_start fuel w ->
    exists (k : nat) (evs : list event),
      let r := poll_loop fuel e job_id t_start n w in
      trace (snd r) = trace w ++ evs
      /\ poll_schedule t_start (now w) evs (now (snd r))
      /\ List.length (polls evs) = S k
      /\ (forall i, (i < k)%nat -> judge (poll_reply e (n + i)) = Pending)
      /\ match judge (poll_reply e (n + k)) with
         | Finished out => fst r = out
         | Pending => fst r = timed_out /\ now (snd r) - t_start > max_wait
         end.
Proof.
  induction fuel as [|fuel IH]; intros n w [Hf Ht]; [lia|].
  rewrite poll_loop_step.
  set (lat := Z.of_nat (latency (poll_reply e n))).
  assert (Hlat : 0 <= lat) by (subst lat; lia).
  destruct (judge (poll_reply e n)) as [out|] eqn:J.
  - exists 0%nat, [EvPoll job_id (now w) (now w + lat)].
    cbn [fst snd polled now trace]. fold lat.
    split; [reflexivity|]. split; [constructor; lia|].
    split; [reflexivity|]. split; [intros i Hi; lia|].
    rewrite Nat.add_0_r, J. reflexivity.
  - destruct (Z.gtb_spec (now (polled e job_id n w) - t_start) max_wait) as [Hgt|Hle].
    + exists 0%nat, [EvPoll job_id (now w) (now w + lat)].
      cbn [fst snd polled now trace]. fold lat.
      split; [reflexivity|]. split; [constructor; lia|].
      split; [reflexivity|]. split; [intros i Hi; lia|].
      rewrite Nat.add_0_r, J. split; [reflexivity|].
      cbn [polled now] in Hgt. fold lat in Hgt. lia.
    + cbn [polled now] in Hle. fold lat in Hle.
      destruct (IH (S n) (slept (polled e job_id n w)))
        as (k & evs & Htr & Hs & Hlen & Hpre & Hfin).
      { unfold enough, slept, polled, max_wait, poll_interval in *.
        cbn [now] in *. fold lat. split; lia. }
      exists (S k), (EvPoll job_id (now w) (now w + lat) :: EvSleep poll_interval :: evs).
      cbv zeta.
      split; [|split; [|split; [|split]]].
      * rewrite Htr. cbn [slept polled trace]. fold lat.
        rewrite <- !app_assoc. reflexivity.
      * apply sched_next; [lia | exact Hle |].
        cbn [slept polled now] in Hs. fold lat in Hs. exact Hs.
      * unfold polls in *. cbn [filter is_poll List.length].
        rewrite Hlen. reflexivity.
      * intros i Hi. destruct i as [|i].
        -- rewrite Nat.add_0_r. exact J.
        -- rewrite Nat.add_succ_r. apply (Hpre i). lia.
      * rewrite Nat.add_succ_r. exact Hfin.
Qed.

Lemma judge_never_diverges (r : http_outcome) : judge r <> Finished Diverge.
Proof.
  destruct r as [lat | lat code body]; cbn [judge]; [discriminate|].
  destruct ((400 <=? code) && (code <? 600)); [discriminate|].
  destruct body; try discriminate.
  destruct (str_eq (dict_get fields "status" JNull) "COMPLETED"); [discriminate|].
  destruct (str_eq (dict_get fields "status" JNull) "FAILED"
            || str_eq (dict_get fields "status" JNull) "CANCELLED"); discriminate.
Qed.

(** With enough fuel the loop returns or raises: it does not run out. *)
Lemma poll_loop_total (fuel n : nat) (w : world) :
  enough t_start fuel w ->
  fst (poll_loop fuel e job_id t_start n w) <> Diverge.
Proof.
  intros Hen.
  destruct (poll_loop_run n Hen) as (k & evs & _ & _ & _ & _ & Hfin).
  cbv zeta in Hfin.
  destruct (judge (poll_reply e (n + k))) as [out|] eqn:J.
  - rewrite Hfin. intros ->. exact (judge_never_diverges _ J).
  - destruct Hfin as [-> _]. discriminate.
Qed.

(** More fuel than enough changes nothing. *)
Lemma poll_loop_fuel :
  forall (fuel fuel' n : nat) (w : world),
    enough t_start fuel w ->
    (fuel <= fuel')%nat ->
    poll_loop fuel' e job_id t_start n w = poll_loop fuel e job_id t_start n w.
Proof.
  induction fuel as [|fuel IH]; intros fuel' n w [Hf Ht] Hle; [lia|].
  destruct fuel' as [|fuel']; [lia|].
  rewrite !poll_loop_step.
  destruct (judge (poll_reply e n)); [reflexivity|].
  destruct (Z.gtb_spec (now (polled e job_id n w) - t_start) max_wait) as [Hgt|Hle'];
    [reflexivity|].
  apply IH; [|lia].
  unfold enough, slept, polled, max_wait, poll_interval in *.
  cbn [now] in *. split; lia.
Qed.

(** The effects of a schedule are polls and pauses only. *)
Lemma poll_schedule_no_files (t t_end : Z) (evs : list event) :
  poll_schedule t_start t evs t_end ->
  file_events evs = [] /\ fetches evs = [].
Proof.
  induction 1 as [job t r Hr | job t r rest t_end Hr Hle Hs [IH1 IH2]].
  - split; reflexivity.
  - unfold file_events, fetches in *. cbn [filter is_file_event is_fetch].
    split; assumption.
Qed.

(** Every poll of a schedule is issued at most one pause after the bound
    on the elapsed time. *)
Lemma poll_schedule_issued (t t_end : Z) (evs : list event) :
  poll_schedule t_start t evs t_end ->
  t <= t_start + max_wait + poll_interval ->
  Forall (issued_by (t_start + max_wait + poll_interval)) evs.
Proof.
  induction 1 as [job t r Hr | job t r rest t_end Hr Hle Hs IH]; intros Hb.
  - constructor; [exact Hb | constructor].
  - constructor; [exact Hb|]. constructor; [exact I|].
    apply IH. lia.
Qed.

End Polling.

(** ** [await]: the loop entered at the current time *)

Section Await.

Variable e : env.
Variable job_id : json.

Lemma await_unfold (w : world) :
  await e job_id w = poll_loop poll_fuel e job_id (now w) 0 w.
Proof. reflexivity. Qed.

Lemma poll_fuel_enough (w : world) : enough (now w) poll_fuel w.
Proof. unfold enough, poll_fuel, poll_interval, max_wait. split; lia. Qed.

(** [await] does not depend on the fuel it is given, and it terminates. *)
Lemma await_total (w : world) : fst (await e job_id w) <> Diverge.
Proof. rewrite await_unfold. apply poll_loop_total, poll_fuel_enough. Qed.

Lemma await_any_fuel (fuel : nat) (w : world) :
  (poll_fuel <= fuel)%nat ->
  poll_loop fuel e job_id (now w) 0 w = await e job_id w.
Proof.
  intros H. rewrite await_unfold.
  apply poll_loop_fuel; [apply poll_fuel_enough | exact H].
Qed.

(** The run of [await]. *)
Lemma await_run (w : world) :
  exists (k : nat) (evs : list event),
    let r := await e job_id w in
    trace (snd r) = trace w ++ evs
    /\ poll_schedule (now w) (now w) evs (now (snd r))
    /\ polls_made e job_id w = S k
    /\ (forall i, (i < k)%nat -> judge (poll_reply e i) = Pending)
    /\ match judge (poll_reply e k) with
       | Finished out => fst r = out
       | Pending => fst r = timed_out /\ now (snd r) - now w > max_wait
       end.
Proof.
  destruct (poll_loop_run e job_id 0 (poll_fuel_enough w))
    as (k & evs & Htr & Hs & Hlen & Hpre & Hfin).
  exists k, evs. cbv zeta in *. rewrite await_unfold.
  split; [exact Htr|]. split; [exact Hs|].
  split; [|split; [exact Hpre | exact Hfin]].
  unfold polls_made. rewrite await_unfold, Htr.
  unfold polls in *. rewrite filter_app, length_app, Hlen. lia.
Qed.

End Await.

(** ** C1: a job that never reaches a terminal status *)

(** C1 (as amended).  When no reply to a status poll is terminal, [await]
    raises the time-out error.  Its effects are polls separated by pauses
    of [poll_interval]: each poll is issued when the pause that follows
    the previous poll's return ends; every poll but the last returned
    within [max_wait] of the start, the last one returned later than that
    and is the last effect.  The elapsed time is only examined after a poll
    has returned, so a poll may be issued after [max_wait] has passed, but
    never later than [poll_interval] after it. *)
Theorem await_never_terminal (e : env) (job_id : json) (w : world) :
  (forall n, non_terminal (poll_reply e n) = true) ->
  exists evs : list event,
    let r := await e job_id w in
    fst r = timed_out
    /\ trace (snd r) = trace w ++ evs
    /\ poll_schedule (now w) (now w) evs (now (snd r))
    /\ now (snd r) - now w > max_wait
    /\ Forall (issued_by (now w + max_wait + poll_interval)) evs
    /\ file_events evs = [] /\ fetches evs = [].
Proof.
  intros Hnt.
  destruct (await_run e job_id w) as (k & evs & Htr & Hs & _ & _ & Hfin).
  cbv zeta in *.
  assert (J : judge (poll_reply e k) = Pending) by (apply judge_pending, Hnt).
  rewrite J in Hfin. destruct Hfin as [Hout Hlate].
  exists evs.
  split; [exact Hout|]. split; [exact Htr|]. split; [exact Hs|].
  split; [exact Hlate|].
  split.
  - apply (poll_schedule_issued Hs). unfold max_wait, poll_interval. lia.
  - exact (poll_schedule_no_files Hs).
Qed.

(** The theorem at work on [env_never], entered at time 0. *)
Lemma await_never_terminal_witness :
  (forall n, non_terminal (poll_reply env_never n) = true)
  /\ exists evs : list event,
       let r := await env_never job0 w0 in
       fst r = timed_out
       /\ trace (snd r) = trace w0 ++ evs
       /\ poll_schedule (now w0) (now w0) evs (now (snd r))
       /\ now (snd r) - now w0 > max_wait
       /\ Forall (issued_by (now w0 + max_wait + poll_interval)) evs
       /\ file_events evs = [] /\ fetches evs = [].
Proof.
  split.
  - intros n. reflexivity.
  - apply (await_never_terminal env_never job0 w0). intros n. reflexivity.
Defined.

(** C1 as stated fails.  The job stays [IN_PROGRESS]; the first poll takes
    two time units and the others one.  Entered at time 0, the loop finds
    119 units elapsed after its fortieth poll, pauses, and issues one more
    status poll at time 121, after the 120 units have passed; the time-out
    is raised when that poll returns. *)
Lemma await_polls_after_deadline :
  (forall n, non_terminal (poll_reply env_slow n) = true)
  /\ fst (await env_slow job0 w0) = timed_out
  /\ last (trace (snd (await env_slow job0 w0))) (EvSleep 0) = EvPoll job0 121 122
  /\ 121 - now w0 > max_wait.
Proof.
  split; [intros [|n]; reflexivity|].
  split; [vm_compute; reflexivity|].
  split; vm_compute; reflexivity.
Qed.

(** ** C10: the health endpoint *)

Lemma missing_or_placeholder_false (v : option string) (p : string) :
  missing_or_placeholder v p = false <-> configured v p.
Proof.
  unfold missing_or_placeholder, configured. destruct v as [s|].
  - destruct (String.eqb_spec s "") as [E1|N1];
      destruct (String.eqb_spec s p) as [E2|N2]; cbn [orb]; split;
      try discriminate; try reflexivity.
    + intros (s' & Hs & H1 & H2). injection Hs as <-. contradiction.
    + intros (s' & Hs & H1 & H2). injection Hs as <-. contradiction.
    + intros (s' & Hs & H1 & H2). injection Hs as <-. contradiction.
    + intros _. exists s. auto.
  - split; [discriminate|]. intros (s & Hs & _). discriminate.
Qed.

Lemma missing_or_placeholder_true (v : option string) (p : string) :
  missing_or_placeholder v p = true <-> ~ configured v p.
Proof.
  rewrite <- missing_or_placeholder_false.
  destruct (missing_or_placeholder v p); split; congruence.
Qed.

(** C10.  [health_check] answers 200 with status "healthy" exactly when
    the three configuration values are set (to a non-empty value) and are
    not their placeholders; otherwise it answers 503 with status
    "degraded"; in both cases it lists exactly the names of the values that
    are missing, and it changes nothing. *)
Theorem health_check_spec (cfg : config) (w : world) :
  exists (hs : Health.t) (code : Z),
    health_check cfg w = (Ok (hs, code), w)
    /\ (all_configured cfg <-> code = 200 /\ Health.status hs = "healthy")
    /\ (~ all_configured cfg <-> code = 503 /\ Health.status hs = "degraded")
    /\ Health.api_configured hs = (code =? 200)
    /\ Health.missing_config hs = check_api_configuration cfg
    /\ (forall name : string,
          In name (Health.missing_config hs) <->
          (name = "API_TOKEN"
           /\ ~ configured (API_TOKEN cfg) "your_runpod_api_token_here")
          \/ (name = "BEARER_TOKEN"
              /\ ~ configured (BEARER_TOKEN cfg) "your_bearer_token_here")
          \/ (name = "AZURE_CONN_STR"
              /\ ~ configured (AZURE_CONN_STR cfg)
                   "your_azure_connection_string_here")).
Proof.
  unfold health_check, bind, time_time, ret, all_configured.
  eexists _, _. split; [reflexivity|].
  cbn [Health.status Health.missing_config Health.api_configured].
  unfold check_api_configuration.
  destruct (missing_or_placeholder (API_TOKEN cfg) _) eqn:E1;
    destruct (missing_or_placeholder (BEARER_TOKEN cfg) _) eqn:E2;
    destruct (missing_or_placeholder (AZURE_CONN_STR cfg) _) eqn:E3;
    try (apply missing_or_placeholder_true in E1);
    try (apply missing_or_placeholder_true in E2);
    try (apply missing_or_placeholder_true in E3);
    try (apply missing_or_placeholder_false in E1);
    try (apply missing_or_placeholder_false in E2);
    try (apply missing_or_placeholder_false in E3);
    cbn [app List.length Nat.eqb In];
    (split; [|split; [|split; [reflexivity|split; [reflexivity|]]]]);
    try (intros name);
    intuition (subst; try discriminate; try congruence; auto).
Qed.

(** ** The phases of [run_job], evaluated *)

Lemma extend_nil (w : world) : extend w [] = w.
Proof. destruct w as [t tr]. unfold extend. cbn [now trace]. rewrite app_nil_r. reflexivity. Qed.

Lemma submit_eval (e : env) (prompt width height : json) (w : world) :
  submit e prompt width height w
  = (submit_outcome (post_reply e), posted e prompt width height w).
Proof.
  unfold submit, requests_post, posted, submit_outcome, http_error.
  unfold bind at 1 2, emit. cbn [now trace].
  destruct (post_reply e) as [lat | lat code body]; cbn [api_call latency].
  - reflexivity.
  - unfold bind at 1 2, advance, ret, raise_for_status. cbn [now trace fst snd].
    destruct ((400 <=? code) && (code <? 600)); cbn [bind raise ret];
      [reflexivity|].
    destruct body; cbn [py_get bind raise ret]; try reflexivity.
    unfold bind, ret.
    destruct (truthy (dict_get fields "id" JNull)); reflexivity.
Qed.

Lemma extract_eval (result : json) (w : world) :
  extract_image_url result w = (extract_outcome result, w).
Proof.
  unfold extract_image_url, extract_outcome.
  destruct result; cbn [py_get bind raise ret]; try reflexivity.
  unfold bind, ret.
  destruct (truthy (parse_output (dict_get fields "output" JNull))); reflexivity.
Qed.

Lemma write_chunks_eval (path : string) (chunks : list (list byte)) :
  forall w : world,
    write_chunks path chunks w = (Ok tt, extend w (map (EvWrite path) chunks)).
Proof.
  induction chunks as [|chunk rest IH]; intros w; cbn [write_chunks map].
  - unfold ret. rewrite extend_nil. reflexivity.
  - unfold bind, emit. rewrite IH. unfold extend. cbn [now trace].
    rewrite <- app_assoc. reflexivity.
Qed.

Lemma save_image_eval (e : env) (image_url : json) (path : string) (w : world) :
  save_image e image_url path w
  = (save_outcome e image_url, extend w (save_effects e image_url path)).
Proof.
  unfold save_image, save_outcome, save_effects.
  destruct image_url as [| b | n | url | items | fields];
    try (unfold raise; rewrite extend_nil; reflexivity).
  destruct (startswith url "data:image").
  - destruct (b64decode (split_comma_last url)) as [ex | image_data];
      cbn [lift].
    + unfold bind, raise. rewrite extend_nil. reflexivity.
    + unfold bind, ret, emit, extend. cbn [now trace].
      rewrite <- app_assoc. reflexivity.
  - destruct (startswith url "http").
    + unfold requests_get_stream, bind at 1 2, emit. cbn [now trace].
      destruct (fetch_reply e url) as [| code chunks ending].
      * reflexivity.
      * cbn [ret]. unfold raise_for_status, http_error.
        destruct ((400 <=? code) && (code <? 600)); cbn [bind raise ret];
          [reflexivity|].
        cbn [now trace]. unfold bind at 1.
        rewrite write_chunks_eval. unfold extend. cbn [now trace].
        rewrite <- !app_assoc. cbn [app].
        destruct ending; reflexivity.
    + unfold raise. rewrite extend_nil. reflexivity.
Qed.

Lemma file_content_from_app (path : string) (a b : list event) :
  forall cur,
    file_content_from path (a ++ b) cur
    = file_content_from path b (file_content_from path a cur).
Proof.
  induction a as [|ev a IH]; intros cur; [reflexivity|].
  destruct ev; cbn [app file_content_from]; apply IH.
Qed.

Lemma file_events_app (a b : list event) :
  file_events (a ++ b) = file_events a ++ file_events b.
Proof. apply filter_app. Qed.

Lemma fetches_app (a b : list event) :
  fetches (a ++ b) = fetches a ++ fetches b.
Proof. apply filter_app. Qed.

(** ** C9: [upload_blob] *)

Lemma upload_blob_eval (cfg : config) (e : env) (local_path blob_name : string)
    (w : world) :
  az_from_connection_string e (AZURE_CONN_STR cfg) = None ->
  upload_blob cfg e local_path blob_name w
  = (Ok (upload_result cfg e local_path blob_name w),
     extend w (upload_effects cfg e local_path blob_name w)).
Proof.
  intros Hc. unfold upload_blob, upload_result, upload_effects.
  rewrite Hc. cbn [raise_if].
  unfold bind at 1, ret at 1. unfold try_except at 1.
  destruct (az_get_container_client e) as [ex1|]; cbn [raise_if].
  { rewrite extend_nil. reflexivity. }
  unfold bind at 1, ret at 1. unfold bind at 1.
  assert (Hcreate :
    try_except
      (emit (EvCreateContainer (CONTAINER_NAME cfg));; raise_if (az_create_container e))
      (fun _ : exn => ret tt) w
    = (Ok tt, extend w [EvCreateContainer (CONTAINER_NAME cfg)])).
  { unfold try_except, bind, emit, extend.
    destruct (az_create_container e); reflexivity. }
  rewrite Hcreate.
  destruct (az_get_blob_client e) as [ex2|]; cbn [raise_if].
  { reflexivity. }
  unfold bind at 1, ret at 1. unfold bind at 1, open_rb.
  assert (Hfile : file_content local_path
                    (trace (extend w [EvCreateContainer (CONTAINER_NAME cfg)]))
                  = file_content local_path (trace w)).
  { unfold extend, file_content. cbn [trace].
    rewrite file_content_from_app. reflexivity. }
  rewrite Hfile.
  destruct (file_content local_path (trace w)) as [data|]; [|reflexivity].
  unfold bind at 1, emit. cbn [now trace extend].
  destruct (az_upload_blob e) as [ex4|]; cbn [raise_if bind raise ret];
    unfold extend, blob_url_of; cbn [now trace]; rewrite <- app_assoc; reflexivity.
Qed.

(** C9 (as amended).  Once the service client has been built from the
    connection string, [upload_blob] never raises.  It returns the blob
    URL exactly when the container client, the blob client, the local file
    and the upload itself are all available, after an upload made with
    [overwrite=True]; whether [create_container] raised plays no part.
    In every other case it returns [None].  It touches no local file. *)
Theorem upload_blob_spec (cfg : config) (e : env) (local_path blob_name : string)
    (w : world) :
  az_from_connection_string e (AZURE_CONN_STR cfg) = None ->
  exists (r : option string) (evs : list event),
    upload_blob cfg e local_path blob_name w = (Ok r, extend w evs)
    /\ file_events evs = [] /\ fetches evs = []
    /\ ((r = Some (blob_url_of cfg blob_name)
         /\ az_get_container_client e = None
         /\ az_get_blob_client e = None
         /\ az_upload_blob e = None
         /\ exists data,
              file_content local_path (trace w) = Some data
              /\ evs = [EvCreateContainer (CONTAINER_NAME cfg);
                        EvUploadBlob (CONTAINER_NAME cfg) blob_name data true])
        \/ (r = None
            /\ (az_get_container_client e <> None
                \/ az_get_blob_client e <> None
                \/ az_upload_blob e <> None
                \/ file_content local_path (trace w) = None))).
Proof.
  intros Hc.
  exists (upload_result cfg e local_path blob_name w),
         (upload_effects cfg e local_path blob_name w).
  split; [apply upload_blob_eval, Hc|].
  unfold upload_result, upload_effects.
  destruct (az_get_container_client e) as [ex1|].
  { split; [reflexivity|]. split; [reflexivity|].
    right. split; [reflexivity|]. left. discriminate. }
  destruct (az_get_blob_client e) as [ex2|].
  { split; [reflexivity|]. split; [reflexivity|].
    right. split; [reflexivity|]. right. left. discriminate. }
  destruct (file_content local_path (trace w)) as [data|].
  2:{ split; [reflexivity|]. split; [reflexivity|].
      right. split; [reflexivity|]. right. right. right. reflexivity. }
  destruct (az_upload_blob e) as [ex4|].
  { split; [reflexivity|]. split; [reflexivity|].
    right. split; [reflexivity|]. right. right. left. discriminate. }
  split; [reflexivity|]. split; [reflexivity|].
  left. repeat (split; [reflexivity|]). exists data. split; reflexivity.
Qed.

(** The theorem at work when the local file exists and Azure accepts
    everything. *)
Lemma upload_blob_witness :
  az_from_connection_string (scenario accepted (fun _ => in_progress) no_fetch)
    (AZURE_CONN_STR cfg_ok) = None
  /\ exists (r : option string) (evs : list event),
       upload_blob cfg_ok (scenario accepted (fun _ => in_progress) no_fetch)
         "static/generated_images/a.png" "a.png" w_file = (Ok r, extend w_file evs)
       /\ file_events evs = [] /\ fetches evs = []
       /\ ((r = Some (blob_url_of cfg_ok "a.png")
            /\ az_get_container_client (scenario accepted (fun _ => in_progress) no_fetch) = None
            /\ az_get_blob_client (scenario accepted (fun _ => in_progress) no_fetch) = None
            /\ az_upload_blob (scenario accepted (fun _ => in_progress) no_fetch) = None
            /\ exists data,
                 file_content "static/generated_images/a.png" (trace w_file) = Some data
                 /\ evs = [EvCreateContainer (CONTAINER_NAME cfg_ok);
                           EvUploadBlob (CONTAINER_NAME cfg_ok) "a.png" data true])
           \/ (r = None
               /\ (az_get_container_client (scenario accepted (fun _ => in_progress) no_fetch) <> None
                   \/ az_get_blob_client (scenario accepted (fun _ => in_progress) no_fetch) <> None
                   \/ az_upload_blob (scenario accepted (fun _ => in_progress) no_fetch) <> None
                   \/ file_content "static/generated_images/a.png" (trace w_file) = None))).
Proof.
  split; [reflexivity|].
  apply (upload_blob_spec cfg_ok (scenario accepted (fun _ => in_progress) no_fetch)
           "static/generated_images/a.png" "a.png" w_file).
  reflexivity.
Defined.

(** C9 as stated fails: the client is built outside the [try], so when the
    SDK refuses the connection string (here one that passes the
    configuration check) the exception reaches the caller. *)
Lemma upload_blob_raises :
  check_api_configuration cfg_bad_azure = []
  /\ upload_blob cfg_bad_azure (env_strict_azure accepted (fun _ => in_progress) no_fetch)
       "static/generated_images/a.png" "a.png" w_file
     = (Raise (ValueError "Connection string is either blank or malformed."), w_file).
Proof. split; reflexivity. Qed.

(** What [upload_blob] does to the rest of the run. *)
Lemma upload_effects_frame (cfg : config) (e : env) (local_path blob_name : string)
    (w : world) :
  file_events (upload_effects cfg e local_path blob_name w) = []
  /\ fetches (upload_effects cfg e local_path blob_name w) = [].
Proof.
  unfold upload_effects.
  destruct (az_get_container_client e); [split; reflexivity|].
  destruct (az_get_blob_client e); [split; reflexivity|].
  destruct (file_content local_path (trace w)); split; reflexivity.
Qed.

Lemma upload_blob_frame (cfg : config) (e : env) (local_path blob_name : string)
    (w : world) :
  match az_from_connection_string e (AZURE_CONN_STR cfg) with
  | Some ex => upload_blob cfg e local_path blob_name w = (Raise ex, w)
  | None =>
      exists (r : option string) (evs : list event),
        upload_blob cfg e local_path blob_name w = (Ok r, extend w evs)
        /\ file_events evs = [] /\ fetches evs = []
  end.
Proof.
  destruct (az_from_connection_string e (AZURE_CONN_STR cfg)) as [ex|] eqn:Hc.
  - unfold upload_blob. rewrite Hc. reflexivity.
  - exists (upload_result cfg e local_path blob_name w),
           (upload_effects cfg e local_path blob_name w).
    split; [apply upload_blob_eval, Hc | apply upload_effects_frame].
Qed.

(** ** The [try] statement, evaluated *)

Lemma guarded_job_eval (cfg : config) (e : env) (rid : string)
    (prompt width height : json) (w : world) :
  guarded_job cfg e rid prompt width height w
  = match run_job cfg e rid prompt width height w with
    | (Raise ex, w') =>
        (Ok (BodyApiError (handle_api_error ex rid),
             if is_request_exception ex then 400 else 500), w')
    | r => r
    end.
Proof.
  unfold guarded_job, try_except, on_exception.
  destruct (run_job cfg e rid prompt width height w) as [[resp | ex |] w'];
    try reflexivity.
  destruct (is_request_exception ex); reflexivity.
Qed.

Lemma run_job_eval (cfg : config) (e : env) (rid : string)
    (prompt width height : json) (w : world) :
  run_job cfg e rid prompt width height w
  = match submit_outcome (post_reply e) with
    | Ok job_id =>
        match await e job_id (posted e prompt width height w) with
        | (Ok result, w1) =>
            match extract_outcome result with
            | Ok image_url =>
                let w2 := extend w1 (save_effects e image_url (save_path_of rid)) in
                match save_outcome e image_url with
                | Ok _ =>
                    match upload_blob cfg e (save_path_of rid) (rid ++ ".png")%string w2 with
                    | (Ok blob_url, w3) =>
                        (Ok (BodySuccess ("/generated_images/" ++ rid ++ ".png")%string
                               blob_url, 200), w3)
                    | (Raise ex, w3) => (Raise ex, w3)
                    | (Diverge, w3) => (Diverge, w3)
                    end
                | Raise ex => (Raise ex, w2)
                | Diverge => (Diverge, w2)
                end
            | Raise ex => (Raise ex, w1)
            | Diverge => (Diverge, w1)
            end
        | (Raise ex, w1) => (Raise ex, w1)
        | (Diverge, w1) => (Diverge, w1)
        end
    | Raise ex => (Raise ex, posted e prompt width height w)
    | Diverge => (Diverge, posted e prompt width height w)
    end.
Proof.
  unfold run_job. unfold bind at 1. rewrite submit_eval.
  destruct (submit_outcome (post_reply e)) as [job_id | ex |]; try reflexivity.
  unfold bind at 1.
  destruct (await e job_id (posted e prompt width height w)) as [[result | ex |] w1];
    try reflexivity.
  unfold bind at 1. rewrite extract_eval.
  destruct (extract_outcome result) as [image_url | ex |]; try reflexivity.
  unfold bind at 1. rewrite save_image_eval. cbv zeta.
  destruct (save_outcome e image_url) as [u | ex |]; reflexivity.
Qed.

(** A poll that the run issues and that ends the loop is the last one,
    and it decides the outcome. *)
Lemma await_decided (e : env) (job_id : json) (w : world) (i : nat)
    (out : outcome json) :
  (i < polls_made e job_id w)%nat ->
  judge (poll_reply e i) = Finished out ->
  fst (await e job_id w) = out /\ polls_made e job_id w = S i.
Proof.
  intros Hi J.
  destruct (await_run e job_id w) as (k & evs & _ & _ & Hn & Hpre & Hfin).
  cbv zeta in *.
  assert (i = k) as ->.
  { destruct (Nat.lt_ge_cases i k) as [Hlt|Hge].
    - rewrite (Hpre i Hlt) in J. discriminate.
    - lia. }
  rewrite J in Hfin. auto.
Qed.

(** ** C3: HTTP error statuses *)

Lemma judge_http_error (lat : nat) (code : Z) (body : json) :
  http_error code = true ->
  judge (Replied lat code body) = Finished (Raise (RequestException (Some code))).
Proof. unfold http_error. intros H. cbn [judge]. rewrite H. reflexivity. Qed.

(** C3.  Whichever of the three requests of a run (the submission, a
    status poll, the image download) is answered with an HTTP error status
    [code], the route answers 400 with the result of [handle_api_error] for
    that status: a record with status "error", the request id, a user
    message that differs from the technical message, and the error code
    AUTH_FAILED for 401, ACCESS_FORBIDDEN for 403, RATE_LIMITED for 429 and
    SERVICE_ERROR for every code from 500 to 599. *)
Theorem http_error_mapping (cfg : config) (e : env) (rid : string)
    (prompt width height : json) (w : world) (code : Z) :
  http_error code = true ->
  replied_with e prompt width height w code ->
  exists (r : error_result) (w' : world),
    guarded_job cfg e rid prompt width height w = (Ok (BodyApiError r, 400), w')
    /\ r = handle_api_error (RequestException (Some code)) rid
    /\ status r = "error"
    /\ request_id r = rid
    /\ user_message r <> message r
    /\ (code = 401 -> error_code r = "AUTH_FAILED")
    /\ (code = 403 -> error_code r = "ACCESS_FORBIDDEN")
    /\ (code = 429 -> error_code r = "RATE_LIMITED")
    /\ (500 <= code <= 599 -> error_code r = "SERVICE_ERROR").
Proof.
  intros Herr Hat.
  assert (Hrun : exists w',
    run_job cfg e rid prompt width height w
    = (Raise (RequestException (Some code)), w')).
  { rewrite run_job_eval.
    destruct Hat as [lat body Hp | job_id i lat body Hs Hi Hp
                    | job_id result url chunks ending Hs Ha Hx Hd Hh Hf].
    - rewrite Hp. cbn [submit_outcome]. rewrite Herr. eauto.
    - rewrite Hs.
      assert (J : judge (poll_reply e i)
                  = Finished (Raise (RequestException (Some code))))
        by (rewrite Hp; apply judge_http_error, Herr).
      destruct (@await_decided e job_id _ i _ Hi J) as [Hout _].
      destruct (await e job_id (posted e prompt width height w)) as [out w1].
      cbn [fst] in Hout. subst out. eauto.
    - rewrite Hs.
      destruct (await e job_id (posted e prompt width height w)) as [out w1].
      cbn [fst] in Ha. subst out. rewrite Hx. cbv zeta.
      cbn [save_outcome]. rewrite Hd, Hh, Hf, Herr. eauto. }
  destruct Hrun as [w' Hrun].
  exists (handle_api_error (RequestException (Some code)) rid), w'.
  split.
  { rewrite guarded_job_eval, Hrun. reflexivity. }
  split; [reflexivity|].
  unfold handle_api_error. cbn [response_status].
  destruct (Z.eqb_spec code 401) as [->|N1].
  { cbn. repeat split; try discriminate; intros; lia. }
  destruct (Z.eqb_spec code 403) as [->|N2].
  { cbn. repeat split; try discriminate; intros; lia. }
  destruct (Z.eqb_spec code 429) as [->|N3].
  { cbn. repeat split; try discriminate; intros; lia. }
  destruct (Z.geb_spec code 500) as [Hge|Hlt].
  { cbn. repeat split; try discriminate; intros; lia. }
  cbn. repeat split; try discriminate; intros; lia.
Qed.

(** The theorem at work when the second status poll is answered 503. *)
Lemma http_error_mapping_witness :
  http_error 503 = true
  /\ replied_with env_poll_503 (JStr "x") (JNum 256) (JNum 256) w0 503
  /\ exists (r : error_result) (w' : world),
       guarded_job cfg_ok env_poll_503 rid0 (JStr "x") (JNum 256) (JNum 256) w0
       = (Ok (BodyApiError r, 400), w')
       /\ r = handle_api_error (RequestException (Some 503)) rid0
       /\ status r = "error"
       /\ request_id r = rid0
       /\ user_message r <> message r
       /\ (503 = 401 -> error_code r = "AUTH_FAILED")
       /\ (503 = 403 -> error_code r = "ACCESS_FORBIDDEN")
       /\ (503 = 429 -> error_code r = "RATE_LIMITED")
       /\ (500 <= 503 <= 599 -> error_code r = "SERVICE_ERROR").
Proof.
  assert (H : replied_with env_poll_503 (JStr "x") (JNum 256) (JNum 256) w0 503).
  { apply at_poll with (job_id := job0) (i := 1%nat) (lat := 0%nat) (body := JNull).
    - reflexivity.
    - vm_compute. apply le_n.
    - reflexivity. }
  split; [reflexivity|]. split; [exact H|].
  apply (http_error_mapping cfg_ok rid0 (code := 503)); [reflexivity | exact H].
Defined.

(** ** C6: failures below HTTP *)

(** C6 (as amended).  A request of the submission or of the polling that
    fails below HTTP raises a request exception without response; the
    route answers 400 with the fallback of [handle_api_error], whose error
    code is UNKNOWN_ERROR (SERVICE_ERROR is reserved to replies with a
    status of 500 or more). *)
Theorem transport_failure_unknown_error (cfg : config) (e : env) (rid : string)
    (prompt width height : json) (w : world) :
  transport_failure e prompt width height w ->
  exists w' : world,
    run_job cfg e rid prompt width height w = (Raise (RequestException None), w')
    /\ guarded_job cfg e rid prompt width height w
       = (Ok (BodyApiError (unknown_error rid), 400), w')
    /\ error_code (unknown_error rid) = "UNKNOWN_ERROR".
Proof.
  intros Hat.
  assert (Hrun : exists w',
    run_job cfg e rid prompt width height w = (Raise (RequestException None), w')).
  { rewrite run_job_eval.
    destruct Hat as [lat Hp | job_id i lat Hs Hi Hp].
    - rewrite Hp. cbn [submit_outcome]. eauto.
    - rewrite Hs.
      assert (J : judge (poll_reply e i) = Finished (Raise (RequestException None)))
        by (rewrite Hp; reflexivity).
      destruct (@await_decided e job_id _ i _ Hi J) as [Hout _].
      destruct (await e job_id (posted e prompt width height w)) as [out w1].
      cbn [fst] in Hout. subst out. eauto. }
  destruct Hrun as [w' Hrun]. exists w'.
  split; [exact Hrun|]. split; [|reflexivity].
  rewrite guarded_job_eval, Hrun. reflexivity.
Qed.

(** The theorem at work when the submission gets no response. *)
Lemma transport_failure_unknown_error_witness :
  transport_failure env_unreachable (JStr "x") (JNum 256) (JNum 256) w0
  /\ exists w' : world,
       run_job cfg_ok env_unreachable rid0 (JStr "x") (JNum 256) (JNum 256) w0
       = (Raise (RequestException None), w')
       /\ guarded_job cfg_ok env_unreachable rid0 (JStr "x") (JNum 256) (JNum 256) w0
          = (Ok (BodyApiError (unknown_error rid0), 400), w')
       /\ error_code (unknown_error rid0) = "UNKNOWN_ERROR".
Proof.
  assert (H : transport_failure env_unreachable (JStr "x") (JNum 256) (JNum 256) w0)
    by (apply tf_submit with (lat := 0%nat); reflexivity).
  split; [exact H|].
  apply (transport_failure_unknown_error cfg_ok rid0 H).
Defined.

(** C6 as stated fails: when the generation API cannot be reached, the
    answer to the request of the examples carries the error code
    UNKNOWN_ERROR, not SERVICE_ERROR. *)
Lemma transport_failure_not_service_error :
  fst (generate_image cfg_ok env_unreachable data0 w0)
  = Ok (BodyApiError
          (mk_error "error" "An unexpected error occurred"
             "Something went wrong. Please try again or contact support."
             "UNKNOWN_ERROR" rid0), 400)
  /\ "UNKNOWN_ERROR" <> "SERVICE_ERROR"
  /\ error_code (handle_api_error (RequestException (Some 500)) rid0) = "SERVICE_ERROR".
Proof. split; [reflexivity|]. split; [discriminate | reflexivity]. Qed.

(** ** C7: a submission reply without job identifier *)

(** C7.  When the reply to the submission is an object without a usable
    "id", [submit] raises the [ValueError] "Job ID not found in /run
    response."; nothing but the submission has been done, and the route
    answers 500 with the fallback record of [handle_api_error]. *)
Theorem missing_job_id (cfg : config) (e : env) (rid : string)
    (prompt width height : json) (w : world) (lat : nat) (code : Z)
    (d : list (string * json)) :
  post_reply e = Replied lat code (JObj d) ->
  http_error code = false ->
  truthy (dict_get d "id" JNull) = false ->
  submit e prompt width height w
  = (Raise (ValueError "Job ID not found in /run response."),
     posted e prompt width height w)
  /\ guarded_job cfg e rid prompt width height w
     = (Ok (BodyApiError (unknown_error rid), 500), posted e prompt width height w)
  /\ trace (posted e prompt width height w) = trace w ++ [EvPost prompt width height].
Proof.
  intros Hp Hc Hid.
  assert (Hs : submit_outcome (post_reply e)
               = Raise (ValueError "Job ID not found in /run response.")).
  { rewrite Hp. cbn [submit_outcome]. rewrite Hc, Hid. reflexivity. }
  split; [rewrite submit_eval, Hs; reflexivity|].
  split; [|reflexivity].
  rewrite guarded_job_eval, run_job_eval, Hs. reflexivity.
Qed.

(** The theorem at work on a reply that only has a status. *)
Lemma missing_job_id_witness :
  post_reply env_no_job = Replied 0 200 (JObj [("status", JStr "IN_QUEUE")])
  /\ http_error 200 = false
  /\ truthy (dict_get [("status", JStr "IN_QUEUE")] "id" JNull) = false
  /\ submit env_no_job (JStr "x") (JNum 256) (JNum 256) w0
     = (Raise (ValueError "Job ID not found in /run response."),
        posted env_no_job (JStr "x") (JNum 256) (JNum 256) w0)
  /\ guarded_job cfg_ok env_no_job rid0 (JStr "x") (JNum 256) (JNum 256) w0
     = (Ok (BodyApiError (unknown_error rid0), 500),
        posted env_no_job (JStr "x") (JNum 256) (JNum 256) w0)
  /\ trace (posted env_no_job (JStr "x") (JNum 256) (JNum 256) w0)
     = trace w0 ++ [EvPost (JStr "x") (JNum 256) (JNum 256)].
Proof.
  split; [reflexivity|]. split; [reflexivity|]. split; [reflexivity|].
  apply (@missing_job_id cfg_ok env_no_job rid0 (JStr "x") (JNum 256) (JNum 256) w0
           0%nat 200 [("status", JStr "IN_QUEUE")]); reflexivity.
Defined.

(** ** Effects of the submission and of the polling on files *)

Lemma posted_frame (e : env) (prompt width height : json) (w : world) :
  file_events (trace (posted e prompt width height w)) = file_events (trace w)
  /\ fetches (trace (posted e prompt width height w)) = fetches (trace w).
Proof.
  unfold posted. cbn [trace]. rewrite file_events_app, fetches_app.
  cbn. rewrite !app_nil_r. split; reflexivity.
Qed.

Lemma await_frame (e : env) (job_id : json) (w : world) :
  file_events (trace (snd (await e job_id w))) = file_events (trace w)
  /\ fetches (trace (snd (await e job_id w))) = fetches (trace w).
Proof.
  destruct (await_run e job_id w) as (k & evs & Htr & Hs & _).
  cbv zeta in *. rewrite Htr, file_events_app, fetches_app.
  destruct (poll_schedule_no_files Hs) as [-> ->].
  rewrite !app_nil_r. split; reflexivity.
Qed.

(** ** C5: a job reported failed or cancelled *)

Lemma judge_failed (lat : nat) (code : Z) (d : list (string * json)) (st : string) :
  http_error code = false ->
  dict_get d "status" JNull = JStr st ->
  st = "FAILED" \/ st = "CANCELLED" ->
  judge (Replied lat code (JObj d))
  = Finished (Raise (generation_error st (dict_get d "error" (JStr "")))).
Proof.
  unfold http_error. intros Hc Hst Hs. cbn [judge]. rewrite Hc, Hst.
  destruct Hs as [-> | ->]; reflexivity.
Qed.

(** C5.  When a status poll that the run issues reports FAILED or
    CANCELLED, the polling ends with that poll and raises the
    [RuntimeError] whose message is made of the reported status and of the
    server's "error" value (the empty string when there is none); the run
    ends there: nothing is fetched and no file is opened or written.  The
    route logs the exception and answers 500 with the fallback record of
    [handle_api_error]. *)
Theorem job_failed_or_cancelled (cfg : config) (e : env) (rid : string)
    (prompt width height : json) (w : world) (job_id : json) (i lat : nat)
    (code : Z) (d : list (string * json)) (st : string) :
  submit_outcome (post_reply e) = Ok job_id ->
  (i < polls_made e job_id (posted e prompt width height w))%nat ->
  poll_reply e i = Replied lat code (JObj d) ->
  http_error code = false ->
  dict_get d "status" JNull = JStr st ->
  st = "FAILED" \/ st = "CANCELLED" ->
  exists w' : world,
    await e job_id (posted e prompt width height w)
    = (Raise (generation_error st (dict_get d "error" (JStr ""))), w')
    /\ polls_made e job_id (posted e prompt width height w) = S i
    /\ run_job cfg e rid prompt width height w
       = (Raise (generation_error st (dict_get d "error" (JStr ""))), w')
    /\ guarded_job cfg e rid prompt width height w
       = (Ok (BodyApiError (unknown_error rid), 500), w')
    /\ file_events (trace w') = file_events (trace w)
    /\ fetches (trace w') = fetches (trace w).
Proof.
  intros Hs Hi Hp Hc Hst Hfc.
  assert (J : judge (poll_reply e i)
              = Finished (Raise (generation_error st (dict_get d "error" (JStr "")))))
    by (rewrite Hp; apply judge_failed; assumption).
  destruct (@await_decided e job_id _ i _ Hi J) as [Hout Hn].
  destruct (await_frame e job_id (posted e prompt width height w)) as [Hf1 Hf2].
  destruct (posted_frame e prompt width height w) as [Hp1 Hp2].
  destruct (await e job_id (posted e prompt width height w)) as [out w1] eqn:Ha.
  cbn [fst snd] in Hout, Hf1, Hf2. subst out.
  assert (Hrun : run_job cfg e rid prompt width height w
                 = (Raise (generation_error st (dict_get d "error" (JStr ""))), w1)).
  { rewrite run_job_eval, Hs, Ha. reflexivity. }
  exists w1.
  split; [reflexivity|]. split; [exact Hn|]. split; [exact Hrun|].
  split; [rewrite guarded_job_eval, Hrun; reflexivity|].
  split; congruence.
Qed.

(** The example of the specification: FAILED with the error "oom" on the
    first poll. *)
Lemma job_failed_or_cancelled_witness :
  submit_outcome (post_reply env_failed_oom) = Ok job0
  /\ (0 < polls_made env_failed_oom job0
            (posted env_failed_oom (JStr "x") (JNum 256) (JNum 256) w0))%nat
  /\ poll_reply env_failed_oom 0
     = Replied 0 200 (JObj [("status", JStr "FAILED"); ("error", JStr "oom")])
  /\ http_error 200 = false
  /\ dict_get [("status", JStr "FAILED"); ("error", JStr "oom")] "status" JNull
     = JStr "FAILED"
  /\ exists w' : world,
       await env_failed_oom job0
         (posted env_failed_oom (JStr "x") (JNum 256) (JNum 256) w0)
       = (Raise (generation_error "FAILED" (JStr "oom")), w')
       /\ polls_made env_failed_oom job0
            (posted env_failed_oom (JStr "x") (JNum 256) (JNum 256) w0) = 1%nat
       /\ run_job cfg_ok env_failed_oom rid0 (JStr "x") (JNum 256) (JNum 256) w0
          = (Raise (generation_error "FAILED" (JStr "oom")), w')
       /\ guarded_job cfg_ok env_failed_oom rid0 (JStr "x") (JNum 256) (JNum 256) w0
          = (Ok (BodyApiError (unknown_error rid0), 500), w')
       /\ file_events (trace w') = file_events (trace w0)
       /\ fetches (trace w') = fetches (trace w0).
Proof.
  assert (Hi : (0 < polls_made env_failed_oom job0
                      (posted env_failed_oom (JStr "x") (JNum 256) (JNum 256) w0))%nat)
    by (vm_compute; apply le_n).
  split; [reflexivity|]. split; [exact Hi|]. split; [reflexivity|].
  split; [reflexivity|]. split; [reflexivity|].
  apply (@job_failed_or_cancelled cfg_ok env_failed_oom rid0 (JStr "x") (JNum 256)
           (JNum 256) w0 job0 0%nat 0%nat 200
           [("status", JStr "FAILED"); ("error", JStr "oom")] "FAILED");
    [reflexivity | exact Hi | reflexivity | reflexivity | reflexivity
    | left; reflexivity].
Defined.

(** ** C2: the output of a completed job *)

Lemma judge_completed (lat : nat) (code : Z) (d : list (string * json)) :
  http_error code = false ->
  dict_get d "status" JNull = JStr "COMPLETED" ->
  judge (Replied lat code (JObj d)) = Finished (Ok (JObj d)).
Proof.
  unfold http_error. intros Hc Hst. cbn [judge]. rewrite Hc, Hst. reflexivity.
Qed.

(** The if/elif chain of "Parse output" is the first-match reading of the
    rules. *)
Lemma parse_output_first_match (output : json) :
  first_match extraction_rules output
  = if truthy (parse_output output) then Some (parse_output output) else None.
Proof.
  destruct output as [| b | n | s | items | d]; try reflexivity.
  - destruct items as [|[| b | n | s | items' | d'] rest]; reflexivity.
  - cbn [extraction_rules first_match rule_image_url rule_image rule_bare_string
         rule_first_of_list parse_output].
    unfold py_or, dict_get.
    destruct (assoc "image_url" d) as [v1|]; destruct (assoc "image" d) as [v2|];
      cbn [truthy].
    + destruct (truthy v1) eqn:T1; rewrite ?T1; [reflexivity|].
      destruct (truthy v2) eqn:T2; rewrite ?T2; reflexivity.
    + destruct (truthy v1) eqn:T1; rewrite ?T1; reflexivity.
    + destruct (truthy v2) eqn:T2; rewrite ?T2; reflexivity.
    + reflexivity.
Qed.

(** C2.  When a status poll that the run issues reports COMPLETED, the
    polling ends with that poll and returns its status document.  The value
    handed on to the decoding is the one of the first extraction rule, in
    the order [image_url] field, [image] field, bare string, first element
    of a list when it is a string, that yields a usable value; when no rule
    does, [ValueError] "image_url not found in output." is raised, nothing
    is fetched or written, and the route answers 500 with the fallback
    record of [handle_api_error]. *)
Theorem completed_output (cfg : config) (e : env) (rid : string)
    (prompt width height : json) (w : world) (job_id : json) (i lat : nat)
    (code : Z) (d : list (string * json)) :
  submit_outcome (post_reply e) = Ok job_id ->
  (i < polls_made e job_id (posted e prompt width height w))%nat ->
  poll_reply e i = Replied lat code (JObj d) ->
  http_error code = false ->
  dict_get d "status" JNull = JStr "COMPLETED" ->
  exists w1 : world,
    await e job_id (posted e prompt width height w) = (Ok (JObj d), w1)
    /\ polls_made e job_id (posted e prompt width height w) = S i
    /\ match first_match extraction_rules (dict_get d "output" JNull) with
       | Some image_url =>
           extract_image_url (JObj d) w1 = (Ok image_url, w1)
           /\ run_job cfg e rid prompt width height w
              = (save_image e image_url (save_path_of rid) ;;
                 blob_url <- upload_blob cfg e (save_path_of rid) (rid ++ ".png")%string ;;
                 ret (BodySuccess ("/generated_images/" ++ rid ++ ".png")%string
                        blob_url, 200)) w1
       | None =>
           extract_image_url (JObj d) w1
           = (Raise (ValueError "image_url not found in output."), w1)
           /\ run_job cfg e rid prompt width height w
              = (Raise (ValueError "image_url not found in output."), w1)
           /\ guarded_job cfg e rid prompt width height w
              = (Ok (BodyApiError (unknown_error rid), 500), w1)
           /\ file_events (trace w1) = file_events (trace w)
           /\ fetches (trace w1) = fetches (trace w)
       end.
Proof.
  intros Hs Hi Hp Hc Hst.
  assert (J : judge (poll_reply e i) = Finished (Ok (JObj d)))
    by (rewrite Hp; apply judge_completed; assumption).
  destruct (@await_decided e job_id _ i _ Hi J) as [Hout Hn].
  destruct (await_frame e job_id (posted e prompt width height w)) as [Hf1 Hf2].
  destruct (posted_frame e prompt width height w) as [Hp1 Hp2].
  destruct (await e job_id (posted e prompt width height w)) as [out w1] eqn:Ha.
  cbn [fst snd] in Hout, Hf1, Hf2. subst out.
  exists w1. split; [reflexivity|]. split; [exact Hn|].
  assert (Hx : extract_image_url (JObj d) w1
               = (extract_outcome (JObj d), w1)) by apply extract_eval.
  assert (Hrun : run_job cfg e rid prompt width height w
    = (image_url <- extract_image_url (JObj d) ;;
       save_image e image_url (save_path_of rid) ;;
       blob_url <- upload_blob cfg e (save_path_of rid) (rid ++ ".png")%string ;;
       ret (BodySuccess ("/generated_images/" ++ rid ++ ".png")%string
              blob_url, 200)) w1).
  { unfold run_job. unfold bind at 1. rewrite submit_eval, Hs.
    unfold bind at 1. rewrite Ha. reflexivity. }
  unfold bind at 1 in Hrun. rewrite Hx in Hrun.
  rewrite parse_output_first_match.
  cbn [extract_outcome] in Hx, Hrun.
  destruct (truthy (parse_output (dict_get d "output" JNull))).
  - split; [exact Hx | exact Hrun].
  - split; [exact Hx|]. split; [exact Hrun|].
    split; [rewrite guarded_job_eval, Hrun; reflexivity|].
    split; congruence.
Qed.

(** The theorem at work on a completed job whose output is a number. *)
Lemma completed_output_witness :
  submit_outcome (post_reply env_odd_output) = Ok job0
  /\ (0 < polls_made env_odd_output job0
            (posted env_odd_output (JStr "x") (JNum 256) (JNum 256) w0))%nat
  /\ exists w1 : world,
       await env_odd_output job0
         (posted env_odd_output (JStr "x") (JNum 256) (JNum 256) w0)
       = (Ok (JObj [("status", JStr "COMPLETED"); ("output", JNum 7)]), w1)
       /\ polls_made env_odd_output job0
            (posted env_odd_output (JStr "x") (JNum 256) (JNum 256) w0) = 1%nat
       /\ extract_image_url (JObj [("status", JStr "COMPLETED"); ("output", JNum 7)]) w1
          = (Raise (ValueError "image_url not found in output."), w1)
       /\ run_job cfg_ok env_odd_output rid0 (JStr "x") (JNum 256) (JNum 256) w0
          = (Raise (ValueError "image_url not found in output."), w1)
       /\ guarded_job cfg_ok env_odd_output rid0 (JStr "x") (JNum 256) (JNum 256) w0
          = (Ok (BodyApiError (unknown_error rid0), 500), w1)
       /\ file_events (trace w1) = file_events (trace w0)
       /\ fetches (trace w1) = fetches (trace w0).
Proof.
  assert (Hi : (0 < polls_made env_odd_output job0
                      (posted env_odd_output (JStr "x") (JNum 256) (JNum 256) w0))%nat)
    by (vm_compute; apply le_n).
  split; [reflexivity|]. split; [exact Hi|].
  exact (@completed_output cfg_ok env_odd_output rid0 (JStr "x") (JNum 256)
           (JNum 256) w0 job0 0%nat 0%nat 200
           [("status", JStr "COMPLETED"); ("output", JNum 7)]
           eq_refl Hi eq_refl eq_refl eq_refl).
Defined.

Example first_match_prefers_image_url :
  first_match extraction_rules
    (JObj [("image", JStr "http://b"); ("image_url", JStr "http://a")])
  = Some (JStr "http://a").
Proof. reflexivity. Qed.

Example first_match_falls_back_to_image :
  first_match extraction_rules
    (JObj [("image_url", JStr ""); ("image", JStr "http://b")])
  = Some (JStr "http://b").
Proof. reflexivity. Qed.

Example first_match_list :
  first_match extraction_rules (JList [JStr "http://a"; JStr "http://b"])
  = Some (JStr "http://a").
Proof. reflexivity. Qed.

Example first_match_list_of_numbers :
  first_match extraction_rules (JList [JNum 1; JStr "http://b"]) = None.
Proof. reflexivity. Qed.

(** ** C4: decoding the output *)


Lemma file_events_writes (path : string) (chunks : list (list byte)) :
  file_events (map (EvWrite path) chunks) = map (EvWrite path) chunks.
Proof.
  induction chunks as [|c rest IH]; [reflexivity|].
  cbn [map]. unfold file_events in *. cbn [filter is_file_event]. rewrite IH.
  reflexivity.
Qed.


(** ** Files as seen through the effects *)

Lemma file_content_writes (path : string) (chunks : list (list byte)) :
  forall acc : list byte,
    file_content_from path (map (EvWrite path) chunks) (Some acc)
    = Some (acc ++ List.concat chunks).
Proof.
  induction chunks as [|c rest IH]; intros acc; cbn [map List.concat file_content_from].
  - rewrite app_nil_r. reflexivity.
  - rewrite String.eqb_refl, IH, app_assoc. reflexivity.
Qed.

(** Opening a file and writing chunks to it leaves their concatenation in
    it, whatever it held before. *)
Lemma file_content_after_write (path : string) (tr : list event)
    (chunks : list (list byte)) :
  file_content path (tr ++ EvOpen path :: map (EvWrite path) chunks)
  = Some (List.concat chunks).
Proof.
  unfold file_content. rewrite file_content_from_app.
  cbn [file_content_from]. rewrite String.eqb_refl.
  apply (file_content_writes path chunks []).
Qed.

(** Effects that are not file effects leave every file as it is. *)
Lemma file_content_frame (path : string) (evs : list event) :
  forall cur,
    file_events evs = [] ->
    file_content_from path evs cur = cur.
Proof.
  induction evs as [|ev evs IH]; intros cur H; [reflexivity|].
  destruct ev; cbn [file_content_from]; unfold file_events in *;
    cbn [filter is_file_event] in H; try discriminate; apply IH; exact H.
Qed.

Lemma file_content_app_frame (path : string) (tr evs : list event) :
  file_events evs = [] ->
  file_content path (tr ++ evs) = file_content path tr.
Proof.
  intros H. unfold file_content. rewrite file_content_from_app.
  apply file_content_frame, H.
Qed.

Lemma guid_match_nonempty (s : string) : guid_match s = true -> truthy (JStr s) = true.
Proof. destruct s; [discriminate | reflexivity]. Qed.

(** ** C8: what is written, and when *)

Lemma submit_outcome_total (r : http_outcome) : submit_outcome r <> Diverge.
Proof.
  destruct r as [lat | lat code body]; cbn [submit_outcome]; [discriminate|].
  destruct (http_error code); [discriminate|].
  destruct body; try discriminate.
  destruct (truthy (dict_get fields "id" JNull)); discriminate.
Qed.

Lemma extract_outcome_total (result : json) : extract_outcome result <> Diverge.
Proof.
  destruct result; cbn [extract_outcome]; try discriminate.
  destruct (truthy (parse_output (dict_get fields "output" JNull))); discriminate.
Qed.

(** The three ways [save_image] can end: the artifact is written; or it
    raises before the destination is opened; or the download breaks after
    the destination was opened and the chunks received were written. *)
Lemma save_cases (e : env) (image_url : json) (path : string) :
  (save_outcome e image_url = Ok tt
   /\ exists contents,
        file_events (save_effects e image_url path)
        = EvOpen path :: map (EvWrite path) contents)
  \/ (exists ex,
        save_outcome e image_url = Raise ex
        /\ file_events (save_effects e image_url path) = [])
  \/ (exists url code chunks,
        fetch_reply e url = Fetched code chunks StreamBroken
        /\ http_error code = false
        /\ save_outcome e image_url = Raise (RequestException None)
        /\ file_events (save_effects e image_url path)
           = EvOpen path :: map (EvWrite path) chunks).
Proof.
  destruct image_url as [| b | n | url | items | fields];
    try (right; left; eexists; split; reflexivity).
  cbn [save_outcome save_effects].
  destruct (startswith url "data:image").
  - destruct (b64decode (split_comma_last url)) as [ex | image_data].
    + right. left. exists ex. split; reflexivity.
    + left. split; [reflexivity|]. exists [image_data]. reflexivity.
  - destruct (startswith url "http").
    + destruct (fetch_reply e url) as [| code chunks ending] eqn:Hf.
      * right. left. eexists. split; reflexivity.
      * destruct (http_error code) eqn:Hc.
        -- right. left. eexists. split; reflexivity.
        -- assert (Hw : file_events (EvFetch url :: EvOpen path :: map (EvWrite path) chunks)
                        = EvOpen path :: map (EvWrite path) chunks).
           { change (file_events (EvFetch url :: EvOpen path :: map (EvWrite path) chunks))
               with (EvOpen path :: file_events (map (EvWrite path) chunks)).
             rewrite file_events_writes. reflexivity. }
           destruct ending.
           ++ left. split; [reflexivity|]. exists chunks. exact Hw.
           ++ right. right. exists url, code, chunks.
              split; [exact Hf|]. split; [exact Hc|]. split; [reflexivity | exact Hw].
    + right. left. eexists. split; reflexivity.
Qed.

(** The checks that [generate_image] makes before the [try], one by one. *)
Lemma generate_image_request (cfg : config) (e : env) (data : json) (w : world) :
  (generate_image cfg e data w
   = (Raise (AttributeError "object has no attribute 'get'"), w)
   /\ forall d : list (string * json), data <> JObj d)
  \/ exists d : list (string * json),
       data = JObj d
       /\ ((generate_image cfg e data w
            = (Ok (BodyError "Missing request_id or prompt", 400), w)
            /\ (truthy (dict_get d "request_id" JNull) = false
                \/ truthy (dict_get d "prompt" JNull) = false))
           \/ (truthy (dict_get d "request_id" JNull) = true
               /\ truthy (dict_get d "prompt" JNull) = true
               /\ ((generate_image cfg e data w
                    = (Raise (TypeError "expected string or bytes-like object"), w)
                    /\ forall s : string, dict_get d "request_id" JNull <> JStr s)
                   \/ exists s : string,
                        dict_get d "request_id" JNull = JStr s
                        /\ ((guid_match s = false
                             /\ generate_image cfg e data w
                                = (Ok (BodyError "request_id must be a valid GUID", 400),
                                   w))
                            \/ (guid_match s = true
                                /\ ((check_api_configuration cfg <> []
                                     /\ generate_image cfg e data w
                                        = (Ok (BodyConfigMissing (JStr s)
                                                 (check_api_configuration cfg), 503), w))
                                    \/ (check_api_configuration cfg = []
                                        /\ generate_image cfg e data w
                                           = guarded_job cfg e s
                                               (dict_get d "prompt" JNull)
                                               (dict_get d "width" (JNum 512))
                                               (dict_get d "height" (JNum 512)) w))))))).
Proof.
  destruct data as [| b | n | s0 | items | d];
    try (left; split; [reflexivity | intros d; discriminate]).
  right. exists d. split; [reflexivity|].
  assert (Hgi : generate_image cfg e (JObj d) w
    = (if negb (truthy (dict_get d "request_id" JNull)
                && truthy (dict_get d "prompt" JNull))
       then ret (BodyError "Missing request_id or prompt", 400)
       else
         match dict_get d "request_id" JNull with
         | JStr rid_s =>
             if negb (guid_match rid_s)
             then ret (BodyError "request_id must be a valid GUID", 400)
             else
               match check_api_configuration cfg with
               | _ :: _ =>
                   ret (BodyConfigMissing (dict_get d "request_id" JNull)
                          (check_api_configuration cfg), 503)
               | [] =>
                   guarded_job cfg e rid_s (dict_get d "prompt" JNull)
                     (dict_get d "width" (JNum 512)) (dict_get d "height" (JNum 512))
               end
         | _ => raise (TypeError "expected string or bytes-like object")
         end) w) by reflexivity.
  rewrite Hgi. clear Hgi.
  destruct (truthy (dict_get d "request_id" JNull)) eqn:Trid; cbn [andb negb];
    [|left; split; [reflexivity | left; reflexivity]].
  destruct (truthy (dict_get d "prompt" JNull)) eqn:Tprompt; cbn [negb];
    [|left; split; [reflexivity | right; reflexivity]].
  right. split; [reflexivity|]. split; [reflexivity|].
  destruct (dict_get d "request_id" JNull) as [| b | n | s | items | fields];
    try (left; split; [reflexivity | intros s; discriminate]).
  right. exists s. split; [reflexivity|].
  destruct (guid_match s); cbn [negb]; [|left; split; reflexivity].
  right. split; [reflexivity|].
  destruct (check_api_configuration cfg) as [|name names].
  - right. split; reflexivity.
  - left. split; [discriminate | reflexivity].
Qed.

Lemma accepted_request_unique (cfg : config) (data : json)
    (d d' : list (string * json)) (rid rid' : string) :
  accepted_request cfg data d rid ->
  accepted_request cfg data d' rid' ->
  d' = d /\ rid' = rid.
Proof.
  intros (Hd & Hrid & _) (Hd' & Hrid' & _).
  rewrite Hd in Hd'. injection Hd' as <-.
  rewrite Hrid in Hrid'. injection Hrid' as <-. split; reflexivity.
Qed.

(** A request is turned down before the [try], with nothing done, or it
    is accepted and the [try] statement decides. *)
Lemma request_checks (cfg : config) (e : env) (data : json) (w : world) :
  (exists out : outcome response,
     generate_image cfg e data w = (out, w)
     /\ rejection cfg out
     /\ forall d rid, ~ accepted_request cfg data d rid)
  \/ (exists (d : list (string * json)) (rid : string),
        accepted_request cfg data d rid
        /\ generate_image cfg e data w
           = guarded_job cfg e rid (dict_get d "prompt" JNull)
               (dict_get d "width" (JNum 512)) (dict_get d "height" (JNum 512)) w).
Proof.
  destruct (generate_image_request cfg e data w)
    as [[Hg Hd] | (d & Hd & [[Hg Hf] | (Trid & Tprompt & [[Hg Hns] | (s & Hrid & Hs)])])].
  - left. eexists. split; [exact Hg|]. split; [exact I|].
    intros d rid (Hd' & _). exact (Hd d Hd').
  - left. eexists. split; [exact Hg|]. split; [reflexivity|].
    intros d' rid (Hd' & Hrid & Hguid & Hp & _).
    rewrite Hd in Hd'. injection Hd' as <-.
    destruct Hf as [Hf | Hf]; [|congruence].
    rewrite Hrid, (guid_match_nonempty rid Hguid) in Hf. discriminate.
  - left. eexists. split; [exact Hg|]. split; [exact I|].
    intros d' rid (Hd' & Hrid & _).
    rewrite Hd in Hd'. injection Hd' as <-. exact (Hns rid Hrid).
  - destruct Hs as [[Hguid Hg] | [Hguid [[Hcfg Hg] | [Hcfg Hg]]]].
    + left. eexists. split; [exact Hg|]. split; [reflexivity|].
      intros d' rid (Hd' & Hrid' & Hguid' & _).
      rewrite Hd in Hd'. injection Hd' as <-.
      rewrite Hrid in Hrid'. injection Hrid' as <-. congruence.
    + left. eexists. split; [exact Hg|].
      split; [split; [reflexivity|]; split; [reflexivity | exact Hcfg]|].
      intros d' rid (_ & _ & _ & _ & Hcfg'). exact (Hcfg Hcfg').
    + right. exists d, s. split; [|exact Hg].
      split; [exact Hd|]. split; [exact Hrid|]. split; [exact Hguid|].
      split; [exact Tprompt | exact Hcfg].
Qed.

(** The file events of effects that end with the opening of [path] and
    writes to it. *)
Lemma open_write_files (path : string) (pre : list event)
    (contents : list (list byte)) :
  file_events pre = [] ->
  file_events (pre ++ EvOpen path :: map (EvWrite path) contents)
  = EvOpen path :: map (EvWrite path) contents.
Proof.
  intros Hpre. rewrite file_events_app, Hpre.
  change (file_events (EvOpen path :: map (EvWrite path) contents))
    with (EvOpen path :: file_events (map (EvWrite path) contents)).
  rewrite file_events_writes. reflexivity.
Qed.

(** The three ways [save_image] can end: the image is written; or the
    download broke after the destination was opened, and the chunks
    received were written; or it raises with no file touched, and the
    value is no string that stands for an image or a broken download. *)
Lemma save_image_cases (e : env) (image_url : json) (path : string) :
  (exists url contents pre,
     image_url = JStr url
     /\ image_bytes e url contents
     /\ save_outcome e image_url = Ok tt
     /\ file_events pre = []
     /\ save_effects e image_url path
        = pre ++ EvOpen path :: map (EvWrite path) contents)
  \/ (exists url chunks pre,
        image_url = JStr url
        /\ broken_download e url chunks
        /\ save_outcome e image_url = Raise (RequestException None)
        /\ file_events pre = []
        /\ save_effects e image_url path
           = pre ++ EvOpen path :: map (EvWrite path) chunks)
  \/ (exists ex,
        save_outcome e image_url = Raise ex
        /\ file_events (save_effects e image_url path) = []
        /\ forall url, image_url = JStr url ->
             (forall contents, ~ image_bytes e url contents)
             /\ (forall chunks, ~ broken_download e url chunks)).
Proof.
  destruct image_url as [| b | n | url | items | fields];
    try (right; right; eexists; split; [reflexivity|]; split; [reflexivity|];
         intros url; discriminate).
  cbn [save_outcome save_effects].
  destruct (startswith url "data:image") eqn:Hdata.
  - destruct (b64decode (split_comma_last url)) as [ex | image_data] eqn:Hb.
    + right. right. exists ex. split; [reflexivity|]. split; [reflexivity|].
      intros url' Hu. injection Hu as <-. split.
      * intros contents Hi. inversion Hi; congruence.
      * intros chunks Hi. inversion Hi; congruence.
    + left. exists url, [image_data], [].
      split; [reflexivity|]. split; [exact (image_decoded e url Hdata Hb)|].
      split; [reflexivity|]. split; reflexivity.
  - destruct (startswith url "http") eqn:Hhttp.
    + destruct (fetch_reply e url) as [| code chunks ending] eqn:Hf.
      * right. right. eexists. split; [reflexivity|]. split; [reflexivity|].
        intros url' Hu. injection Hu as <-. split.
        -- intros contents Hi. inversion Hi; congruence.
        -- intros chunks Hi. inversion Hi; congruence.
      * destruct (http_error code) eqn:Hc.
        -- right. right. eexists. split; [reflexivity|]. split; [reflexivity|].
           intros url' Hu. injection Hu as <-. split.
           ++ intros contents Hi. inversion Hi; congruence.
           ++ intros chunks' Hi. inversion Hi; congruence.
        -- destruct ending.
           ++ left. exists url, chunks, [EvFetch url].
              split; [reflexivity|].
              split; [exact (image_downloaded e url Hdata Hhttp Hf Hc)|].
              split; [reflexivity|]. split; reflexivity.
           ++ right. left. exists url, chunks, [EvFetch url].
              split; [reflexivity|].
              split; [exact (download_broke e url Hdata Hhttp Hf Hc)|].
              split; [reflexivity|]. split; reflexivity.
    + right. right. eexists. split; [reflexivity|]. split; [reflexivity|].
      intros url' Hu. injection Hu as <-. split.
      * intros contents Hi. inversion Hi; congruence.
      * intros chunks Hi. inversion Hi; congruence.
Qed.




Lemma job_image_unique (e : env) (prompt width height : json) (w : world)
    (v v' : json) :
  job_image e prompt width height w v ->
  job_image e prompt width height w v' ->
  v' = v.
Proof.
  intros (j & r & Hs & Ha & Hx) (j' & r' & Hs' & Ha' & Hx').
  rewrite Hs in Hs'. injection Hs' as <-.
  rewrite Ha in Ha'. injection Ha' as <-.
  rewrite Hx in Hx'. injection Hx' as <-. reflexivity.
Qed.

(** The [try] body, by what reaches the destination.  Nothing: it raises
    with the files as they were.  The image: it is in place when the
    upload begins, and the run succeeds unless the Azure client cannot be
    built.  The chunks of a download that broke: it raises with them in
    place. *)
Lemma run_job_cases (cfg : config) (e : env) (rid : string)
    (prompt width height : json) (w : world) :
  (exists ex w',
     run_job cfg e rid prompt width height w = (Raise ex, w')
     /\ file_events (trace w') = file_events (trace w)
     /\ forall url, job_image e prompt width height w (JStr url) ->
          (forall contents, ~ image_bytes e url contents)
          /\ (forall chunks, ~ broken_download e url chunks))
  \/ (exists url contents w2,
        job_image e prompt width height w (JStr url)
        /\ image_bytes e url contents
        /\ file_events (trace w2)
           = file_events (trace w)
             ++ EvOpen (save_path_of rid) :: map (EvWrite (save_path_of rid)) contents
        /\ file_content (save_path_of rid) (trace w2) = Some (List.concat contents)
        /\ run_job cfg e rid prompt width height w
           = match az_from_connection_string e (AZURE_CONN_STR cfg) with
             | Some ex => (Raise ex, w2)
             | None =>
                 (Ok (BodySuccess ("/generated_images/" ++ rid ++ ".png")%string
                        (upload_result cfg e (save_path_of rid)
                           (rid ++ ".png")%string w2), 200),
                  extend w2 (upload_effects cfg e (save_path_of rid)
                               (rid ++ ".png")%string w2))
             end)
  \/ (exists url chunks w2,
        job_image e prompt width height w (JStr url)
        /\ broken_download e url chunks
        /\ file_events (trace w2)
           = file_events (trace w)
             ++ EvOpen (save_path_of rid) :: map (EvWrite (save_path_of rid)) chunks
        /\ file_content (save_path_of rid) (trace w2) = Some (List.concat chunks)
        /\ run_job cfg e rid prompt width height w
           = (Raise (RequestException None), w2)).
Proof.
  rewrite run_job_eval.
  destruct (posted_frame e prompt width height w) as [Hp _].
  destruct (submit_outcome (post_reply e)) as [job_id | ex |] eqn:Hs.
  2:{ left. eexists _, _. split; [reflexivity|]. split; [exact Hp|].
      intros url (j & r & Hs' & _). congruence. }
  2:{ exfalso. exact (submit_outcome_total _ Hs). }
  destruct (await_frame e job_id (posted e prompt width height w)) as [Ha _].
  pose proof (await_total e job_id (posted e prompt width height w)) as Ht.
  destruct (await e job_id (posted e prompt width height w)) as [[result | ex |] w1]
    eqn:Haw.
  2:{ left. eexists _, _. split; [reflexivity|].
      cbn [snd] in Ha. split; [congruence|].
      intros url (j & r & Hs' & Ha' & _).
      rewrite Hs in Hs'. injection Hs' as <-. rewrite Haw in Ha'. discriminate. }
  2:{ exfalso. apply Ht. reflexivity. }
  cbn [snd] in Ha.
  destruct (extract_outcome result) as [v | ex |] eqn:Hx.
  2:{ left. eexists _, _. split; [reflexivity|]. split; [congruence|].
      intros url (j & r & Hs' & Ha' & Hx').
      rewrite Hs in Hs'. injection Hs' as <-. rewrite Haw in Ha'. injection Ha' as <-.
      rewrite Hx in Hx'. discriminate. }
  2:{ exfalso. exact (extract_outcome_total _ Hx). }
  assert (Hjob : job_image e prompt width height w v).
  { exists job_id, result. rewrite Haw. split; [exact Hs|].
    split; [reflexivity | exact Hx]. }
  cbv zeta.
  set (w2 := extend w1 (save_effects e v (save_path_of rid))).
  assert (Hfiles : forall pre contents,
    file_events pre = [] ->
    save_effects e v (save_path_of rid)
    = pre ++ EvOpen (save_path_of rid) :: map (EvWrite (save_path_of rid)) contents ->
    file_events (trace w2)
    = file_events (trace w)
      ++ EvOpen (save_path_of rid) :: map (EvWrite (save_path_of rid)) contents
    /\ file_content (save_path_of rid) (trace w2) = Some (List.concat contents)).
  { intros pre contents Hpre Hse. unfold w2, extend. cbn [trace]. rewrite Hse. split.
    - rewrite file_events_app, (open_write_files _ _ _ Hpre). congruence.
    - rewrite app_assoc. apply file_content_after_write. }
  destruct (save_image_cases e v (save_path_of rid))
    as [(url & contents & pre & Hv & Hi & Ho & Hpre & Hse)
       | [(url & chunks & pre & Hv & Hi & Ho & Hpre & Hse) | (ex & Ho & Hse & Hno)]];
    rewrite Ho.
  - right. left. destruct (Hfiles pre contents Hpre Hse) as [Hfe Hfc].
    exists url, contents, w2. rewrite <- Hv.
    split; [exact Hjob|]. split; [exact Hi|]. split; [exact Hfe|]. split; [exact Hfc|].
    pose proof (upload_blob_frame cfg e (save_path_of rid) (rid ++ ".png")%string w2)
      as Hu.
    destruct (az_from_connection_string e (AZURE_CONN_STR cfg)) as [ex|] eqn:Hcs.
    + rewrite Hu. reflexivity.
    + rewrite (@upload_blob_eval cfg e (save_path_of rid) (rid ++ ".png")%string w2 Hcs).
      reflexivity.
  - right. right. destruct (Hfiles pre chunks Hpre Hse) as [Hfe Hfc].
    exists url, chunks, w2. rewrite <- Hv.
    split; [exact Hjob|]. split; [exact Hi|]. split; [exact Hfe|].
    split; [exact Hfc | reflexivity].
  - left. exists ex, w2. split; [reflexivity|]. split.
    + unfold w2, extend. cbn [trace]. rewrite file_events_app, Hse, app_nil_r.
      congruence.
    + intros url Hj. apply Hno. exact (job_image_unique Hj Hjob).
Qed.



(* ===================================================================== *)
(** * Further properties of [app.py] *)
(* ===================================================================== *)

(** ** [GUID_REGEX] *)

Lemma match_shape_sound :
  forall (shape : list bool) (s rest : string),
    match_shape shape s = Some rest ->
    exists core,
      s = (core ++ rest)%string
      /\ String.length core = List.length shape
      /\ forall i c, String.get i core = Some c ->
                     exists h, nth_error shape i = Some h /\ shape_ok h c = true.
Proof.
  induction shape as [|h shape IH]; intros s rest H.
  - cbn [match_shape] in H. injection H as <-. exists ""%string.
    split; [reflexivity|]. split; [reflexivity|]. intros i c Hg.
    destruct i; discriminate.
  - destruct s as [|c0 s]; cbn [match_shape] in H; [discriminate|].
    fold (shape_ok h c0) in H.
    destruct (shape_ok h c0) eqn:Hc; [|discriminate].
    destruct (IH s rest H) as (core & -> & Hlen & Hat).
    exists (String c0 core).
    split; [reflexivity|]. split; [cbn; rewrite Hlen; reflexivity|].
    intros i c Hg. destruct i as [|i]; cbn [String.get nth_error] in *.
    + injection Hg as <-. exists h. auto.
    + apply Hat, Hg.
Qed.

Lemma match_shape_complete :
  forall (shape : list bool) (core rest : string),
    String.length core = List.length shape ->
    (forall i c, String.get i core = Some c ->
                 exists h, nth_error shape i = Some h /\ shape_ok h c = true) ->
    match_shape shape (core ++ rest)%string = Some rest.
Proof.
  induction shape as [|h shape IH]; intros core rest Hlen Hat.
  - destruct core; [reflexivity | discriminate].
  - destruct core as [|c0 core]; [discriminate|].
    cbn [String.append match_shape]. fold (shape_ok h c0).
    destruct (Hat 0%nat c0 eq_refl) as (h' & Hh & Hok).
    cbn [nth_error] in Hh. injection Hh as <-. rewrite Hok.
    apply IH.
    + cbn in Hlen. congruence.
    + intros i c Hg. apply (Hat (S i) c). exact Hg.
Qed.

(** The shape of the model is the table of [guid_char_ok]. *)
Lemma guid_shape_nth (i : nat) (h : bool) (c : ascii) :
  nth_error guid_shape i = Some h -> shape_ok h c = guid_char_ok i c.
Proof.
  intros H.
  do 36 (destruct i as [|i]; [cbn in H; injection H as <-; reflexivity|]).
  cbn in H. destruct i; discriminate.
Qed.

Lemma guid_shape_length : List.length guid_shape = 36%nat.
Proof. reflexivity. Qed.

Lemma guid_shape_defined (i : nat) :
  (i < 36)%nat -> exists h, nth_error guid_shape i = Some h.
Proof.
  intros Hi.
  do 36 (destruct i as [|i]; [cbn; eauto|]).
  lia.
Qed.

Lemma get_in_range (s : string) :
  forall i c, String.get i s = Some c -> (i < String.length s)%nat.
Proof.
  induction s as [|c0 s IH]; intros i c H; [destruct i; discriminate|].
  destruct i as [|i]; cbn [String.get String.length] in *; [lia|].
  apply IH in H. lia.
Qed.

Lemma append_empty_r (s : string) : (s ++ "")%string = s.
Proof. induction s as [|c s IH]; [reflexivity | cbn; rewrite IH; reflexivity]. Qed.

(** X1.  [GUID_REGEX.match] accepts exactly the strings made of 36
    characters, dashes at the positions 8, 13, 18 and 23 and hexadecimal
    digits of either case elsewhere, and these strings followed by one
    newline (the final [$] of the pattern lets it through). *)
Theorem guid_match_spec (s : string) :
  guid_match s = true <->
  exists core : string,
    guid_core core /\ (s = core \/ s = (core ++ String "010" "")%string).
Proof.
  unfold guid_match, guid_core. split.
  - destruct (match_shape guid_shape s) as [rest|] eqn:Hm; [|discriminate].
    intros Hrest.
    destruct (match_shape_sound _ _ Hm) as (core & -> & Hlen & Hat).
    exists core. split.
    + split; [rewrite Hlen; reflexivity|].
      intros i c Hg. destruct (Hat i c Hg) as (h & Hh & Hok).
      rewrite <- (guid_shape_nth i c Hh). exact Hok.
    + apply orb_true_iff in Hrest. destruct Hrest as [Hr | Hr];
        apply String.eqb_eq in Hr; subst rest.
      * left. apply append_empty_r.
      * right. reflexivity.
  - intros (core & [Hlen Hat] & Hs).
    assert (Hfit : forall rest, match_shape guid_shape (core ++ rest)%string = Some rest).
    { intros rest. apply match_shape_complete; [rewrite Hlen; reflexivity|].
      intros i c Hg.
      assert (Hi : (i < 36)%nat) by (rewrite <- Hlen; apply (get_in_range _ _ Hg)).
      destruct (guid_shape_defined Hi) as [h Hh].
      exists h. split; [exact Hh|].
      rewrite (guid_shape_nth i c Hh). apply Hat, Hg. }
    destruct Hs as [-> | ->].
    + rewrite <- (append_empty_r core) at 1. rewrite Hfit. reflexivity.
    + rewrite Hfit. reflexivity.
Qed.

(** ** [handle_api_error] *)

(** Closes the side conditions of a classification: contradictory
    equations on codes and strings, and arithmetic. *)
Ltac class_side :=
  repeat match goal with
         | H : exists _, _ |- _ => destruct H
         | H : _ /\ _ |- _ => destruct H
         | H : _ \/ _ |- _ => destruct H
         | H : Some _ = Some _ |- _ => injection H as H; subst
         end;
  try discriminate; try reflexivity; try lia.

(** X2.  The record of [handle_api_error] always has the status "error",
    the request id it was given and a user message that differs from the
    technical one.  Its error code is decided by the status code of the
    response attached to the exception, and by nothing else: AUTH_FAILED
    exactly for 401, ACCESS_FORBIDDEN for 403, RATE_LIMITED for 429,
    SERVICE_ERROR for every code from 500 up (600 and more included), and
    UNKNOWN_ERROR when there is no response or any other code. *)
Theorem handle_api_error_classes (error : exn) (rid : string) :
  let r := handle_api_error error rid in
  status r = "error"
  /\ request_id r = rid
  /\ user_message r <> message r
  /\ (error_code r = "AUTH_FAILED" <-> response_status error = Some 401)
  /\ (error_code r = "ACCESS_FORBIDDEN" <-> response_status error = Some 403)
  /\ (error_code r = "RATE_LIMITED" <-> response_status error = Some 429)
  /\ (error_code r = "SERVICE_ERROR"
      <-> exists c, response_status error = Some c /\ 500 <= c)
  /\ (error_code r = "UNKNOWN_ERROR"
      <-> response_status error = None
          \/ exists c, response_status error = Some c
                       /\ c < 500 /\ c <> 401 /\ c <> 403 /\ c <> 429).
Proof.
  cbv zeta. unfold handle_api_error.
  destruct (response_status error) as [c|].
  - destruct (Z.eqb_spec c 401) as [->|N1];
      [cbn; repeat split; intros; class_side|].
    destruct (Z.eqb_spec c 403) as [->|N2];
      [cbn; repeat split; intros; class_side|].
    destruct (Z.eqb_spec c 429) as [->|N3];
      [cbn; repeat split; intros; class_side|].
    destruct (Z.geb_spec c 500) as [Hge|Hlt]; cbn [status request_id user_message
      message error_code]; repeat split; intros; class_side.
    + exists c. split; [reflexivity | lia].
    + right. exists c. repeat split; (reflexivity || lia || assumption).
  - cbn. repeat split; intros; class_side. left. reflexivity.
Qed.

(** ** The polling loop: how many polls, and for how long *)

Lemma poll_schedule_count (t_start t t_end : Z) (evs : list event) :
  poll_schedule t_start t evs t_end ->
  t <= t_start + max_wait + poll_interval ->
  2 * Z.of_nat (List.length (polls evs))
  <= t_start + max_wait + 2 * poll_interval - t.
Proof.
  induction 1 as [job t r Hr | job t r rest t_end Hr Hle Hs IH]; intros Hb.
  - unfold max_wait, poll_interval in *. cbn. lia.
  - unfold polls in *. cbn [filter is_poll List.length].
    unfold max_wait, poll_interval in *.
    assert (IH' := IH ltac:(lia)). lia.
Qed.

Lemma polls_made_length (e : env) (job_id : json) (w : world) (evs : list event) :
  trace (snd (await e job_id w)) = trace w ++ evs ->
  polls_made e job_id w = List.length (polls evs).
Proof.
  intros H. unfold polls_made. rewrite H. unfold polls.
  rewrite filter_app, length_app. lia.
Qed.

(** X3.  A polling run issues at least one and at most 62 status polls.
    Every poll but the last was answered with a non-terminal status: the
    run never polls again after a reply that is terminal or an error.
    When the last reply is itself non-terminal, the run ended by the
    time-out, more than [max_wait] after it began. *)
Theorem polls_stop_at_first_verdict (e : env) (job_id : json) (w : world) :
  (1 <= polls_made e job_id w <= 62)%nat
  /\ (forall i, (S i < polls_made e job_id w)%nat ->
                non_terminal (poll_reply e i) = true)
  /\ (non_terminal (poll_reply e (polls_made e job_id w - 1)) = true ->
      fst (await e job_id w) = timed_out
      /\ now (snd (await e job_id w)) - now w > max_wait).
Proof.
  destruct (await_run e job_id w) as (k & evs & Htr & Hs & Hn & Hpre & Hfin).
  cbv zeta in *.
  assert (Hcount := poll_schedule_count Hs).
  rewrite <- (@polls_made_length e job_id w evs Htr), Hn in Hcount.
  rewrite Hn. split; [|split].
  - unfold max_wait, poll_interval in Hcount. lia.
  - intros i Hi. apply judge_pending, Hpre. lia.
  - replace (S k - 1)%nat with k by lia. intros Hnt.
    apply judge_pending in Hnt. rewrite Hnt in Hfin. exact Hfin.
Qed.

Lemma poll_loop_duration (e : env) (job_id : json) (t_start : Z) (L : nat) :
  (forall n, (latency (poll_reply e n) <= L)%nat) ->
  forall (fuel n : nat) (w : world),
    now w - t_start <= max_wait + poll_interval ->
    now w <= now (snd (poll_loop fuel e job_id t_start n w))
    /\ now (snd (poll_loop fuel e job_id t_start n w)) - t_start
       <= max_wait + poll_interval + Z.of_nat L.
Proof.
  intros HL. induction fuel as [|fuel IH]; intros n w Hw.
  - cbn [poll_loop snd]. lia.
  - rewrite poll_loop_step.
    assert (Hlat := HL n).
    assert (Hp : now (polled e job_id n w)
                 = now w + Z.of_nat (latency (poll_reply e n))) by reflexivity.
    destruct (judge (poll_reply e n)); cbn [snd]; [lia|].
    destruct (Z.gtb_spec (now (polled e job_id n w) - t_start) max_wait);
      cbn [snd]; [lia|].
    destruct (IH (S n) (slept (polled e job_id n w))) as [H1 H2].
    { cbn [slept now]. unfold poll_interval in *. lia. }
    split; [|exact H2].
    cbn [slept now] in H1. unfold poll_interval in *. lia.
Qed.

(** X4.  When every status poll takes at most [L] time units, the polling
    phase lasts at most [max_wait + poll_interval + L]: the last poll is
    issued at most one pause after the bound, and the phase ends when it
    returns.  Time never runs backwards. *)
Theorem await_duration (e : env) (job_id : json) (w : world) (L : nat) :
  (forall n, (latency (poll_reply e n) <= L)%nat) ->
  0 <= now (snd (await e job_id w)) - now w
    <= max_wait + poll_interval + Z.of_nat L.
Proof.
  intros HL. rewrite await_unfold.
  destruct (@poll_loop_duration e job_id (now w) L HL poll_fuel 0%nat w) as [H1 H2].
  - unfold max_wait, poll_interval. lia.
  - lia.
Qed.

(** The theorem at work on [env_slow], whose polls take at most two time
    units. *)
Lemma await_duration_witness :
  (forall n, (latency (poll_reply env_slow n) <= 2)%nat)
  /\ 0 <= now (snd (await env_slow job0 w0)) - now w0
       <= max_wait + poll_interval + Z.of_nat 2.
Proof.
  assert (H : forall n, (latency (poll_reply env_slow n) <= 2)%nat)
    by (intros [|n]; cbn; lia).
  split; [exact H|].
  apply (await_duration env_slow job0 w0 H).
Defined.

(** ** The effects of a run, in order *)

Lemma poll_schedule_polling (t_start t t_end : Z) (evs : list event) :
  poll_schedule t_start t evs t_end -> forallb poll_or_sleep evs = true.
Proof.
  induction 1 as [job t r Hr | job t r rest t_end Hr Hle Hs IH];
    [reflexivity | exact IH].
Qed.

Lemma save_effects_shape (e : env) (image_url : json) (path : string) :
  saving path (save_effects e image_url path).
Proof.
  destruct image_url as [| b | n | url | items | fields]; try constructor.
  cbn [save_effects].
  destruct (startswith url "data:image").
  - destruct (b64decode (split_comma_last url)); constructor.
  - destruct (startswith url "http"); [|constructor].
    destruct (fetch_reply e url) as [| code chunks ending]; [constructor|].
    destruct (http_error code); constructor.
Qed.

Lemma upload_effects_shape (cfg : config) (e : env) (local_path blob_name : string)
    (w : world) :
  uploading (CONTAINER_NAME cfg) blob_name
    (upload_effects cfg e local_path blob_name w).
Proof.
  unfold upload_effects.
  destruct (az_get_container_client e); [constructor|].
  destruct (az_get_blob_client e); [constructor|].
  destruct (file_content local_path (trace w)); constructor.
Qed.

(** Closes the last four conjuncts of the shape of a trace. *)
Ltac shape_rest :=
  split; [first [assumption | reflexivity] |];
  split; [first [assumption | cbn; lia] |];
  split; [first [assumption | apply saving_nothing] |];
  first [assumption | apply uploading_nothing].

(** The trace of the [try] statement: the submission, then polls and
    pauses, then the decoding, then the upload. *)
Lemma guarded_job_shape (cfg : config) (e : env) (rid : string)
    (prompt width height : json) (w : world) :
  exists (resp : response) (w' : world) (A B C : list event),
    guarded_job cfg e rid prompt width height w = (Ok resp, w')
    /\ trace w' = trace w ++ EvPost prompt width height :: A ++ B ++ C
    /\ forallb poll_or_sleep A = true
    /\ (List.length (polls A) <= 62)%nat
    /\ saving (save_path_of rid) B
    /\ uploading (CONTAINER_NAME cfg) (rid ++ ".png")%string C.
Proof.
  rewrite guarded_job_eval, run_job_eval.
  assert (Hpost : forall l, trace (posted e prompt width height w) ++ l
                            = trace w ++ EvPost prompt width height :: l).
  { intros l. unfold posted. cbn [trace]. rewrite <- app_assoc. reflexivity. }
  destruct (submit_outcome (post_reply e)) as [job_id | ex |] eqn:Hs.
  2:{ eexists _, _, [], [], []. split; [reflexivity|].
      split; [rewrite <- Hpost, app_nil_r; reflexivity|]. shape_rest. }
  2:{ exfalso. exact (submit_outcome_total _ Hs). }
  destruct (await_run e job_id (posted e prompt width height w))
    as (k & A & Htr & Hsched & Hn & _ & _).
  cbv zeta in Htr, Hsched.
  assert (HA : forallb poll_or_sleep A = true)
    by exact (poll_schedule_polling Hsched).
  assert (HlenA : (List.length (polls A) <= 62)%nat).
  { assert (Hc := poll_schedule_count Hsched).
    unfold max_wait, poll_interval in Hc. lia. }
  pose proof (await_total e job_id (posted e prompt width height w)) as Ht.
  destruct (await e job_id (posted e prompt width height w)) as [[result | ex |] w1].
  2:{ cbn [snd] in Htr. eexists _, _, A, [], []. split; [reflexivity|].
      split; [rewrite Htr, Hpost, !app_nil_r; reflexivity|]. shape_rest. }
  2:{ exfalso. apply Ht. reflexivity. }
  cbn [snd] in Htr.
  destruct (extract_outcome result) as [image_url | ex |] eqn:Hx.
  2:{ eexists _, _, A, [], []. split; [reflexivity|].
      split; [rewrite Htr, Hpost, !app_nil_r; reflexivity|]. shape_rest. }
  2:{ exfalso. exact (extract_outcome_total _ Hx). }
  cbv zeta.
  set (B := save_effects e image_url (save_path_of rid)).
  assert (HB : saving (save_path_of rid) B) by apply save_effects_shape.
  assert (Htr2 : forall C, trace (extend w1 B) ++ C
                           = trace w ++ EvPost prompt width height :: A ++ B ++ C).
  { intros C. unfold extend. cbn [trace].
    rewrite Htr, <- !app_assoc, Hpost. reflexivity. }
  destruct (save_cases e image_url (save_path_of rid))
    as [[Ho _] | [[ex [Ho _]] | (url & code & chunks & _ & _ & Ho & _)]];
    rewrite Ho.
  - pose proof (upload_blob_frame cfg e (save_path_of rid) (rid ++ ".png")%string
                  (extend w1 B)) as Hu.
    destruct (az_from_connection_string e (AZURE_CONN_STR cfg)) as [ex|] eqn:Hcs.
    + rewrite Hu. eexists _, _, A, B, []. split; [reflexivity|].
      split; [rewrite <- Htr2, app_nil_r; reflexivity|]. shape_rest.
    + clear Hu.
      rewrite (@upload_blob_eval cfg e (save_path_of rid) (rid ++ ".png")%string
                 (extend w1 B) Hcs).
      eexists _, _, A, B, _. split; [reflexivity|].
      split; [unfold extend at 1; cbn [trace]; apply Htr2|].
      split; [assumption|]. split; [assumption|]. split; [assumption|].
      apply upload_effects_shape.
  - eexists _, _, A, B, []. split; [reflexivity|].
    split; [rewrite <- Htr2, app_nil_r; reflexivity|]. shape_rest.
  - eexists _, _, A, B, []. split; [reflexivity|].
    split; [rewrite <- Htr2, app_nil_r; reflexivity|]. shape_rest.
Qed.

(** The checks that [generate_image] makes before the [try]. *)
Lemma generate_image_checks (cfg : config) (e : env) (data : json) (w : world) :
  (exists out : outcome response,
     generate_image cfg e data w = (out, w) /\ rejection cfg out)
  \/ (exists (d : list (string * json)) (rid : string),
        data = JObj d
        /\ dict_get d "request_id" JNull = JStr rid
        /\ guid_match rid = true
        /\ truthy (dict_get d "prompt" JNull) = true
        /\ check_api_configuration cfg = []
        /\ generate_image cfg e data w
           = guarded_job cfg e rid (dict_get d "prompt" JNull)
               (dict_get d "width" (JNum 512)) (dict_get d "height" (JNum 512)) w).
Proof.
  destruct data as [| b | n | s | items | d];
    try (left; eexists; split; [reflexivity | exact I]).
  assert (Hgi : generate_image cfg e (JObj d) w
    = (if negb (truthy (dict_get d "request_id" JNull)
                && truthy (dict_get d "prompt" JNull))
       then ret (BodyError "Missing request_id or prompt", 400)
       else
         match dict_get d "request_id" JNull with
         | JStr rid_s =>
             if negb (guid_match rid_s)
             then ret (BodyError "request_id must be a valid GUID", 400)
             else
               match check_api_configuration cfg with
               | _ :: _ =>
                   ret (BodyConfigMissing (dict_get d "request_id" JNull)
                          (check_api_configuration cfg), 503)
               | [] =>
                   guarded_job cfg e rid_s (dict_get d "prompt" JNull)
                     (dict_get d "width" (JNum 512)) (dict_get d "height" (JNum 512))
               end
         | _ => raise (TypeError "expected string or bytes-like object")
         end) w) by reflexivity.
  rewrite Hgi. clear Hgi.
  destruct (truthy (dict_get d "request_id" JNull)) eqn:Hr; cbn [andb negb];
    [|left; eexists; split; [reflexivity | reflexivity]].
  destruct (truthy (dict_get d "prompt" JNull)) eqn:Hp; cbn [negb];
    [|left; eexists; split; [reflexivity | reflexivity]].
  destruct (dict_get d "request_id" JNull) as [| b | n | rid | items | d'] eqn:Hrid;
    try (left; eexists; split; [reflexivity | exact I]).
  destruct (guid_match rid) eqn:Hg; cbn [negb];
    [|left; eexists; split; [reflexivity | reflexivity]].
  destruct (check_api_configuration cfg) as [|name names] eqn:Hcfg.
  - right. exists d, rid.
    split; [reflexivity|]. split; [exact Hrid|]. split; [exact Hg|].
    split; [exact Hp|]. split; reflexivity.
  - left. eexists. split; [reflexivity|].
    cbn [rejection]. rewrite Hcfg.
    split; [reflexivity|]. split; [reflexivity | discriminate].
Qed.

(** X5.  [generate_image] does nothing at all to a request that it turns
    down.  Otherwise the body is an object whose request id matches
    [GUID_REGEX], the prompt is truthy and the configuration is complete,
    and the effects come in this order: one submission carrying the
    prompt and the dimensions (512 when absent), then polls and pauses,
    then the decoding into [static/generated_images/<id>.png], then the
    upload of [<id>.png]. *)
Theorem effects_in_order (cfg : config) (e : env) (data : json) (w : world) :
  exists (out : outcome response) (w' : world) (evs : list event),
    generate_image cfg e data w = (out, w')
    /\ trace w' = trace w ++ evs
    /\ ((evs = [] /\ w' = w /\ rejection cfg out)
        \/ exists (d : list (string * json)) (rid : string) (A B C : list event),
             data = JObj d
             /\ dict_get d "request_id" JNull = JStr rid
             /\ guid_match rid = true
             /\ truthy (dict_get d "prompt" JNull) = true
             /\ check_api_configuration cfg = []
             /\ evs = EvPost (dict_get d "prompt" JNull)
                        (dict_get d "width" (JNum 512))
                        (dict_get d "height" (JNum 512)) :: A ++ B ++ C
             /\ forallb poll_or_sleep A = true
             /\ saving (save_path_of rid) B
             /\ uploading (CONTAINER_NAME cfg) (rid ++ ".png")%string C).
Proof.
  destruct (generate_image_checks cfg e data w)
    as [(out & Hg & Hrej) | (d & rid & Hd & Hrid & Hguid & Hp & Hcfg & Hg)].
  - exists out, w, []. split; [exact Hg|]. split; [rewrite app_nil_r; reflexivity|].
    left. auto.
  - destruct (guarded_job_shape cfg e rid (dict_get d "prompt" JNull)
                (dict_get d "width" (JNum 512)) (dict_get d "height" (JNum 512)) w)
      as (resp & w' & A & B & C & Hj & Htr & HA & _ & HB & HC).
    exists (Ok resp), w', (EvPost (dict_get d "prompt" JNull)
                            (dict_get d "width" (JNum 512))
                            (dict_get d "height" (JNum 512)) :: A ++ B ++ C).
    split; [rewrite Hg; exact Hj|]. split; [exact Htr|].
    right. exists d, rid, A, B, C. repeat (split; [assumption || reflexivity|]).
    assumption.
Qed.

(** ** How many requests a call makes *)

Lemma filter_writes (f : event -> bool) (path : string) (chunks : list (list byte)) :
  (forall p d, f (EvWrite p d) = false) ->
  filter f (map (EvWrite path) chunks) = [].
Proof.
  intros Hf. induction chunks as [|c rest IH]; [reflexivity|].
  cbn [map filter]. rewrite Hf. exact IH.
Qed.

Lemma polling_filters (A : list event) :
  forallb poll_or_sleep A = true -> posts A = [] /\ fetches A = [].
Proof.
  induction A as [|ev A IH]; intros H; [split; reflexivity|].
  cbn [forallb] in H. apply andb_true_iff in H. destruct H as [Hev HA].
  destruct (IH HA) as [IH1 IH2].
  destruct ev; try discriminate; split; assumption.
Qed.

Lemma saving_filters (path : string) (B : list event) :
  saving path B ->
  posts B = [] /\ polls B = [] /\ (List.length (fetches B) <= 1)%nat.
Proof.
  intros H. destruct H as [| url | image_data | url chunks].
  - repeat split. cbn. lia.
  - repeat split. cbn. lia.
  - repeat split. cbn. lia.
  - unfold posts, polls, fetches. cbn [filter is_post is_poll is_fetch List.length].
    rewrite !filter_writes by reflexivity. repeat split. cbn. lia.
Qed.

Lemma uploading_filters (container blob : string) (C : list event) :
  uploading container blob C -> posts C = [] /\ polls C = [] /\ fetches C = [].
Proof. intros H. destruct H; repeat split. Qed.

(** X6.  A call of [generate_image] submits at most one job, issues at
    most 62 status polls and makes at most one download: no request is
    ever repeated. *)
Theorem request_budget (cfg : config) (e : env) (data : json) (w : world) :
  exists evs : list event,
    trace (snd (generate_image cfg e data w)) = trace w ++ evs
    /\ (List.length (posts evs) <= 1)%nat
    /\ (List.length (polls evs) <= 62)%nat
    /\ (List.length (fetches evs) <= 1)%nat.
Proof.
  destruct (generate_image_checks cfg e data w)
    as [(out & Hg & _) | (d & rid & _ & _ & _ & _ & _ & Hg)]; rewrite Hg.
  - exists []. split; [cbn [snd]; rewrite app_nil_r; reflexivity|].
    cbn. repeat split; lia.
  - destruct (guarded_job_shape cfg e rid (dict_get d "prompt" JNull)
                (dict_get d "width" (JNum 512)) (dict_get d "height" (JNum 512)) w)
      as (resp & w' & A & B & C & Hj & Htr & HA & HlenA & HB & HC).
    rewrite Hj. cbn [snd]. eexists. split; [exact Htr|].
    destruct (polling_filters A HA) as [A1 A2].
    destruct (saving_filters HB) as (B1 & B2 & B3).
    destruct (uploading_filters HC) as (C1 & C2 & C3).
    unfold posts, polls, fetches in *.
    cbn [filter is_post is_poll is_fetch].
    rewrite !filter_app, !length_app.
    rewrite A1, A2, B1, B2, C1, C2, C3. cbn [List.length app]. lia.
Qed.

(** ** Answers and their HTTP status *)

Lemma handle_api_error_request_id (ex : exn) (rid : string) :
  request_id (handle_api_error ex rid) = rid.
Proof.
  unfold handle_api_error. destruct (response_status ex) as [c|]; [|reflexivity].
  destruct (c =? 401); [reflexivity|]. destruct (c =? 403); [reflexivity|].
  destruct (c =? 429); [reflexivity|]. destruct (c >=? 500); reflexivity.
Qed.

(** The [try] body returns only at its end, with the success answer. *)
Lemma run_job_ok (cfg : config) (e : env) (rid : string)
    (prompt width height : json) (w w' : world) (resp : response) :
  run_job cfg e rid prompt width height w = (Ok resp, w') ->
  exists blob_url,
    resp = (BodySuccess ("/generated_images/" ++ rid ++ ".png")%string blob_url, 200).
Proof.
  rewrite run_job_eval.
  destruct (submit_outcome (post_reply e)); try discriminate.
  destruct (await e a (posted e prompt width height w)) as [[result | ex |] w1];
    try discriminate.
  destruct (extract_outcome result); try discriminate.
  cbv zeta. destruct (save_outcome e a0); try discriminate.
  destruct (upload_blob cfg e (save_path_of rid) (rid ++ ".png")%string
              (extend w1 (save_effects e a0 (save_path_of rid))))
    as [[blob_url | ex |] w3]; try discriminate.
  intros H. injection H as <- _. exists blob_url. reflexivity.
Qed.

Lemma guarded_job_answer (cfg : config) (e : env) (rid : string)
    (prompt width height : json) (w w' : world) (resp : response) :
  guarded_job cfg e rid prompt width height w = (Ok resp, w') ->
  match resp with
  | (BodySuccess image_url _, code) =>
      code = 200 /\ image_url = ("/generated_images/" ++ rid ++ ".png")%string
  | (BodyApiError r, code) =>
      (code = 500 /\ r = unknown_error rid)
      \/ (code = 400 /\ exists st, r = handle_api_error (RequestException st) rid)
  | _ => False
  end.
Proof.
  rewrite guarded_job_eval.
  destruct (run_job cfg e rid prompt width height w) as [[resp0 | ex |] w1] eqn:Hr.
  - intros H. injection H as <- _.
    destruct (run_job_ok _ _ _ _ _ _ _ Hr) as [blob_url ->]. auto.
  - intros H. injection H as <- _.
    destruct ex; cbn [is_request_exception];
      try (left; split; reflexivity).
    right. split; [reflexivity|]. exists response0. reflexivity.
  - discriminate.
Qed.

(** X7.  Every way [generate_image] can end, with the HTTP status of each
    answer.  400 with one of the two validation messages, and 503 with the
    list of [check_api_configuration], which is then not empty, are the
    answers to the requests that fail the corresponding check (the checks
    are made in this order: both fields truthy, the request id a GUID, the
    configuration complete), and nothing was done.  An accepted request is
    answered from the [try] body: 200 with the success body when it
    returned; when it raised a request exception, 400 with the record that
    [handle_api_error] derives from it; when it raised any other
    exception, 500 with the UNKNOWN_ERROR record; conversely, whatever
    exception the [try] body raises for an accepted request is answered
    so.  An exception leaves the function, with nothing done, only when the
    body is no dict or when the request id is truthy and no string while
    the prompt is truthy. *)
Theorem answer_codes (cfg : config) (e : env) (data : json) (w w' : world)
    (out : outcome response) :
  generate_image cfg e data w = (out, w') ->
  match out with
  | Ok (BodyError msg, code) =>
      code = 400 /\ w' = w
      /\ exists d : list (string * json),
           data = JObj d
           /\ ((msg = "Missing request_id or prompt"
                /\ (truthy (dict_get d "request_id" JNull) = false
                    \/ truthy (dict_get d "prompt" JNull) = false))
               \/ (msg = "request_id must be a valid GUID"
                   /\ truthy (dict_get d "prompt" JNull) = true
                   /\ exists s : string,
                        dict_get d "request_id" JNull = JStr s
                        /\ s <> "" /\ guid_match s = false))
  | Ok (BodyConfigMissing rid missing, code) =>
      code = 503 /\ w' = w
      /\ missing = check_api_configuration cfg /\ missing <> []
      /\ exists (d : list (string * json)) (s : string),
           data = JObj d
           /\ dict_get d "request_id" JNull = JStr s
           /\ rid = JStr s
           /\ guid_match s = true
           /\ truthy (dict_get d "prompt" JNull) = true
  | Ok (BodyApiError r, code) =>
      exists (d : list (string * json)) (rid : string) (ex : exn),
        accepted_request cfg data d rid
        /\ run_job cfg e rid (dict_get d "prompt" JNull)
             (dict_get d "width" (JNum 512)) (dict_get d "height" (JNum 512)) w
           = (Raise ex, w')
        /\ r = handle_api_error ex rid
        /\ (((exists st, ex = RequestException st) /\ code = 400)
            \/ ((forall st, ex <> RequestException st)
                /\ code = 500 /\ r = unknown_error rid))
  | Ok (BodySuccess image_url blob_url, code) =>
      code = 200
      /\ exists (d : list (string * json)) (rid : string),
           accepted_request cfg data d rid
           /\ run_job cfg e rid (dict_get d "prompt" JNull)
                (dict_get d "width" (JNum 512)) (dict_get d "height" (JNum 512)) w
              = (Ok (BodySuccess image_url blob_url, 200), w')
           /\ image_url = ("/generated_images/" ++ rid ++ ".png")%string
  | Raise ex =>
      w' = w
      /\ ((ex = AttributeError "object has no attribute 'get'"
           /\ forall d : list (string * json), data <> JObj d)
          \/ (ex = TypeError "expected string or bytes-like object"
              /\ exists d : list (string * json),
                   data = JObj d
                   /\ truthy (dict_get d "request_id" JNull) = true
                   /\ truthy (dict_get d "prompt" JNull) = true
                   /\ forall s : string, dict_get d "request_id" JNull <> JStr s))
  | Diverge => False
  end
  /\ (forall (d : list (string * json)) (rid : string) (ex : exn) (w1 : world),
        accepted_request cfg data d rid ->
        run_job cfg e rid (dict_get d "prompt" JNull)
          (dict_get d "width" (JNum 512)) (dict_get d "height" (JNum 512)) w
        = (Raise ex, w1) ->
        w' = w1
        /\ out = Ok (BodyApiError (handle_api_error ex rid),
                     if is_request_exception ex then 400 else 500)).
Proof.
  intros H. split; [|
    intros d rid ex w1 Hacc Hr;
    destruct (request_checks cfg e data w)
      as [(out0 & Hg & _ & Hno) | (d0 & rid1 & Hacc0 & Hg)];
    [ exfalso; exact (Hno d rid Hacc) |];
    destruct (accepted_request_unique Hacc0 Hacc) as [Hd0 Hrid1];
    subst d rid;
    rewrite Hg, guarded_job_eval, Hr in H;
    injection H as H1 H2; split; symmetry; assumption ].
  destruct (generate_image_request cfg e data w)
    as [[Hg Hd] | (d & Hd & [[Hg Hf] | (Trid & Tprompt & [[Hg Hns] | (s & Hrid & Hs)])])].
  - rewrite Hg in H. injection H as <- <-.
    split; [reflexivity|]. left. split; [reflexivity | exact Hd].
  - rewrite Hg in H. injection H as <- <-.
    split; [reflexivity|]. split; [reflexivity|].
    exists d. split; [exact Hd|]. left. split; [reflexivity | exact Hf].
  - rewrite Hg in H. injection H as <- <-.
    split; [reflexivity|]. right. split; [reflexivity|].
    exists d. split; [exact Hd|]. split; [exact Trid|]. split; [exact Tprompt | exact Hns].
  - destruct Hs as [[Hguid Hg] | [Hguid [[Hcfg Hg] | [Hcfg Hg]]]].
    + rewrite Hg in H. injection H as <- <-.
      split; [reflexivity|]. split; [reflexivity|].
      exists d. split; [exact Hd|]. right. split; [reflexivity|].
      split; [exact Tprompt|]. exists s. split; [exact Hrid|].
      split; [|exact Hguid]. intros ->. rewrite Hrid in Trid. discriminate.
    + rewrite Hg in H. injection H as <- <-.
      split; [reflexivity|]. split; [reflexivity|]. split; [reflexivity|].
      split; [exact Hcfg|]. exists d, s.
      split; [exact Hd|]. split; [exact Hrid|]. split; [reflexivity|].
      split; [exact Hguid | exact Tprompt].
    + assert (Hacc : accepted_request cfg data d s).
      { split; [exact Hd|]. split; [exact Hrid|]. split; [exact Hguid|].
        split; [exact Tprompt | exact Hcfg]. }
      rewrite Hg, guarded_job_eval in H.
      destruct (run_job cfg e s (dict_get d "prompt" JNull)
                  (dict_get d "width" (JNum 512)) (dict_get d "height" (JNum 512)) w)
        as [[resp | ex |] w1] eqn:Hr.
      * injection H as <- <-.
        destruct (run_job_ok _ _ _ _ _ _ _ Hr) as [blob_url ->].
        split; [reflexivity|]. exists d, s.
        split; [exact Hacc|]. split; [exact Hr | reflexivity].
      * injection H as <- <-. exists d, s, ex.
        split; [exact Hacc|]. split; [exact Hr|]. split; [reflexivity|].
        destruct ex; cbn [is_request_exception];
          try (right; split; [intros st; discriminate | split; reflexivity]).
        left. split; [exists response0; reflexivity | reflexivity].
      * exfalso.
        destruct (run_job_cases cfg e s (dict_get d "prompt" JNull)
                    (dict_get d "width" (JNum 512)) (dict_get d "height" (JNum 512)) w)
          as [(ex & w2 & Hr' & _)
             | [(url & contents & w2 & _ & _ & _ & _ & Hr')
               | (url & chunks & w2 & _ & _ & _ & _ & Hr')]];
          rewrite Hr in Hr'; try discriminate.
        destruct (az_from_connection_string e (AZURE_CONN_STR cfg)); discriminate.
Qed.

(** The theorem at work when the generation API cannot be reached: the
    request exception carries no response, and the answer is 400 with the
    UNKNOWN_ERROR record. *)
Lemma answer_codes_witness :
  generate_image cfg_ok env_unreachable data0 w0
  = (Ok (BodyApiError (unknown_error rid0), 400),
     mk_world 0 [EvPost (JStr "x") (JNum 256) (JNum 256)])
  /\ (exists (d : list (string * json)) (rid : string) (ex : exn),
       accepted_request cfg_ok data0 d rid
       /\ run_job cfg_ok env_unreachable rid (dict_get d "prompt" JNull)
            (dict_get d "width" (JNum 512)) (dict_get d "height" (JNum 512)) w0
          = (Raise ex, mk_world 0 [EvPost (JStr "x") (JNum 256) (JNum 256)])
       /\ unknown_error rid0 = handle_api_error ex rid
       /\ (((exists st, ex = RequestException st) /\ 400 = 400)
           \/ ((forall st, ex <> RequestException st)
               /\ 400 = 500 /\ unknown_error rid0 = unknown_error rid)))
  /\ (forall (d : list (string * json)) (rid : string) (ex : exn) (w1 : world),
        accepted_request cfg_ok data0 d rid ->
        run_job cfg_ok env_unreachable rid (dict_get d "prompt" JNull)
          (dict_get d "width" (JNum 512)) (dict_get d "height" (JNum 512)) w0
        = (Raise ex, w1) ->
        mk_world 0 [EvPost (JStr "x") (JNum 256) (JNum 256)] = w1
        /\ Ok (BodyApiError (unknown_error rid0), 400)
           = Ok (BodyApiError (handle_api_error ex rid),
                 if is_request_exception ex then 400 else 500)).
Proof.
  split; [reflexivity|].
  exact (@answer_codes cfg_ok env_unreachable data0 w0
           (mk_world 0 [EvPost (JStr "x") (JNum 256) (JNum 256)])
           (Ok (BodyApiError (unknown_error rid0), 400)) eq_refl).
Defined.

(** ** What the destination holds *)

(** X8.  After [save_image] has succeeded on a string, the destination
    holds exactly the image, whatever it held before: the bytes decoded
    from the data URI, or the chunks of the download put end to end. *)
Theorem save_image_content (e : env) (url path : string) (w w' : world) :
  save_image e (JStr url) path w = (Ok tt, w') ->
  exists image : list byte,
    file_content path (trace w') = Some image
    /\ ((startswith url "data:image" = true
         /\ b64decode (split_comma_last url) = inr image)
        \/ (startswith url "data:image" = false
            /\ startswith url "http" = true
            /\ exists code chunks,
                 fetch_reply e url = Fetched code chunks StreamDone
                 /\ http_error code = false
                 /\ image = List.concat chunks)).
Proof.
  rewrite save_image_eval. cbn [save_outcome save_effects].
  destruct (startswith url "data:image").
  - destruct (b64decode (split_comma_last url)) as [ex | image_data]; [discriminate|].
    intros H. injection H as <-. exists image_data. split; [|left; auto].
    unfold extend. cbn [trace].
    pose proof (file_content_after_write path (trace w) [image_data]) as Hc.
    cbn [map List.concat] in Hc. rewrite app_nil_r in Hc. exact Hc.
  - destruct (startswith url "http"); [|discriminate].
    destruct (fetch_reply e url) as [| code chunks ending]; [discriminate|].
    destruct (http_error code) eqn:Hcode; [discriminate|].
    destruct ending; [|discriminate].
    intros H. injection H as <-. exists (List.concat chunks). split.
    + unfold extend. cbn [trace].
      change (trace w ++ EvFetch url :: EvOpen path :: map (EvWrite path) chunks)
        with (trace w ++ [EvFetch url] ++ EvOpen path :: map (EvWrite path) chunks).
      rewrite app_assoc. apply file_content_after_write.
    + right. split; [reflexivity|]. split; [reflexivity|].
      exists code, chunks. auto.
Qed.

(** The theorem at work on a download in two chunks, over a destination
    that already held a byte. *)
Lemma save_image_content_witness :
  save_image env_download (JStr "https://img.example/a.png")
    "static/generated_images/a.png" w_file
  = (Ok tt, extend w_file
              (EvFetch "https://img.example/a.png"
               :: EvOpen "static/generated_images/a.png"
               :: map (EvWrite "static/generated_images/a.png")
                    [[Byte.x89; Byte.x50]; [Byte.x4e; Byte.x47]]))
  /\ exists image : list byte,
       file_content "static/generated_images/a.png"
         (trace (extend w_file
              (EvFetch "https://img.example/a.png"
               :: EvOpen "static/generated_images/a.png"
               :: map (EvWrite "static/generated_images/a.png")
                    [[Byte.x89; Byte.x50]; [Byte.x4e; Byte.x47]]))) = Some image
       /\ ((startswith "https://img.example/a.png" "data:image" = true
            /\ b64decode (split_comma_last "https://img.example/a.png") = inr image)
           \/ (startswith "https://img.example/a.png" "data:image" = false
               /\ startswith "https://img.example/a.png" "http" = true
               /\ exists code chunks,
                    fetch_reply env_download "https://img.example/a.png"
                    = Fetched code chunks StreamDone
                    /\ http_error code = false
                    /\ image = List.concat chunks)).
Proof.
  split; [reflexivity|].
  apply (@save_image_content env_download "https://img.example/a.png"
           "static/generated_images/a.png" w_file).
  reflexivity.
Defined.

Lemma split_comma_last_no_comma (s : string) :
  has_comma s = false -> split_comma_last s = s.
Proof.
  unfold split_comma_last.
  assert (H : has_comma s = false -> after_first_comma_opt s = None).
  { induction s as [|c s IH]; [reflexivity|]. cbn [has_comma after_first_comma_opt].
    destruct (c =? ",")%char; [discriminate | exact IH]. }
  intros Hs. rewrite (H Hs). reflexivity.
Qed.

Lemma split_comma_last_header (header payload : string) :
  has_comma header = false ->
  split_comma_last (header ++ String "," payload)%string = payload.
Proof.
  unfold split_comma_last.
  assert (H : has_comma header = false ->
              after_first_comma_opt (header ++ String "," payload)%string
              = Some payload).
  { induction header as [|c header IH]; [reflexivity|].
    cbn [has_comma String.append after_first_comma_opt].
    destruct (c =? ",")%char; [discriminate | exact IH]. }
  intros Hs. rewrite (H Hs). reflexivity.
Qed.

(** X9.  Of a data URI only what follows its first comma is used: the
    header before it is not examined beyond its first ten characters (it
    need not announce base64), and the payload is decoded and written as
    it is.  A string that starts with "data:image" and has no comma is
    decoded whole. *)
Theorem data_uri_header_ignored (e : env) (header payload path : string) (w : world) :
  startswith (header ++ String "," payload)%string "data:image" = true ->
  has_comma header = false ->
  save_image e (JStr (header ++ String "," payload)%string) path w
  = match b64decode payload with
    | inr image_data => (Ok tt, extend w [EvOpen path; EvWrite path image_data])
    | inl ex => (Raise ex, w)
    end
  /\ forall url : string,
       startswith url "data:image" = true ->
       has_comma url = false ->
       save_image e (JStr url) path w
       = match b64decode url with
         | inr image_data => (Ok tt, extend w [EvOpen path; EvWrite path image_data])
         | inl ex => (Raise ex, w)
         end.
Proof.
  intros Hd Hh. split.
  - rewrite save_image_eval. cbn [save_outcome save_effects].
    rewrite Hd, (@split_comma_last_header header payload Hh).
    destruct (b64decode payload); [rewrite extend_nil|]; reflexivity.
  - intros url Hu Hc. rewrite save_image_eval. cbn [save_outcome save_effects].
    rewrite Hu, (@split_comma_last_no_comma url Hc).
    destruct (b64decode url); [rewrite extend_nil|]; reflexivity.
Qed.

(** The theorem at work on a header that announces plain text. *)
Lemma data_uri_header_ignored_witness :
  startswith ("data:image/svg+xml;utf8" ++ String "," "aGk=")%string "data:image" = true
  /\ has_comma "data:image/svg+xml;utf8" = false
  /\ save_image env_never (JStr ("data:image/svg+xml;utf8" ++ String "," "aGk=")%string)
       "static/generated_images/a.png" w0
     = (Ok tt, extend w0 [EvOpen "static/generated_images/a.png";
                          EvWrite "static/generated_images/a.png"
                            [Byte.x68; Byte.x69]]).
Proof.
  split; [reflexivity|]. split; [reflexivity|].
  exact (proj1 (@data_uri_header_ignored env_never "data:image/svg+xml;utf8" "aGk="
                  "static/generated_images/a.png" w0 eq_refl eq_refl)).
Defined.

(** ** What a success answer means *)

Lemma last_two (A : Type) (l : list A) (a b d : A) : last (l ++ [a; b]) d = b.
Proof.
  change (l ++ [a; b]) with (l ++ [a] ++ [b]). rewrite app_assoc.
  apply last_last.
Qed.

(** The result of an upload of a file that exists says whether Azure
    accepted the three calls; when it did, the upload was the last thing
    done, and it carried the contents of the file. *)
Lemma upload_result_accepts (cfg : config) (e : env) (local_path blob_name : string)
    (w : world) (data : list byte) :
  file_content local_path (trace w) = Some data ->
  (upload_result cfg e local_path blob_name w = Some (blob_url_of cfg blob_name)
   <-> azure_accepts e)
  /\ (upload_result cfg e local_path blob_name w = None <-> ~ azure_accepts e)
  /\ (azure_accepts e ->
      last (trace (extend w (upload_effects cfg e local_path blob_name w))) (EvSleep 0)
      = EvUploadBlob (CONTAINER_NAME cfg) blob_name data true).
Proof.
  intros Hfile. unfold upload_result, upload_effects, azure_accepts. rewrite Hfile.
  destruct (az_get_container_client e) as [ex1|].
  { split; [split; [discriminate | intros (H & _); discriminate]|].
    split; [split; [intros _ (H & _); discriminate | reflexivity]|].
    intros (H & _). discriminate. }
  destruct (az_get_blob_client e) as [ex2|].
  { split; [split; [discriminate | intros (_ & H & _); discriminate]|].
    split; [split; [intros _ (_ & H & _); discriminate | reflexivity]|].
    intros (_ & H & _). discriminate. }
  destruct (az_upload_blob e) as [ex3|].
  { split; [split; [discriminate | intros (_ & _ & H); discriminate]|].
    split; [split; [intros _ (_ & _ & H); discriminate | reflexivity]|].
    intros (_ & _ & H). discriminate. }
  split; [split; [intros _; repeat split | reflexivity]|].
  split.
  - split; [discriminate|]. intros H. exfalso. apply H. repeat split.
  - intros _. unfold extend. cbn [trace]. apply last_two.
Qed.

(** X10.  When [generate_image] answers with success, the request was
    accepted, the job gave a string that stands for an image, the file
    [static/generated_images/<id>.png] holds exactly that image, and the
    answer names it as [/generated_images/<id>.png] with the status 200.
    The blob URL is present exactly when Azure accepted the three calls of
    the upload, and then the last thing done was the upload, with
    overwriting, of exactly that image under the name [<id>.png]; it is
    [None] exactly when one of these calls raised, and the answer is a
    success all the same. *)
Theorem success_means_saved (cfg : config) (e : env) (data : json) (w w' : world)
    (image_url : string) (blob_url : option string) (code : Z) :
  generate_image cfg e data w = (Ok (BodySuccess image_url blob_url, code), w') ->
  exists (d : list (string * json)) (rid url : string) (contents : list (list byte)),
    accepted_request cfg data d rid
    /\ code = 200
    /\ image_url = ("/generated_images/" ++ rid ++ ".png")%string
    /\ run_image e d w (JStr url)
    /\ image_bytes e url contents
    /\ file_content (save_path_of rid) (trace w') = Some (List.concat contents)
    /\ az_from_connection_string e (AZURE_CONN_STR cfg) = None
    /\ (blob_url = Some (blob_url_of cfg (rid ++ ".png")%string) <-> azure_accepts e)
    /\ (blob_url = None <-> ~ azure_accepts e)
    /\ (azure_accepts e ->
        last (trace w') (EvSleep 0)
        = EvUploadBlob (CONTAINER_NAME cfg) (rid ++ ".png")%string
            (List.concat contents) true).
Proof.
  intros H.
  destruct (request_checks cfg e data w)
    as [(out & Hg & Hrej & _) | (d & rid & Hacc & Hg)];
    rewrite Hg in H.
  { injection H as H1 H2. subst out. contradiction. }
  rewrite guarded_job_eval in H.
  destruct (run_job_cases cfg e rid (dict_get d "prompt" JNull)
              (dict_get d "width" (JNum 512)) (dict_get d "height" (JNum 512)) w)
    as [(ex & w1 & Hr & _)
       | [(url & contents & w2 & Hj & Hi & Hfe & Hfc & Hr)
         | (url & chunks & w2 & _ & _ & _ & _ & Hr)]];
    rewrite Hr in H; try discriminate.
  destruct (az_from_connection_string e (AZURE_CONN_STR cfg)) as [ex|] eqn:Hcs;
    [discriminate|].
  injection H as Himg Hblob Hcode Hw'.
  destruct (upload_result_accepts cfg e (save_path_of rid) (rid ++ ".png")%string w2 Hfc)
    as (Hsome & Hnone & Hlast).
  destruct (upload_effects_frame cfg e (save_path_of rid) (rid ++ ".png")%string w2)
    as [Hue _].
  exists d, rid, url, contents.
  split; [exact Hacc|]. split; [symmetry; exact Hcode|].
  split; [symmetry; exact Himg|]. split; [exact Hj|]. split; [exact Hi|].
  split.
  { rewrite <- Hw'. unfold extend. cbn [trace].
    rewrite (file_content_app_frame _ _ _ Hue). exact Hfc. }
  split; [reflexivity|].
  rewrite <- Hblob, <- Hw'.
  split; [exact Hsome|]. split; [exact Hnone | exact Hlast].
Qed.

(** The theorem at work on the example of the specification. *)
Lemma success_means_saved_witness :
  generate_image cfg_ok env_example data0 w0
  = (Ok (BodySuccess ("/generated_images/" ++ rid0 ++ ".png")%string
           (Some (blob_url_of cfg_ok (rid0 ++ ".png")%string)), 200),
     snd (generate_image cfg_ok env_example data0 w0))
  /\ exists (d : list (string * json)) (rid url : string)
            (contents : list (list byte)),
       accepted_request cfg_ok data0 d rid
       /\ 200 = 200
       /\ ("/generated_images/" ++ rid0 ++ ".png")%string
          = ("/generated_images/" ++ rid ++ ".png")%string
       /\ run_image env_example d w0 (JStr url)
       /\ image_bytes env_example url contents
       /\ file_content (save_path_of rid)
            (trace (snd (generate_image cfg_ok env_example data0 w0)))
          = Some (List.concat contents)
       /\ az_from_connection_string env_example (AZURE_CONN_STR cfg_ok) = None
       /\ (Some (blob_url_of cfg_ok (rid0 ++ ".png")%string)
           = Some (blob_url_of cfg_ok (rid ++ ".png")%string)
           <-> azure_accepts env_example)
       /\ (Some (blob_url_of cfg_ok (rid0 ++ ".png")%string) = None
           <-> ~ azure_accepts env_example)
       /\ (azure_accepts env_example ->
           last (trace (snd (generate_image cfg_ok env_example data0 w0))) (EvSleep 0)
           = EvUploadBlob (CONTAINER_NAME cfg_ok) (rid ++ ".png")%string
               (List.concat contents) true).
Proof.
  assert (H : generate_image cfg_ok env_example data0 w0
    = (Ok (BodySuccess ("/generated_images/" ++ rid0 ++ ".png")%string
             (Some (blob_url_of cfg_ok (rid0 ++ ".png")%string)), 200),
       snd (generate_image cfg_ok env_example data0 w0)))
    by (vm_compute; reflexivity).
  split; [exact H|].
  exact (success_means_saved cfg_ok env_example data0 w0 H).
Defined.

(** ** An extracted value that is no string *)

(** X11.  When the job completes and the value extracted from its output
    is truthy but is not a string (a number, [true], a list or an object
    in the [image_url] or [image] field), the check of "Parse output" lets
    it through and [startswith] fails on it: the run ends with an
    [AttributeError], nothing is fetched or written, and the route answers
    500 with the UNKNOWN_ERROR record. *)
Theorem non_string_output (cfg : config) (e : env) (rid : string)
    (prompt width height : json) (w : world) (job_id : json) (i lat : nat)
    (code : Z) (d : list (string * json)) :
  submit_outcome (post_reply e) = Ok job_id ->
  (i < polls_made e job_id (posted e prompt width height w))%nat ->
  poll_reply e i = Replied lat code (JObj d) ->
  http_error code = false ->
  dict_get d "status" JNull = JStr "COMPLETED" ->
  truthy (parse_output (dict_get d "output" JNull)) = true ->
  (forall s, parse_output (dict_get d "output" JNull) <> JStr s) ->
  exists w1 : world,
    run_job cfg e rid prompt width height w
    = (Raise (AttributeError "object has no attribute 'startswith'"), w1)
    /\ guarded_job cfg e rid prompt width height w
       = (Ok (BodyApiError (unknown_error rid), 500), w1)
    /\ file_events (trace w1) = file_events (trace w)
    /\ fetches (trace w1) = fetches (trace w).
Proof.
  intros Hs Hi Hp Hc Hst Htruthy Hnostr.
  assert (J : judge (poll_reply e i) = Finished (Ok (JObj d)))
    by (rewrite Hp; apply judge_completed; assumption).
  destruct (@await_decided e job_id _ i _ Hi J) as [Hout _].
  destruct (await_frame e job_id (posted e prompt width height w)) as [Hf1 Hf2].
  destruct (posted_frame e prompt width height w) as [Hp1 Hp2].
  destruct (await e job_id (posted e prompt width height w)) as [out w1] eqn:Ha.
  cbn [fst snd] in Hout, Hf1, Hf2. subst out.
  set (v := parse_output (dict_get d "output" JNull)) in *.
  assert (Hsave : save_outcome e v
                  = Raise (AttributeError "object has no attribute 'startswith'")
                  /\ save_effects e v (save_path_of rid) = []).
  { destruct v as [| b | n | s | items | fields]; try (split; reflexivity).
    exfalso. exact (Hnostr s eq_refl). }
  destruct Hsave as [Ho He].
  assert (Hrun : run_job cfg e rid prompt width height w
                 = (Raise (AttributeError "object has no attribute 'startswith'"), w1)).
  { rewrite run_job_eval, Hs, Ha. cbn [extract_outcome]. fold v.
    rewrite Htruthy. cbv zeta. rewrite Ho, He, extend_nil. reflexivity. }
  exists w1. split; [exact Hrun|].
  split; [rewrite guarded_job_eval, Hrun; reflexivity|].
  split; congruence.
Qed.

(** The theorem at work when the [image_url] field is the number 7. *)
Lemma non_string_output_witness :
  submit_outcome (post_reply env_numeric_url) = Ok job0
  /\ (0 < polls_made env_numeric_url job0
            (posted env_numeric_url (JStr "x") (JNum 256) (JNum 256) w0))%nat
  /\ truthy (parse_output (JObj [("image_url", JNum 7)])) = true
  /\ exists w1 : world,
       run_job cfg_ok env_numeric_url rid0 (JStr "x") (JNum 256) (JNum 256) w0
       = (Raise (AttributeError "object has no attribute 'startswith'"), w1)
       /\ guarded_job cfg_ok env_numeric_url rid0 (JStr "x") (JNum 256) (JNum 256) w0
          = (Ok (BodyApiError (unknown_error rid0), 500), w1)
       /\ file_events (trace w1) = file_events (trace w0)
       /\ fetches (trace w1) = fetches (trace w0).
Proof.
  assert (Hi : (0 < polls_made env_numeric_url job0
                      (posted env_numeric_url (JStr "x") (JNum 256) (JNum 256) w0))%nat)
    by (vm_compute; apply le_n).
  split; [reflexivity|]. split; [exact Hi|]. split; [reflexivity|].
  apply (@non_string_output cfg_ok env_numeric_url rid0 (JStr "x") (JNum 256)
           (JNum 256) w0 job0 0%nat 0%nat 200
           [("status", JStr "COMPLETED"); ("output", JObj [("image_url", JNum 7)])]);
    try reflexivity; [exact Hi | intros s; discriminate].
Defined.

(** ** [upload_blob] and a local file that is not there *)

(** X12.  When the client and the container client are available but the
    local file does not exist, [upload_blob] returns [None] without
    raising; it has attempted to create the container and has uploaded
    nothing. *)
Theorem upload_missing_file (cfg : config) (e : env) (local_path blob_name : string)
    (w : world) :
  az_from_connection_string e (AZURE_CONN_STR cfg) = None ->
  az_get_container_client e = None ->
  file_content local_path (trace w) = None ->
  upload_blob cfg e local_path blob_name w
  = (Ok None, extend w [EvCreateContainer (CONTAINER_NAME cfg)]).
Proof.
  intros Hc Hcc Hfile. rewrite (@upload_blob_eval cfg e local_path blob_name w Hc).
  unfold upload_result, upload_effects. rewrite Hcc, Hfile.
  destruct (az_get_blob_client e); reflexivity.
Qed.

(** The theorem at work in a world without files. *)
Lemma upload_missing_file_witness :
  az_from_connection_string env_never (AZURE_CONN_STR cfg_ok) = None
  /\ az_get_container_client env_never = None
  /\ file_content "static/generated_images/a.png" (trace w0) = None
  /\ upload_blob cfg_ok env_never "static/generated_images/a.png" "a.png" w0
     = (Ok None, extend w0 [EvCreateContainer (CONTAINER_NAME cfg_ok)]).
Proof.
  split; [reflexivity|]. split; [reflexivity|]. split; [reflexivity|].
  apply (@upload_missing_file cfg_ok env_never "static/generated_images/a.png"
           "a.png" w0); reflexivity.
Defined.

(** ** The [/convert_html_to_pdf] route *)

Lemma write_pdf_eval (render : json -> string -> exn + list byte) (html : json)
    (base_url pdf_path : string) (w : world) :
  write_pdf render html base_url pdf_path w
  = match render html base_url with
    | inl ex => (Raise ex, w)
    | inr document => (Ok tt, extend w [EvOpen pdf_path; EvWrite pdf_path document])
    end.
Proof.
  unfold write_pdf, lift, bind, emit, extend, raise, ret.
  destruct (render html base_url) as [ex | document]; [reflexivity|].
  cbn [now trace]. rewrite <- app_assoc. reflexivity.
Qed.

(** The route on a request that passes its two checks. *)
Lemma convert_valid_eval (cfg : config) (e : env)
    (render : json -> string -> exn + list byte) (host_url : string)
    (d : list (string * json)) (s : string) (w : world) :
  dict_get d "request_id" JNull = JStr s ->
  guid_match s = true ->
  truthy (dict_get d "html" JNull) = true ->
  convert_html_to_pdf cfg e render host_url (JObj d) w
  = match render (dict_get d "html" JNull) host_url with
    | inl ex => (Ok (PdfException ex, 500), w)
    | inr document =>
        let w1 := extend w [EvOpen (pdf_path_of s); EvWrite (pdf_path_of s) document] in
        match az_from_connection_string e (AZURE_CONN_STR cfg) with
        | Some ex => (Ok (PdfException ex, 500), w1)
        | None =>
            (Ok (PdfSuccess (upload_result cfg e (pdf_path_of s) (s ++ ".pdf")%string w1),
                 200),
             extend w1 (upload_effects cfg e (pdf_path_of s) (s ++ ".pdf")%string w1))
        end
    end.
Proof.
  intros Hrid Hguid Hhtml.
  unfold convert_html_to_pdf, py_get. unfold bind at 1, ret at 1.
  unfold bind at 1, ret at 1.
  rewrite Hrid, Hhtml, (guid_match_nonempty s Hguid), Hguid. cbn [negb orb].
  unfold try_except. unfold bind at 1. rewrite write_pdf_eval.
  destruct (render (dict_get d "html" JNull) host_url) as [ex | document];
    [reflexivity|].
  cbv zeta. unfold bind at 1.
  pose proof (upload_blob_frame cfg e (pdf_path_of s) (s ++ ".pdf")%string
                (extend w [EvOpen (pdf_path_of s); EvWrite (pdf_path_of s) document]))
    as Hu.
  destruct (az_from_connection_string e (AZURE_CONN_STR cfg)) as [ex|] eqn:Hc.
  - rewrite Hu. reflexivity.
  - rewrite (@upload_blob_eval cfg e (pdf_path_of s) (s ++ ".pdf")%string _ Hc).
    reflexivity.
Qed.

(** The two checks of the route, and what it does when one of them
    fails. *)
Lemma convert_checks (cfg : config) (e : env)
    (render : json -> string -> exn + list byte) (host_url : string)
    (data : json) (w : world) :
  (convert_html_to_pdf cfg e render host_url data w
   = (Raise (AttributeError "object has no attribute 'get'"), w)
   /\ forall d : list (string * json), data <> JObj d)
  \/ exists d : list (string * json),
       data = JObj d
       /\ ((convert_html_to_pdf cfg e render host_url data w
            = (Ok (PdfError "Missing request_id or html", 400), w)
            /\ (truthy (dict_get d "request_id" JNull) = false
                \/ truthy (dict_get d "html" JNull) = false))
           \/ (truthy (dict_get d "request_id" JNull) = true
               /\ truthy (dict_get d "html" JNull) = true
               /\ ((convert_html_to_pdf cfg e render host_url data w
                    = (Raise (TypeError "expected string or bytes-like object"), w)
                    /\ forall s : string, dict_get d "request_id" JNull <> JStr s)
                   \/ exists s : string,
                        dict_get d "request_id" JNull = JStr s
                        /\ ((guid_match s = false
                             /\ convert_html_to_pdf cfg e render host_url data w
                                = (Ok (PdfError "request_id must be a valid GUID", 400),
                                   w))
                            \/ guid_match s = true)))).
Proof.
  destruct data as [| b | n | s0 | items | d];
    try (left; split; [reflexivity | intros d; discriminate]).
  right. exists d. split; [reflexivity|].
  assert (Hc : convert_html_to_pdf cfg e render host_url (JObj d) w
    = (if negb (truthy (dict_get d "request_id" JNull))
          || negb (truthy (dict_get d "html" JNull))
       then ret (PdfError "Missing request_id or html", 400)
       else
         match dict_get d "request_id" JNull with
         | JStr rid_s =>
             if negb (guid_match rid_s)
             then ret (PdfError "request_id must be a valid GUID", 400)
             else
               try_except
                 (write_pdf render (dict_get d "html" JNull) host_url
                    (pdf_path_of rid_s) ;;
                  blob_url <- upload_blob cfg e (pdf_path_of rid_s)
                                (rid_s ++ ".pdf")%string ;;
                  ret (PdfSuccess blob_url, 200))
                 (fun ex => ret (PdfException ex, 500))
         | _ => raise (TypeError "expected string or bytes-like object")
         end) w) by reflexivity.
  rewrite Hc. clear Hc.
  destruct (truthy (dict_get d "request_id" JNull)) eqn:Trid;
    [|left; split; [reflexivity | left; reflexivity]].
  destruct (truthy (dict_get d "html" JNull)) eqn:Thtml;
    [|left; split; [reflexivity | right; reflexivity]].
  right. split; [reflexivity|]. split; [reflexivity|]. cbn [negb orb].
  destruct (dict_get d "request_id" JNull) as [| b | n | s | items | fields];
    try (left; split; [reflexivity | intros s; discriminate]).
  right. exists s. split; [reflexivity|].
  destruct (guid_match s); [right; reflexivity | left; split; reflexivity].
Qed.

(** X13.  Every way [convert_html_to_pdf] can end, each with the requests
    that end so; the cases exclude one another.  It answers 400, having
    done nothing, for a dict in which the request id or the HTML is missing
    or falsy, and for a dict with a truthy HTML whose request id is a
    string that [GUID_REGEX] refuses.  The other answers are for a dict
    with a truthy HTML and a request id that [GUID_REGEX] accepts: 500 when
    the renderer raised (nothing was written) or when the document was
    rendered and the construction of the Azure client raised (the PDF is
    then left written), with that exception as message; 200 when the
    document was rendered and the client was built, whatever the upload
    did.  An exception leaves the function, with nothing done, when the
    body is no dict or when the request id is truthy and no string while
    the HTML is truthy.  In particular the answer is a 400 exactly for the
    dicts described above.  The configuration is not consulted. *)
Theorem pdf_answer_codes (cfg : config) (e : env)
    (render : json -> string -> exn + list byte) (host_url : string)
    (data : json) (w w' : world) (out : outcome (pdf_body * Z)) :
  convert_html_to_pdf cfg e render host_url data w = (out, w') ->
  match out with
  | Ok (PdfError msg, code) =>
      code = 400 /\ w' = w
      /\ exists d : list (string * json),
           data = JObj d
           /\ ((msg = "Missing request_id or html"
                /\ (truthy (dict_get d "request_id" JNull) = false
                    \/ truthy (dict_get d "html" JNull) = false))
               \/ (msg = "request_id must be a valid GUID"
                   /\ truthy (dict_get d "html" JNull) = true
                   /\ exists s : string,
                        dict_get d "request_id" JNull = JStr s
                        /\ s <> "" /\ guid_match s = false))
  | Ok (PdfException ex, code) =>
      code = 500
      /\ exists (d : list (string * json)) (s : string),
           data = JObj d
           /\ dict_get d "request_id" JNull = JStr s
           /\ guid_match s = true
           /\ truthy (dict_get d "html" JNull) = true
           /\ ((render (dict_get d "html" JNull) host_url = inl ex /\ w' = w)
               \/ exists document : list byte,
                    render (dict_get d "html" JNull) host_url = inr document
                    /\ az_from_connection_string e (AZURE_CONN_STR cfg) = Some ex
                    /\ w' = extend w [EvOpen (pdf_path_of s);
                                      EvWrite (pdf_path_of s) document])
  | Ok (PdfSuccess _, code) =>
      code = 200
      /\ az_from_connection_string e (AZURE_CONN_STR cfg) = None
      /\ exists (d : list (string * json)) (s : string) (document : list byte),
           data = JObj d
           /\ dict_get d "request_id" JNull = JStr s
           /\ guid_match s = true
           /\ truthy (dict_get d "html" JNull) = true
           /\ render (dict_get d "html" JNull) host_url = inr document
  | Raise ex =>
      w' = w
      /\ ((ex = AttributeError "object has no attribute 'get'"
           /\ forall d : list (string * json), data <> JObj d)
          \/ (ex = TypeError "expected string or bytes-like object"
              /\ exists d : list (string * json),
                   data = JObj d
                   /\ truthy (dict_get d "request_id" JNull) = true
                   /\ truthy (dict_get d "html" JNull) = true
                   /\ forall s : string, dict_get d "request_id" JNull <> JStr s))
  | Diverge => False
  end
  /\ ((exists msg : string, out = Ok (PdfError msg, 400))
      <-> exists d : list (string * json),
            data = JObj d
            /\ (truthy (dict_get d "request_id" JNull) = false
                \/ truthy (dict_get d "html" JNull) = false
                \/ exists s : string,
                     dict_get d "request_id" JNull = JStr s
                     /\ guid_match s = false)).
Proof.
  intros H. split; [|
    destruct (convert_checks cfg e render host_url data w)
      as [[Hc Hd]
         | (d & Hd & [[Hc Hf] | (Trid & Thtml & [[Hc Hns] | (s & Hrid & Hg)])])];
    [ rewrite Hc in H; injection H as <- <-; split;
      [ intros [msg Hm]; discriminate
      | intros (d & Hd' & _); exfalso; exact (Hd d Hd') ]
    | rewrite Hc in H; injection H as <- <-; split;
      [ intros _; exists d; split; [exact Hd|];
        destruct Hf as [Hf | Hf]; [left | right; left]; exact Hf
      | intros _; eexists; reflexivity ]
    | rewrite Hc in H; injection H as <- <-; split;
      [ intros [msg Hm]; discriminate
      | intros (d' & Hd' & Hcond); exfalso;
        rewrite Hd in Hd'; injection Hd' as <-;
        destruct Hcond as [Hf | [Hf | (s & Hrid & _)]];
        [ congruence | congruence | exact (Hns s Hrid) ] ]
    | destruct Hg as [[Hguid Hc] | Hguid];
      [ rewrite Hc in H; injection H as <- <-; split;
        [ intros _; exists d; split; [exact Hd|];
          right; right; exists s; split; [exact Hrid | exact Hguid]
        | intros _; eexists; reflexivity ]
      | split;
        [ intros [msg Hm]; exfalso; subst data out;
          rewrite (@convert_valid_eval cfg e render host_url d s w Hrid Hguid Thtml)
            in H;
          destruct (render (dict_get d "html" JNull) host_url);
            [discriminate|];
          cbv zeta in H;
          destruct (az_from_connection_string e (AZURE_CONN_STR cfg)); discriminate
        | intros (d' & Hd' & Hcond); exfalso;
          rewrite Hd in Hd'; injection Hd' as <-;
          destruct Hcond as [Hf | [Hf | (s' & Hrid' & Hguid')]];
          [ congruence | congruence
          | rewrite Hrid in Hrid'; injection Hrid' as <-; congruence ] ] ] ] ].
  destruct (convert_checks cfg e render host_url data w)
    as [[Hc Hd] | (d & Hd & [[Hc Hf] | (Trid & Thtml & [[Hc Hns] | (s & Hrid & Hg)])])].
  - rewrite Hc in H. injection H as <- <-.
    split; [reflexivity|]. left. split; [reflexivity | exact Hd].
  - rewrite Hc in H. injection H as <- <-.
    split; [reflexivity|]. split; [reflexivity|].
    exists d. split; [exact Hd|]. left. split; [reflexivity | exact Hf].
  - rewrite Hc in H. injection H as <- <-.
    split; [reflexivity|]. right. split; [reflexivity|].
    exists d. split; [exact Hd|]. split; [exact Trid|]. split; [exact Thtml | exact Hns].
  - destruct Hg as [[Hguid Hc] | Hguid].
    + rewrite Hc in H. injection H as <- <-.
      split; [reflexivity|]. split; [reflexivity|].
      exists d. split; [exact Hd|]. right. split; [reflexivity|].
      split; [exact Thtml|]. exists s. split; [exact Hrid|].
      split; [|exact Hguid]. intros ->. rewrite Hrid in Trid. discriminate.
    + subst data.
      rewrite (@convert_valid_eval cfg e render host_url d s w Hrid Hguid Thtml) in H.
      destruct (render (dict_get d "html" JNull) host_url) as [ex | document]
        eqn:Hrender.
      { injection H as <- <-. split; [reflexivity|].
        exists d, s. split; [reflexivity|]. split; [exact Hrid|].
        split; [exact Hguid|]. split; [exact Thtml|].
        left. split; [exact Hrender | reflexivity]. }
      cbv zeta in H.
      destruct (az_from_connection_string e (AZURE_CONN_STR cfg)) as [ex|] eqn:Hcs;
        injection H as <- <-.
      * split; [reflexivity|].
        exists d, s. split; [reflexivity|]. split; [exact Hrid|].
        split; [exact Hguid|]. split; [exact Thtml|].
        right. exists document. split; [exact Hrender|]. split; reflexivity.
      * split; [reflexivity|]. split; [reflexivity|].
        exists d, s, document.
        split; [reflexivity|]. split; [exact Hrid|].
        split; [exact Hguid|]. split; [exact Thtml | exact Hrender].
Qed.

(** The theorem at work when nothing is configured and the SDK refuses the
    missing connection string: the answer is 500, not 503, and the PDF is
    left written. *)
Lemma pdf_answer_codes_witness :
  convert_html_to_pdf cfg_empty env_done_strict_azure render_ok
    "http://localhost:5000/" pdf_data0 w0
  = (Ok (PdfException (AttributeError "'NoneType' object has no attribute 'rstrip'"),
         500),
     extend w0 [EvOpen (pdf_path_of rid0);
                EvWrite (pdf_path_of rid0) [Byte.x25; Byte.x50; Byte.x44; Byte.x46]])
  /\ 500 = 500
  /\ exists (d : list (string * json)) (s : string),
       pdf_data0 = JObj d
       /\ dict_get d "request_id" JNull = JStr s
       /\ guid_match s = true
       /\ truthy (dict_get d "html" JNull) = true
       /\ ((render_ok (dict_get d "html" JNull) "http://localhost:5000/"
            = inl (AttributeError "'NoneType' object has no attribute 'rstrip'")
            /\ extend w0 [EvOpen (pdf_path_of rid0);
                          EvWrite (pdf_path_of rid0)
                            [Byte.x25; Byte.x50; Byte.x44; Byte.x46]] = w0)
           \/ exists document : list byte,
                render_ok (dict_get d "html" JNull) "http://localhost:5000/"
                = inr document
                /\ az_from_connection_string env_done_strict_azure
                     (AZURE_CONN_STR cfg_empty)
                   = Some (AttributeError "'NoneType' object has no attribute 'rstrip'")
                /\ extend w0 [EvOpen (pdf_path_of rid0);
                              EvWrite (pdf_path_of rid0)
                                [Byte.x25; Byte.x50; Byte.x44; Byte.x46]]
                   = extend w0 [EvOpen (pdf_path_of s);
                                EvWrite (pdf_path_of s) document]).
Proof.
  assert (H : convert_html_to_pdf cfg_empty env_done_strict_azure render_ok
                "http://localhost:5000/" pdf_data0 w0
              = (Ok (PdfException
                       (AttributeError "'NoneType' object has no attribute 'rstrip'"),
                     500),
                 extend w0 [EvOpen (pdf_path_of rid0);
                            EvWrite (pdf_path_of rid0)
                              [Byte.x25; Byte.x50; Byte.x44; Byte.x46]]))
    by (vm_compute; reflexivity).
  split; [exact H|].
  exact (proj1 (@pdf_answer_codes cfg_empty env_done_strict_azure render_ok
                  "http://localhost:5000/" pdf_data0 w0 _ _ H)).
Defined.

(** X14.  When [convert_html_to_pdf] answers with success, the request
    passed the two checks, the status is 200, and the file
    [static/generated_images/<id>.pdf] holds exactly the document that the
    renderer produced from the HTML of the request and the host URL.  The
    blob URL is present exactly when Azure accepted the three calls of the
    upload, and then the last thing done was the upload, with overwriting,
    of exactly that document under the name [<id>.pdf]; it is [None]
    exactly when one of these calls raised, and the answer is a success all
    the same. *)
Theorem pdf_success_means_uploaded (cfg : config) (e : env)
    (render : json -> string -> exn + list byte) (host_url : string)
    (data : json) (w w' : world) (blob_url : option string) (code : Z) :
  convert_html_to_pdf cfg e render host_url data w
  = (Ok (PdfSuccess blob_url, code), w') ->
  exists (d : list (string * json)) (rid : string) (document : list byte),
    data = JObj d
    /\ dict_get d "request_id" JNull = JStr rid
    /\ guid_match rid = true
    /\ truthy (dict_get d "html" JNull) = true
    /\ code = 200
    /\ render (dict_get d "html" JNull) host_url = inr document
    /\ file_content (pdf_path_of rid) (trace w') = Some document
    /\ az_from_connection_string e (AZURE_CONN_STR cfg) = None
    /\ (blob_url = Some (blob_url_of cfg (rid ++ ".pdf")%string) <-> azure_accepts e)
    /\ (blob_url = None <-> ~ azure_accepts e)
    /\ (azure_accepts e ->
        last (trace w') (EvSleep 0)
        = EvUploadBlob (CONTAINER_NAME cfg) (rid ++ ".pdf")%string document true).
Proof.
  intros H.
  destruct (convert_checks cfg e render host_url data w)
    as [[Hc Hd] | (d & Hd & [[Hc Hf] | (Trid & Thtml & [[Hc Hns] | (s & Hrid & Hg)])])];
    try (rewrite Hc in H; discriminate).
  destruct Hg as [[Hguid Hc] | Hguid]; [rewrite Hc in H; discriminate|].
  subst data.
  rewrite (@convert_valid_eval cfg e render host_url d s w Hrid Hguid Thtml) in H.
  destruct (render (dict_get d "html" JNull) host_url) as [ex | document] eqn:Hrender;
    [discriminate|].
  cbv zeta in H.
  destruct (az_from_connection_string e (AZURE_CONN_STR cfg)) as [ex|]; [discriminate|].
  set (w1 := extend w [EvOpen (pdf_path_of s); EvWrite (pdf_path_of s) document]) in *.
  assert (Hfile : file_content (pdf_path_of s) (trace w1) = Some document).
  { unfold w1, extend. cbn [trace].
    pose proof (file_content_after_write (pdf_path_of s) (trace w) [document]) as Hc.
    cbn [map List.concat] in Hc. rewrite app_nil_r in Hc. exact Hc. }
  injection H as Hblob Hcode Hw'.
  destruct (upload_result_accepts cfg e (pdf_path_of s) (s ++ ".pdf")%string w1 Hfile)
    as (Hsome & Hnone & Hlast).
  destruct (upload_effects_frame cfg e (pdf_path_of s) (s ++ ".pdf")%string w1)
    as [Hfe _].
  exists d, s, document.
  split; [reflexivity|]. split; [exact Hrid|]. split; [exact Hguid|].
  split; [exact Thtml|]. split; [symmetry; exact Hcode|]. split; [exact Hrender|].
  split.
  { rewrite <- Hw'. unfold extend at 1. cbn [trace].
    rewrite (file_content_app_frame _ _ _ Hfe). exact Hfile. }
  split; [reflexivity|].
  rewrite <- Hblob, <- Hw'.
  split; [exact Hsome|]. split; [exact Hnone | exact Hlast].
Qed.

(** The theorem at work on a conversion that Azure accepts. *)
Lemma pdf_success_means_uploaded_witness :
  convert_html_to_pdf cfg_ok env_example render_ok "http://localhost:5000/"
    pdf_data0 w0
  = (Ok (PdfSuccess (Some (blob_url_of cfg_ok (rid0 ++ ".pdf")%string)), 200),
     snd (convert_html_to_pdf cfg_ok env_example render_ok "http://localhost:5000/"
            pdf_data0 w0))
  /\ exists (d : list (string * json)) (rid : string) (document : list byte),
       pdf_data0 = JObj d
       /\ dict_get d "request_id" JNull = JStr rid
       /\ guid_match rid = true
       /\ truthy (dict_get d "html" JNull) = true
       /\ 200 = 200
       /\ render_ok (dict_get d "html" JNull) "http://localhost:5000/" = inr document
       /\ file_content (pdf_path_of rid)
            (trace (snd (convert_html_to_pdf cfg_ok env_example render_ok
                           "http://localhost:5000/" pdf_data0 w0)))
          = Some document
       /\ az_from_connection_string env_example (AZURE_CONN_STR cfg_ok) = None
       /\ (Some (blob_url_of cfg_ok (rid0 ++ ".pdf")%string)
           = Some (blob_url_of cfg_ok (rid ++ ".pdf")%string)
           <-> azure_accepts env_example)
       /\ (Some (blob_url_of cfg_ok (rid0 ++ ".pdf")%string) = None
           <-> ~ azure_accepts env_example)
       /\ (azure_accepts env_example ->
           last (trace (snd (convert_html_to_pdf cfg_ok env_example render_ok
                               "http://localhost:5000/" pdf_data0 w0)))
             (EvSleep 0)
           = EvUploadBlob (CONTAINER_NAME cfg_ok) (rid ++ ".pdf")%string
               document true).
Proof.
  assert (H : convert_html_to_pdf cfg_ok env_example render_ok "http://localhost:5000/"
                pdf_data0 w0
              = (Ok (PdfSuccess (Some (blob_url_of cfg_ok (rid0 ++ ".pdf")%string)), 200),
                 snd (convert_html_to_pdf cfg_ok env_example render_ok
                        "http://localhost:5000/" pdf_data0 w0)))
    by (vm_compute; reflexivity).
  split; [exact H|].
  exact (@pdf_success_means_uploaded cfg_ok env_example render_ok
           "http://localhost:5000/" pdf_data0 w0 _ _ _ H).
Defined.

(** X15.  A document that was rendered stays on disk.  For a request that
    passes the two checks and whose HTML the renderer turns into a
    document, the route answers 200 or 500, never raises, and in both cases
    the only file effects are the opening of
    [static/generated_images/<id>.pdf] and the writing of the document to
    it: the file is not removed when the answer is 500.  The answer is 500
    exactly when the construction of the Azure client raised, whatever
    [check_api_configuration] would say. *)
Theorem rendered_pdf_is_kept (cfg : config) (e : env)
    (render : json -> string -> exn + list byte) (host_url : string)
    (d : list (string * json)) (rid : string) (document : list byte) (w : world) :
  dict_get d "request_id" JNull = JStr rid ->
  guid_match rid = true ->
  truthy (dict_get d "html" JNull) = true ->
  render (dict_get d "html" JNull) host_url = inr document ->
  exists (body : pdf_body) (code : Z) (w' : world),
    convert_html_to_pdf cfg e render host_url (JObj d) w = (Ok (body, code), w')
    /\ file_content (pdf_path_of rid) (trace w') = Some document
    /\ file_events (trace w')
       = file_events (trace w)
         ++ [EvOpen (pdf_path_of rid); EvWrite (pdf_path_of rid) document]
    /\ (code = 200 \/ code = 500)
    /\ (code = 500 <-> az_from_connection_string e (AZURE_CONN_STR cfg) <> None).
Proof.
  intros Hrid Hguid Thtml Hrender.
  rewrite (@convert_valid_eval cfg e render host_url d rid w Hrid Hguid Thtml), Hrender.
  cbv zeta.
  set (w1 := extend w [EvOpen (pdf_path_of rid); EvWrite (pdf_path_of rid) document]).
  assert (Hfile : file_content (pdf_path_of rid) (trace w1) = Some document).
  { unfold w1, extend. cbn [trace].
    pose proof (file_content_after_write (pdf_path_of rid) (trace w) [document]) as Hc.
    cbn [map List.concat] in Hc. rewrite app_nil_r in Hc. exact Hc. }
  assert (Hev : file_events (trace w1)
                = file_events (trace w)
                  ++ [EvOpen (pdf_path_of rid); EvWrite (pdf_path_of rid) document]).
  { unfold w1, extend. cbn [trace]. rewrite file_events_app. reflexivity. }
  destruct (az_from_connection_string e (AZURE_CONN_STR cfg)) as [ex|].
  - exists (PdfException ex), 500, w1.
    split; [reflexivity|]. split; [exact Hfile|]. split; [exact Hev|].
    split; [right; reflexivity|]. split; [discriminate | reflexivity].
  - destruct (upload_effects_frame cfg e (pdf_path_of rid) (rid ++ ".pdf")%string w1)
      as [Hfe _].
    eexists _, 200, _. split; [reflexivity|].
    unfold extend at 1 2. cbn [trace].
    split; [rewrite (file_content_app_frame _ _ _ Hfe); exact Hfile|].
    split; [rewrite file_events_app, Hfe, app_nil_r; exact Hev|].
    split; [left; reflexivity|]. split; [discriminate | intros H; contradiction H; reflexivity].
Qed.

(** The theorem at work with a connection string that the SDK refuses. *)
Lemma rendered_pdf_is_kept_witness :
  dict_get [("request_id", JStr rid0); ("html", JStr "<h1>Hello PDF</h1>")]
    "request_id" JNull = JStr rid0
  /\ guid_match rid0 = true
  /\ exists (body : pdf_body) (code : Z) (w' : world),
       convert_html_to_pdf cfg_bad_azure env_done_strict_azure render_ok
         "http://localhost:5000/" pdf_data0 w0 = (Ok (body, code), w')
       /\ file_content (pdf_path_of rid0) (trace w')
          = Some [Byte.x25; Byte.x50; Byte.x44; Byte.x46]
       /\ file_events (trace w')
          = file_events (trace w0)
            ++ [EvOpen (pdf_path_of rid0);
                EvWrite (pdf_path_of rid0) [Byte.x25; Byte.x50; Byte.x44; Byte.x46]]
       /\ (code = 200 \/ code = 500)
       /\ (code = 500 <->
           az_from_connection_string env_done_strict_azure
             (AZURE_CONN_STR cfg_bad_azure) <> None).
Proof.
  split; [reflexivity|]. split; [reflexivity|].
  apply (@rendered_pdf_is_kept cfg_bad_azure env_done_strict_azure render_ok
           "http://localhost:5000/"
           [("request_id", JStr rid0); ("html", JStr "<h1>Hello PDF</h1>")]
           rid0 [Byte.x25; Byte.x50; Byte.x44; Byte.x46] w0); reflexivity.
Defined.

(** ** [/health] and the configuration gate of [/generate] *)

(** X16.  [health_check] tells what [generate_image] will do with a
    request that passes validation (a GUID as request id, a truthy prompt).
    When the health answer is 503, the request is answered 503 as well,
    with the same list of missing values, and nothing is done; when the
    health answer is 200, the request reaches the [try] statement, which
    catches every exception: the route returns an answer, and its code is
    not 503. *)
Theorem health_predicts_gate (cfg : config) (e : env) (d : list (string * json))
    (rid : string) (w wh : world) :
  dict_get d "request_id" JNull = JStr rid ->
  guid_match rid = true ->
  truthy (dict_get d "prompt" JNull) = true ->
  exists (hs : Health.t) (hcode : Z),
    health_check cfg wh = (Ok (hs, hcode), wh)
    /\ ((hcode = 503
         /\ Health.missing_config hs <> []
         /\ generate_image cfg e (JObj d) w
            = (Ok (BodyConfigMissing (JStr rid) (Health.missing_config hs), 503), w))
        \/ (hcode = 200
            /\ exists (body : response_body) (code : Z) (w' : world),
                 generate_image cfg e (JObj d) w = (Ok (body, code), w')
                 /\ code <> 503)).
Proof.
  intros Hrid Hguid Hprompt.
  assert (Hgi : generate_image cfg e (JObj d) w
    = match check_api_configuration cfg with
      | _ :: _ => (Ok (BodyConfigMissing (JStr rid) (check_api_configuration cfg), 503), w)
      | [] => guarded_job cfg e rid (dict_get d "prompt" JNull)
                (dict_get d "width" (JNum 512)) (dict_get d "height" (JNum 512)) w
      end).
  { unfold generate_image, py_get.
    unfold bind at 1, ret at 1. unfold bind at 1, ret at 1.
    unfold bind at 1, ret at 1. unfold bind at 1, ret at 1.
    rewrite Hrid, Hprompt, (guid_match_nonempty rid Hguid), Hguid. cbn [negb andb].
    destruct (check_api_configuration cfg); reflexivity. }
  unfold health_check, bind, time_time, ret.
  eexists _, _. split; [reflexivity|]. cbn [Health.missing_config].
  rewrite Hgi.
  destruct (check_api_configuration cfg) as [|name names] eqn:Hcfg.
  - right. split; [reflexivity|].
    destruct (guarded_job_shape cfg e rid (dict_get d "prompt" JNull)
                (dict_get d "width" (JNum 512)) (dict_get d "height" (JNum 512)) w)
      as ([body code] & w' & _ & _ & _ & Hg & _).
    exists body, code, w'. split; [exact Hg|].
    apply guarded_job_answer in Hg.
    destruct body as [msg | r m | r | u b]; try contradiction.
    + destruct Hg as [[-> _] | [-> _]]; discriminate.
    + destruct Hg as [-> _]. discriminate.
  - left. split; [reflexivity|]. split; [discriminate | reflexivity].
Qed.

(** The theorem at work when nothing is configured. *)
Lemma health_predicts_gate_witness :
  dict_get [("request_id", JStr rid0); ("prompt", JStr "a red fox")] "request_id" JNull
  = JStr rid0
  /\ guid_match rid0 = true
  /\ exists (hs : Health.t) (hcode : Z),
       health_check cfg_empty w0 = (Ok (hs, hcode), w0)
       /\ ((hcode = 503
            /\ Health.missing_config hs <> []
            /\ generate_image cfg_empty env_example
                 (JObj [("request_id", JStr rid0); ("prompt", JStr "a red fox")]) w0
               = (Ok (BodyConfigMissing (JStr rid0) (Health.missing_config hs), 503), w0))
           \/ (hcode = 200
               /\ exists (body : response_body) (code : Z) (w' : world),
                    generate_image cfg_empty env_example
                      (JObj [("request_id", JStr rid0); ("prompt", JStr "a red fox")]) w0
                    = (Ok (body, code), w')
                    /\ code <> 503)).
Proof.
  split; [reflexivity|]. split; [reflexivity|].
  apply (@health_predicts_gate cfg_empty env_example
           [("request_id", JStr rid0); ("prompt", JStr "a red fox")] rid0 w0 w0);
    reflexivity.
Defined.
